(** * Chrome bookmark converter (tools/bookmark/run.py): model and properties

    The older script workspaces/html_to_excel.py is modelled in [Legacy].

    The development follows the layout of the script:
    - [PyStr]: the [str] methods the script calls (split, replace,
      startswith, lower, strip, lstrip, isdigit, int, join);
    - [Soup]: the parsed markup tree and the navigation calls the decoder
      makes on it (find, find_all, find_parent, find_previous_sibling,
      .string, get_text, get);
    - the decoder ([BookmarkDecoder]), the encoder registry
      ([BookmarkEncoder]), the five built-in encoders, the converter and the
      statistics branch of [main], written with explicit state passing;
    - the properties, one block per claim.

    A Python [str] is represented by [string]: the sequence of the bytes of
    its UTF-8 encoding.  Every pattern the script searches for is ASCII, and
    searching for an ASCII pattern gives the same answer on code points and
    on UTF-8 bytes.  [lower], [upper] and [isdigit] are modelled on the
    ASCII range (letters A-Z and a-z, digits 0-9); [strip] removes the white
    space of Unicode, each character by the bytes of its encoding. *)

From Stdlib Require Import ZArith Ascii DecimalString.
From Stdlib Require String.
From stdpp Require Import base list strings gmap sorting.

Set Warnings "-register-all".

(* ===================================================================== *)
(** ** Python [str] methods                                                *)
(* ===================================================================== *)

Module PyStr.

(** [s.startswith(p)] *)
Definition startswith (p s : string) : bool := String.prefix p s.

(** [s.startswith((p1, p2, ...))] *)
Definition startswith_any (ps : list string) (s : string) : bool :=
  existsb (fun p => startswith p s) ps.

(** [sep in s], for a separator that is not empty *)
Fixpoint contains (sep s : string) : bool :=
  match s with
  | EmptyString => false
  | String _ s' => startswith sep s || contains sep s'
  end.

(** [s.split(sep)] for a separator that is not empty: the pieces between
    the occurrences of [sep], found left to right without overlap.  The
    result is never empty, so it is returned as its first piece and the
    list of the others.  [skip] counts the characters of a separator that
    has just been matched and are still to be passed over. *)
Fixpoint split_go (sep : string) (skip : nat) (s : string) : string * list string :=
  match s with
  | EmptyString => (EmptyString, [])
  | String c s' =>
      match skip with
      | S k => split_go sep k s'
      | O =>
          if startswith sep s
          then (EmptyString,
                let '(h, t) := split_go sep (String.length sep - 1) s' in h :: t)
          else let '(h, t) := split_go sep 0 s' in (String c h, t)
      end
  end.

Definition split (sep s : string) : list string :=
  let '(h, t) := split_go sep 0 s in h :: t.

(** [s.replace(old, new)] for [old] not empty *)
Fixpoint replace_go (old new : string) (skip : nat) (s : string) : string :=
  match s with
  | EmptyString => EmptyString
  | String c s' =>
      match skip with
      | S k => replace_go old new k s'
      | O =>
          if startswith old s
          then new +:+ replace_go old new (String.length old - 1) s'
          else String c (replace_go old new 0 s')
      end
  end.

Definition replace (old new s : string) : string := replace_go old new 0 s.

(** [s.lower()] on the ASCII letters *)
Definition is_upper (c : ascii) : bool :=
  let n := N_of_ascii c in (65 <=? n)%N && (n <=? 90)%N.

(** No upper-case letter occurs in [p] *)
Fixpoint no_upper (p : string) : bool :=
  match p with
  | EmptyString => true
  | String a p' => negb (is_upper a) && no_upper p'
  end.

Definition lower_char (c : ascii) : ascii :=
  if is_upper c then ascii_of_N (N_of_ascii c + 32) else c.

Fixpoint lower (s : string) : string :=
  match s with
  | EmptyString => EmptyString
  | String c s' => String (lower_char c) (lower s')
  end.

(** The white space that [str.strip] removes.  In ASCII: tab, line feed,
    vertical tab, form feed, carriage return, the four separators
    0x1c-0x1f and the space. *)
Definition is_space (c : ascii) : bool :=
  let n := N_of_ascii c in
  ((9 <=? n)%N && (n <=? 13)%N) || ((28 <=? n)%N && (n <=? 32)%N).

(** [s.lstrip()] and [s.lstrip(chars)] share one loop: drop the leading
    characters that satisfy [p]. *)
Fixpoint lstrip_by (p : ascii -> bool) (s : string) : string :=
  match s with
  | EmptyString => EmptyString
  | String c s' => if p c then lstrip_by p s' else s
  end.

(** The white-space characters outside ASCII, by the bytes of their UTF-8
    encoding.  Two bytes: U+0085 and U+00A0.  Three bytes: U+1680, U+2000
    to U+200A, U+2028, U+2029, U+202F, U+205F and U+3000. *)
Definition is_space2 (a b : ascii) : bool :=
  (N_of_ascii a =? 194)%N && ((N_of_ascii b =? 133)%N || (N_of_ascii b =? 160)%N).

Definition is_space3 (a b c : ascii) : bool :=
  let l := N_of_ascii a in
  let m := N_of_ascii b in
  let n := N_of_ascii c in
  ((l =? 225)%N && (m =? 154)%N && (n =? 128)%N)
  || ((l =? 226)%N && (m =? 128)%N
      && (((128 <=? n)%N && (n <=? 138)%N) || (n =? 168)%N || (n =? 169)%N || (n =? 175)%N))
  || ((l =? 226)%N && (m =? 129)%N && (n =? 159)%N)
  || ((l =? 227)%N && (m =? 128)%N && (n =? 128)%N).

(** The loop of [s.lstrip()]: drop the leading characters of one, two or
    three bytes that satisfy [p1], [p2] or [p3]. *)
Fixpoint lstrip_with (p1 : ascii -> bool) (p2 : ascii -> ascii -> bool)
    (p3 : ascii -> ascii -> ascii -> bool) (s : string) : string :=
  match s with
  | EmptyString => EmptyString
  | String a s1 =>
      if p1 a then lstrip_with p1 p2 p3 s1
      else
        match s1 with
        | EmptyString => s
        | String b s2 =>
            if p2 a b then lstrip_with p1 p2 p3 s2
            else
              match s2 with
              | EmptyString => s
              | String c s3 => if p3 a b c then lstrip_with p1 p2 p3 s3 else s
              end
        end
  end.

(** [s] begins with a character that [lstrip_with] drops *)
Definition starts_with (p1 : ascii -> bool) (p2 : ascii -> ascii -> bool)
    (p3 : ascii -> ascii -> ascii -> bool) (s : string) : bool :=
  match s with
  | EmptyString => false
  | String a s1 =>
      p1 a
      || match s1 with
         | EmptyString => false
         | String b s2 =>
             p2 a b
             || match s2 with
                | EmptyString => false
                | String c _ => p3 a b c
                end
         end
  end.

(** [s.lstrip()] *)
Definition lstrip (s : string) : string := lstrip_with is_space is_space2 is_space3 s.

(** [s.rstrip()]: the same loop from the end of the text, where the bytes
    of a character come in reverse order *)
Definition rstrip (s : string) : string :=
  String.rev
    (lstrip_with is_space (fun b a => is_space2 a b) (fun c b a => is_space3 a b c)
       (String.rev s)).

(** [s.strip()] *)
Definition strip (s : string) : string := rstrip (lstrip s).

(** [s.lstrip(chars)] *)
Definition lstrip_chars (chars : list ascii) (s : string) : string :=
  lstrip_by (fun c => bool_decide (c ∈ chars)) s.

(** [s.isdigit()]: not empty and only digits *)
Definition is_digit (c : ascii) : bool :=
  let n := N_of_ascii c in (48 <=? n)%N && (n <=? 57)%N.

Fixpoint all_digits (s : string) : bool :=
  match s with
  | EmptyString => true
  | String c s' => is_digit c && all_digits s'
  end.

Definition isdigit (s : string) : bool :=
  match s with
  | EmptyString => false
  | _ => all_digits s
  end.

(** [int(s)] on a string of digits (Python integers are unbounded) *)
Fixpoint int_go (acc : Z) (s : string) : Z :=
  match s with
  | EmptyString => acc
  | String c s' => int_go (10 * acc + (Z.of_N (N_of_ascii c) - 48)) s'
  end.

Definition int (s : string) : Z := int_go 0 s.

(** [sep.join(parts)] *)
Fixpoint join (sep : string) (parts : list string) : string :=
  match parts with
  | [] => EmptyString
  | [p] => p
  | p :: ps => p +:+ sep +:+ join sep ps
  end.

(** Truth value of a [str]: not empty *)
Definition truthy (s : string) : bool :=
  match s with EmptyString => false | _ => true end.

(** [str(n)] for a natural number *)
Definition of_nat (n : nat) : string :=
  NilEmpty.string_of_uint (Nat.to_uint n).

(** [s.endswith(suffix)] *)
Definition endswith (suffix s : string) : bool :=
  startswith (String.rev suffix) (String.rev s).

(** [s.endswith((s1, s2, ...))] *)
Definition endswith_any (suffixes : list string) (s : string) : bool :=
  existsb (fun x => endswith x s) suffixes.

(** [s.isascii()]: every character is below U+0080 *)
Fixpoint isascii (s : string) : bool :=
  match s with
  | EmptyString => true
  | String c s' => (N_of_ascii c <? 128)%N && isascii s'
  end.

(** [s.upper()] on the ASCII letters *)
Definition is_lower (c : ascii) : bool :=
  let n := N_of_ascii c in (97 <=? n)%N && (n <=? 122)%N.

Definition upper_char (c : ascii) : ascii :=
  if is_lower c then ascii_of_N (N_of_ascii c - 32) else c.

Fixpoint upper (s : string) : string :=
  match s with
  | EmptyString => EmptyString
  | String c s' => String (upper_char c) (upper s')
  end.

End PyStr.

(* ===================================================================== *)
(** ** The parsed markup tree                                              *)
(* ===================================================================== *)

(** What [BeautifulSoup(html, 'html.parser')] builds: tags (name, attribute
    dictionary, contents) and text nodes.  The parser itself is a library
    and is a parameter of the decoder (see [Platform]); the navigation calls
    are defined here.  An element in the tree is a node together with the
    chain of its ancestors, nearest first; each link of the chain keeps the
    ancestor and the siblings that precede the node below it, nearest
    first. *)

Module Soup.

Inductive Node : Type :=
| Tag (name : string) (attrs : gmap string string) (contents : list Node)
| NavigableString (text : string).

Record Frame := mkFrame {
  parent : Node;
  previous_siblings : list Node
}.

Record Element := mkElement {
  node : Node;
  ancestors : list Frame
}.

(** The top of the tree: the [BeautifulSoup] object itself *)
Definition document (top : list Node) : Node := Tag "[document]" ∅ top.

Definition top_element (soup : Node) : Element := mkElement soup [].

Definition is_tag (name : string) (n : Node) : bool :=
  match n with
  | Tag nm _ _ => String.eqb nm name
  | NavigableString _ => false
  end.

(** All elements strictly below [n], in document order *)
Fixpoint descendants (ctx : list Frame) (n : Node) : list Element :=
  match n with
  | NavigableString _ => []
  | Tag _ _ cs =>
      (fix children (left cs : list Node) : list Element :=
         match cs with
         | [] => []
         | c :: cs' =>
             let ctx' := mkFrame n left :: ctx in
             mkElement c ctx' :: descendants ctx' c ++ children (c :: left) cs'
         end) [] cs
  end.

(** [e.find_all(name)] *)
Definition find_all (name : string) (e : Element) : list Element :=
  List.filter (fun d => is_tag name (node d)) (descendants (ancestors e) (node e)).

(** [e.find(name)] *)
Definition find (name : string) (e : Element) : option Element :=
  head (find_all name e).

(** [e.find_parent(name)]: the nearest ancestor with that tag name *)
Fixpoint find_parent_in (name : string) (fs : list Frame) : option Element :=
  match fs with
  | [] => None
  | f :: fs' =>
      if is_tag name (parent f) then Some (mkElement (parent f) fs')
      else find_parent_in name fs'
  end.

Definition find_parent (name : string) (e : Element) : option Element :=
  find_parent_in name (ancestors e).

(** [e.find_previous_sibling(name)]: the nearest preceding sibling with that
    tag name *)
Fixpoint find_previous_sibling_in (name : string) (p : Node) (up : list Frame)
    (sibs : list Node) : option Element :=
  match sibs with
  | [] => None
  | n :: sibs' =>
      if is_tag name n then Some (mkElement n (mkFrame p sibs' :: up))
      else find_previous_sibling_in name p up sibs'
  end.

Definition find_previous_sibling (name : string) (e : Element) : option Element :=
  match ancestors e with
  | [] => None
  | f :: up => find_previous_sibling_in name (parent f) up (previous_siblings f)
  end.

(** [tag.string]: the text of a tag whose only content is a text node, or
    is a tag that itself has such a [.string]; [None] otherwise *)
Fixpoint string_of (n : Node) : option string :=
  match n with
  | NavigableString s => Some s
  | Tag _ _ [c] => string_of c
  | Tag _ _ _ => None
  end.

(** The text nodes below [n], in document order *)
Fixpoint strings (n : Node) : list string :=
  match n with
  | NavigableString s => [s]
  | Tag _ _ cs =>
      (fix each (cs : list Node) : list string :=
         match cs with
         | [] => []
         | c :: cs' => strings c ++ each cs'
         end) cs
  end.

(** [tag.get_text(strip=True)]: every text node stripped, the empty ones
    dropped, the rest concatenated *)
Definition get_text_strip (n : Node) : string :=
  PyStr.join EmptyString (List.filter PyStr.truthy (map PyStr.strip (strings n))).

(** [tag.get(key)]: [None] when the attribute is absent *)
Definition get (key : string) (n : Node) : option string :=
  match n with
  | Tag _ attrs _ => attrs !! key
  | NavigableString _ => None
  end.

(** [tag.get(key, default)] *)
Definition get_default (key default : string) (n : Node) : string :=
  from_option id default (get key n).

End Soup.

(* ===================================================================== *)
(** ** Exceptions, the platform, the process state                         *)
(* ===================================================================== *)

(** The exception classes that occur, with the part of Python's class
    hierarchy that the [except] clauses of the script depend on. *)
Inductive ExcClass :=
| ValueError | OSError | OverflowError | TypeError | IndexError
| FileNotFoundError | UnicodeDecodeError | OtherException.

#[global] Instance ExcClass_eq_dec : EqDecision ExcClass.
Proof. solve_decision. Defined.

Definition issubclass (c base : ExcClass) : bool :=
  match c, base with
  | FileNotFoundError, OSError => true
  | UnicodeDecodeError, ValueError => true
  | _, _ => bool_decide (c = base)
  end.

Record Exception := mkException {
  exc_class : ExcClass;
  exc_message : string
}.

Inductive Outcome (A : Type) :=
| Return (a : A)
| Raise (e : Exception).
Arguments Return {A} a.
Arguments Raise {A} e.

(** What the script asks of the libraries and of the operating system.
    - [html_parser html]: [BeautifulSoup(html, 'html.parser')], the
      document node or the exception the parser raises;
    - [fromtimestamp_strftime n]:
      [datetime.fromtimestamp(n).strftime('%Y-%m-%d %H:%M:%S')];
    - [path_exists p]: [os.path.exists(p)];
    - [read_text p enc]: [open(p, 'r', encoding=enc).read()];
    - [now_stamp]: [datetime.now().strftime('%Y%m%d_%H%M%S')];
    - [write_failure p]: the exception raised when the file [p] is written,
      if any. *)
Record Platform := mkPlatform {
  html_parser : string -> Outcome Soup.Node;
  fromtimestamp_strftime : Z -> Outcome string;
  path_exists : string -> bool;
  read_text : string -> string -> Outcome string;
  now_stamp : string;
  write_failure : string -> option Exception
}.

(** One decoded bookmark: the dictionary built by [_parse_bookmark] *)
Record Bookmark := mkBookmark {
  title : string;
  url : string;
  domain : string;
  folder : string;
  add_date : string;
  last_modified : string;
  bookmark_type : string;
  has_icon : bool;
  icon : string
}.

(** Cells and tables of the tabular outputs *)
Inductive Cell :=
| CStr (s : string)
| CBool (b : bool)
| CInt (n : nat).

Record Table := mkTable {
  columns : list string;
  rows : list (list Cell)
}.

(** The two kinds of entries of the category/link output *)
Record Category := mkCategory {
  cat_id : nat;
  cat_title : string
}.

Record Link := mkLink {
  link_name : string;
  link_link : string;
  link_icon : option string;
  link_category : option nat
}.

(** What an encoder leaves in a file *)
Inductive Artifact :=
| Workbook (sheets : list (string * Table))
| Csv (t : Table)
| Json (bookmarks : list Bookmark)
| Yaml (categories : list Category) (links : list Link).

Inductive Level := INFO | WARNING | ERROR.

(** The counters of a [BookmarkDecoder] instance *)
Record BookmarkDecoder := mkDecoder {
  total_bookmarks : nat;
  total_folders : nat;
  processed_files : nat
}.

(** [BookmarkDecoder.__init__] *)
Definition BookmarkDecoder_init : BookmarkDecoder := mkDecoder 0 0 0.

(** The state the script mutates: the decoder instance of the converter,
    the records sent to the logger, the lines printed, the files written. *)
Record State := mkState {
  decoder : BookmarkDecoder;
  logged : list (Level * string);
  printed : list string;
  written : list (string * Artifact)
}.

Definition initial_state : State := mkState BookmarkDecoder_init [] [] [].

(** Values returned through [Any]: [None] or a string *)
Inductive PyValue :=
| PyNone
| PyStr_ (s : string).

(** State and exceptions *)
Definition M (A : Type) : Type := State -> Outcome A * State.

#[global] Instance M_ret : MRet M := fun A (a : A) st => (Return a, st).

#[global] Instance M_bind : MBind M := fun A B (k : A -> M B) (m : M A) st =>
  match m st with
  | (Return a, st') => k a st'
  | (Raise e, st') => (Raise e, st')
  end.

Definition raise {A} (e : Exception) : M A := fun st => (Raise e, st).

(** [try: m  except Exception as e: h e] *)
Definition try_except {A} (m : M A) (h : Exception -> M A) : M A :=
  fun st =>
    match m st with
    | (Return a, st') => (Return a, st')
    | (Raise e, st') => h e st'
    end.

(** [logger.info], [logger.warning], [logger.error] *)
Definition log (lvl : Level) (msg : string) : M unit :=
  fun st => (Return tt,
             mkState (decoder st) (logged st ++ [(lvl, msg)]) (printed st) (written st)).

(** [print] *)
Definition print (line : string) : M unit :=
  fun st => (Return tt,
             mkState (decoder st) (logged st) (printed st ++ [line]) (written st)).

(** Reading and updating the decoder instance *)
Definition get_decoder : M BookmarkDecoder := fun st => (Return (decoder st), st).

Definition set_decoder (d : BookmarkDecoder) : M unit :=
  fun st => (Return tt, mkState d (logged st) (printed st) (written st)).

Definition lift {A} (o : Outcome A) : M A := fun st => (o, st).

(* ===================================================================== *)
(** ** BookmarkDecoder                                                     *)
(* ===================================================================== *)

Section Decoder.

Variable P : Platform.

(** [BookmarkDecoder._clean_folder_path] *)
Definition _clean_folder_path (path : string) : string :=
  if negb (PyStr.truthy path) then "书签栏"
  else PyStr.strip (PyStr.lstrip_chars [">"%char] (PyStr.strip path)).

(** [BookmarkDecoder._convert_timestamp].  The [except] clause names
    [ValueError] and [OSError]; any other exception leaves the function. *)
Definition _convert_timestamp (timestamp : string) : Outcome string :=
  if PyStr.truthy timestamp && PyStr.isdigit timestamp then
    match fromtimestamp_strftime P (PyStr.int timestamp) with
    | Return s => Return s
    | Raise e =>
        if issubclass (exc_class e) ValueError || issubclass (exc_class e) OSError
        then Return "未知日期"
        else Raise e
    end
  else Return "未知日期".

(** [BookmarkDecoder._extract_domain].  The two subscripts are the only
    operations of the [try] block that can raise; the bare [except] turns
    that into the empty string. *)
Definition _extract_domain (url : string) : string :=
  if negb (PyStr.truthy url) || negb (PyStr.contains "://" url) then EmptyString
  else
    match PyStr.split "://" url !! 1 with
    | Some rest =>
        match PyStr.split "/" rest !! 0 with
        | Some domain => PyStr.replace "www." EmptyString domain
        | None => EmptyString
        end
    | None => EmptyString
    end.

(** [BookmarkDecoder._get_bookmark_type] *)
Definition _get_bookmark_type (url : string) : string :=
  if negb (PyStr.truthy url) then "unknown"
  else
    let url_lower := PyStr.lower url in
    if PyStr.startswith_any ["http://"; "https://"] url_lower then "website"
    else if PyStr.startswith "file://" url_lower then "local"
    else if PyStr.startswith "javascript:" url_lower then "javascript"
    else if PyStr.startswith "mailto:" url_lower then "email"
    else "other".

(** [BookmarkDecoder._parse_bookmark]: the entries of the dictionary are
    evaluated in the order they are written; an exception raised on the way
    is logged as a warning and the link yields [None]. *)
Definition _parse_bookmark (a_element : Soup.Node) (folder : string) : M (option Bookmark) :=
  try_except
    (let text := Soup.get_text_strip a_element in
     let title := if PyStr.truthy text then text else "无标题" in
     let url := PyStr.strip (Soup.get_default "href" EmptyString a_element) in
     let domain := _extract_domain url in
     let folder := _clean_folder_path folder in
     add_date ← lift (_convert_timestamp (Soup.get_default "add_date" EmptyString a_element));
     last_modified ← lift (_convert_timestamp (Soup.get_default "last_modified" EmptyString a_element));
     mret (Some {|
       title := title;
       url := url;
       domain := domain;
       folder := folder;
       add_date := add_date;
       last_modified := last_modified;
       bookmark_type := _get_bookmark_type url;
       has_icon := from_option PyStr.truthy false (Soup.get "icon" a_element);
       icon := Soup.get_default "icon" EmptyString a_element
     |}))
    (fun e => log WARNING ("解析书签时出错: " +:+ exc_message e);; mret None).

(** One round of the [while parent:] loop of [_parse_folder]: the heading
    that precedes the list [parent], when it has a non-empty [.string], is
    put in front of the path. *)
Definition folder_step (parent : Soup.Element) (folder_path : list string) : list string :=
  match Soup.find_previous_sibling "h3" parent with
  | Some folder_tag =>
      match Soup.string_of (Soup.node folder_tag) with
      | Some s => if PyStr.truthy s then s :: folder_path else folder_path
      | None => folder_path
      end
  | None => folder_path
  end.

(** The loop itself.  [parent = link.find_parent('dl')] and then
    [parent = parent.find_parent('dl')] visit, nearest first, the ancestors
    named [dl]; the recursion runs along the ancestor chain and does a round
    at each of them (see [folder_loop_find_parent]). *)
Fixpoint folder_loop (chain : list Soup.Frame) (folder_path : list string) : list string :=
  match chain with
  | [] => folder_path
  | f :: up =>
      if Soup.is_tag "dl" (Soup.parent f)
      then folder_loop up (folder_step (Soup.mkElement (Soup.parent f) up) folder_path)
      else folder_loop up folder_path
  end.

(** The folder of a link, as [_parse_folder] assembles it *)
Definition folder_of (link : Soup.Element) : string :=
  match folder_loop (Soup.ancestors link) [] with
  | [] => "书签栏"
  | folder_path => PyStr.join " > " folder_path
  end.

(** The [for link in root.find_all('a')] loop of [_parse_folder] *)
Fixpoint parse_links (links : list Soup.Element) (bookmarks : list Bookmark)
    : M (list Bookmark) :=
  match links with
  | [] => mret bookmarks
  | link :: rest =>
      bookmark ← _parse_bookmark (Soup.node link) (folder_of link);
      match bookmark with
      | Some b =>
          self ← get_decoder;
          set_decoder (mkDecoder (total_bookmarks self + 1) (total_folders self)
                                 (processed_files self));;
          parse_links rest (bookmarks ++ [b])
      | None => parse_links rest bookmarks
      end
  end.

(** [BookmarkDecoder._parse_folder] *)
Definition _parse_folder (root : Soup.Element) : M (list Bookmark) :=
  parse_links (Soup.find_all "a" root) [].

(** [BookmarkDecoder.decode] *)
Definition decode (html_content : string) : M (list Bookmark) :=
  try_except
    (soup ← lift (html_parser P html_content);
     match Soup.find "dl" (Soup.top_element soup) with
     | None => log WARNING "未找到有效的根标签(<DL>)";; mret []
     | Some root => _parse_folder root
     end)
    (fun e => log ERROR ("解码 HTML 内容时出错: " +:+ exc_message e);; raise e).

(** The [for encoding in encodings] loop of [decode_html]: the first
    encoding that reads the file wins; [UnicodeDecodeError] moves on to the
    next one, any other exception leaves the loop. *)
Fixpoint read_with (encodings : list string) (file_path : string) : M (option string) :=
  match encodings with
  | [] => mret None
  | encoding :: rest =>
      match read_text P file_path encoding with
      | Return content => log INFO ("使用编码: " +:+ encoding);; mret (Some content)
      | Raise e =>
          if issubclass (exc_class e) UnicodeDecodeError then read_with rest file_path
          else raise e
      end
  end.

(** [BookmarkDecoder.decode_html].  [UnicodeDecodeError] takes five
    arguments, so the [raise] after the loop raises [TypeError]. *)
Definition decode_html (file_path : string) : M (list Bookmark) :=
  if negb (path_exists P file_path)
  then raise (mkException FileNotFoundError ("文件 " +:+ file_path +:+ " 不存在"))
  else
    try_except
      (html_content ← read_with ["utf-8"; "gbk"; "latin-1"; "iso-8859-1"] file_path;
       match html_content with
       | None =>
           raise (mkException TypeError "function takes exactly 5 arguments (1 given)")
       | Some html =>
           self ← get_decoder;
           set_decoder (mkDecoder (total_bookmarks self) (total_folders self)
                                  (processed_files self + 1));;
           decode html
       end)
      (fun e => log ERROR ("读取文件时出错: " +:+ exc_message e);; raise e).

End Decoder.

(* ===================================================================== *)
(** ** Built-in encoders                                                   *)
(* ===================================================================== *)

(** The keys of a bookmark dictionary, in insertion order, and its values *)
Definition bookmark_keys : list string :=
  ["title"; "url"; "domain"; "folder"; "add_date"; "last_modified";
   "bookmark_type"; "has_icon"; "icon"].

Definition bookmark_values (b : Bookmark) : list Cell :=
  [CStr (title b); CStr (url b); CStr (domain b); CStr (folder b);
   CStr (add_date b); CStr (last_modified b); CStr (bookmark_type b);
   CBool (has_icon b); CStr (icon b)].

(** [pd.DataFrame(bookmarks)]: no columns when there is no bookmark *)
Definition DataFrame (bookmarks : list Bookmark) : Table :=
  match bookmarks with
  | [] => mkTable [] []
  | _ => mkTable bookmark_keys (map bookmark_values bookmarks)
  end.

(** [column_mapping] of [_encode_excel] *)
Definition column_mapping : gmap string string :=
  list_to_map [("title", "标题"); ("url", "网址"); ("domain", "域名");
               ("folder", "文件夹路径"); ("add_date", "添加日期");
               ("last_modified", "最后修改"); ("bookmark_type", "书签类型");
               ("has_icon", "是否有图标"); ("icon", "图标数据")].

(** [df.rename(columns=mapping)] *)
Definition rename (mapping : gmap string string) (t : Table) : Table :=
  mkTable (map (fun c => from_option id c (mapping !! c)) (columns t)) (rows t).

(** [len([b for b in bookmarks if p(b)])] *)
Definition count_if (p : Bookmark -> bool) (bookmarks : list Bookmark) : nat :=
  length (List.filter p bookmarks).

(** The [stats] dictionary of [_encode_excel]: the two columns of the
    summary sheet *)
Definition excel_stats (bookmarks : list Bookmark) : list string * list nat :=
  (["总书签数"; "网页书签"; "本地文件"; "其他类型"],
   [length bookmarks;
    count_if (fun b => String.eqb (bookmark_type b) "website") bookmarks;
    count_if (fun b => String.eqb (bookmark_type b) "local") bookmarks;
    count_if (fun b => bool_decide (bookmark_type b ∈ ["other"; "unknown"])) bookmarks]).

(** [pd.DataFrame(stats)] *)
Definition stats_table (stats : list string * list nat) : Table :=
  mkTable ["统计项"; "数量"]
          (zip_with (fun k n => [CStr k; CInt n]) (fst stats) (snd stats)).

Section Encoders.

Variable P : Platform.

(** Writing an output file: the platform may refuse *)
Definition write_file (path : string) (a : Artifact) : M unit :=
  fun st =>
    match write_failure P path with
    | Some e => (Raise e, st)
    | None => (Return tt,
               mkState (decoder st) (logged st) (printed st) (written st ++ [(path, a)]))
    end.

(** The choice of the output file name, shared by the file encoders:
    a time-stamped default when none is given, the extension added when it
    is missing. *)
Definition output_name (output_file : option string) (extensions : list string)
    (extension : string) : string :=
  match output_file with
  | Some (String c f) =>
      if PyStr.endswith_any extensions (String c f) then String c f
      else String c f +:+ extension
  | _ => "bookmarks_" +:+ now_stamp P +:+ extension
  end.

(** [_encode_excel] *)
Definition _encode_excel (bookmarks : list Bookmark) (output_file : option string)
    : M PyValue :=
  let output_file := output_name output_file [".xlsx"] ".xlsx" in
  let df := rename column_mapping (DataFrame bookmarks) in
  let stats := excel_stats bookmarks in
  write_file output_file
    (Workbook [("书签列表", df); ("统计信息", stats_table stats)]);;
  mret (PyStr_ output_file).

(** [_encode_csv]: header and rows only when there is a bookmark *)
Definition _encode_csv (bookmarks : list Bookmark) (output_file : option string)
    : M PyValue :=
  let output_file := output_name output_file [".csv"] ".csv" in
  write_file output_file (Csv (DataFrame bookmarks));;
  mret (PyStr_ output_file).

(** [_encode_json] *)
Definition _encode_json (bookmarks : list Bookmark) (output_file : option string)
    : M PyValue :=
  let output_file := output_name output_file [".json"] ".json" in
  write_file output_file (Json bookmarks);;
  mret (PyStr_ output_file).

(** [f"{i:3d}"]: right-aligned in a field of three *)
Definition pad3 (i : nat) : string :=
  let s := PyStr.of_nat i in
  match String.length s with
  | 1 => "  " +:+ s
  | 2 => " " +:+ s
  | _ => s
  end.

(** ["-" * 60] *)
Definition dashes : string :=
  "------------------------------------------------------------".

(** The [for i, bookmark in enumerate(bookmarks, 1)] loop of
    [_encode_stdout] *)
Fixpoint print_bookmarks (i : nat) (bookmarks : list Bookmark) : M unit :=
  match bookmarks with
  | [] => mret tt
  | bookmark :: rest =>
      print (pad3 i +:+ ". " +:+ title bookmark);;
      print ("    网址: " +:+ url bookmark);;
      print ("    路径: " +:+ folder bookmark);;
      print ("    类型: " +:+ bookmark_type bookmark);;
      print dashes;;
      print_bookmarks (S i) rest
  end.

(** [_encode_stdout] *)
Definition _encode_stdout (bookmarks : list Bookmark) (output_file : option string)
    : M PyValue :=
  print_bookmarks 1 bookmarks;;
  print (String "010" "总计: " +:+ PyStr.of_nat (length bookmarks) +:+ " 个书签");;
  mret PyNone.

(** [sorted(set(bookmark['folder'] for bookmark in bookmarks if bookmark['folder']))] *)
Definition flare_folders (bookmarks : list Bookmark) : list string :=
  merge_sort String.le
    (elements (list_to_set (List.filter PyStr.truthy (map folder bookmarks)) : gset string)).

(** [enumerate(xs, start)] *)
Fixpoint enumerate {A} (start : nat) (xs : list A) : list (nat * A) :=
  match xs with
  | [] => []
  | x :: xs' => (start, x) :: enumerate (S start) xs'
  end.

(** The [categories] list of [_encode_flare] *)
Definition flare_categories (folders : list string) : list Category :=
  map (fun p => mkCategory (fst p) (snd p)) (enumerate 1 folders).

(** [folder_to_id = {folder: i for i, folder in enumerate(folders, 1)}] *)
Definition flare_folder_to_id (folders : list string) : gmap string nat :=
  foldl (fun d p => <[snd p := fst p]> d) ∅ (enumerate 1 folders).

(** One round of the [for bookmark in bookmarks] loop of [_encode_flare] *)
Definition flare_link (folder_to_id : gmap string nat) (bookmark : Bookmark) : Link :=
  let icon := icon bookmark in
  let folder := folder bookmark in
  {| link_name := title bookmark;
     link_link := url bookmark;
     link_icon :=
       if PyStr.truthy icon && negb (PyStr.startswith "data:image/" icon)
       then Some icon else None;
     link_category :=
       if PyStr.truthy folder then folder_to_id !! folder else None |}.

(** The [data] dictionary of [_encode_flare] *)
Definition flare_data (bookmarks : list Bookmark) : list Category * list Link :=
  let folders := flare_folders bookmarks in
  (flare_categories folders, map (flare_link (flare_folder_to_id folders)) bookmarks).

(** [_encode_flare] *)
Definition _encode_flare (bookmarks : list Bookmark) (output_file : option string)
    : M PyValue :=
  let output_file := output_name output_file [".yml"; ".yaml"] ".yml" in
  let '(categories, links) := flare_data bookmarks in
  try_except
    (write_file output_file (Yaml categories links);;
     print ("✅ 成功导出 " +:+ PyStr.of_nat (length bookmarks) +:+ " 个书签到: " +:+ output_file);;
     print ("📁 分类数量: " +:+ PyStr.of_nat (length categories));;
     print ("🔗 链接数量: " +:+ PyStr.of_nat (length links));;
     mret PyNone)
    (fun e => print ("❌ 保存文件时出错: " +:+ exc_message e);; raise e).

End Encoders.

(* ===================================================================== *)
(** ** BookmarkEncoder: the format registry                                *)
(* ===================================================================== *)

(** An encoder function, and the class attribute [_formats]: a dictionary,
    kept in insertion order. *)
Definition Encoder : Type := list Bookmark -> option string -> M PyValue.

Definition Formats : Type := list (string * Encoder).

(** [d[k] = v]: the value is replaced where the key is, a new key goes to
    the end *)
Fixpoint dict_set (k : string) (v : Encoder) (d : Formats) : Formats :=
  match d with
  | [] => [(k, v)]
  | (k', v') :: d' =>
      if String.eqb k' k then (k, v) :: d' else (k', v') :: dict_set k v d'
  end.

(** [d.get(k)]; [k in d] is [is_Some (dict_get k d)] *)
Fixpoint dict_get (k : string) (d : Formats) : option Encoder :=
  match d with
  | [] => None
  | (k', v') :: d' => if String.eqb k' k then Some v' else dict_get k d'
  end.

(** [BookmarkEncoder.register_format] *)
Definition register_format (format_name : string) (encoder_func : Encoder)
    (_formats : Formats) : Formats :=
  dict_set format_name encoder_func _formats.

(** [BookmarkEncoder.get_available_formats] *)
Definition get_available_formats (_formats : Formats) : list string :=
  map fst _formats.

(** [BookmarkEncoder.encode] *)
Definition encode (_formats : Formats) (bookmarks : list Bookmark)
    (output_format : string) (output_file : option string) : M PyValue :=
  match dict_get output_format _formats with
  | None => raise (mkException ValueError ("不支持的输出格式: " +:+ output_format))
  | Some encoder => encoder bookmarks output_file
  end.

(** The registry after the five [register_format] calls of the module *)
Definition builtin_formats (P : Platform) : Formats :=
  register_format "flare" (_encode_flare P)
    (register_format "stdout" _encode_stdout
      (register_format "json" (_encode_json P)
        (register_format "csv" (_encode_csv P)
          (register_format "excel" (_encode_excel P) [])))).

(** The four encoders that write a file, each with the extensions it
    accepts in a given name and the extension it adds *)
Definition file_encoders (P : Platform) : list (Encoder * list string * string) :=
  [(_encode_excel P, [".xlsx"], ".xlsx");
   (_encode_csv P, [".csv"], ".csv");
   (_encode_json P, [".json"], ".json");
   (_encode_flare P, [".yml"; ".yaml"], ".yml")].

(* ===================================================================== *)
(** ** ChromeBookmarkConverter and the statistics mode of main            *)
(* ===================================================================== *)

Section Converter.

Variable P : Platform.
Variable _formats : Formats.

(** [ChromeBookmarkConverter.convert] *)
Definition convert (input_file output_format : string) (output_file : option string)
    : M PyValue :=
  log INFO ("开始转换: " +:+ input_file +:+ " -> " +:+ output_format);;
  bookmarks ← decode_html P input_file;
  match bookmarks with
  | [] => log WARNING "未找到书签数据";; mret PyNone
  | _ =>
      log INFO ("解码完成: 找到 " +:+ PyStr.of_nat (length bookmarks) +:+ " 个书签");;
      try_except
        (result ← encode _formats bookmarks output_format output_file;
         log INFO ("转换完成: " +:+ PyStr.upper output_format +:+ " 格式");;
         mret result)
        (fun e => log ERROR ("编码过程中出错: " +:+ exc_message e);; raise e)
  end.

(** The [for input_file in args.input_files] loop of [main] when
    [--stats-only] is given.  The output file name computed at the head of
    each round is not used in this mode. *)
Fixpoint stats_loop (input_files : list string) : M unit :=
  match input_files with
  | [] => mret tt
  | input_file :: rest =>
      if negb (path_exists P input_file)
      then log WARNING ("文件 " +:+ input_file +:+ " 不存在");; stats_loop rest
      else
        bookmarks ← decode_html P input_file;
        print (String "010" "文件: " +:+ input_file);;
        print ("书签数: " +:+ PyStr.of_nat (length bookmarks));;
        self ← get_decoder;
        print ("文件夹数: " +:+ PyStr.of_nat (total_folders self));;
        stats_loop rest
  end.

(** [main] with [--stats-only]: a fresh converter (hence a fresh decoder),
    the loop, exit status 0; an exception is logged and gives status 1. *)
Definition main_stats_only (input_files : list string) : M Z :=
  set_decoder BookmarkDecoder_init;;
  try_except
    (stats_loop input_files;; mret 0%Z)
    (fun e => log ERROR ("程序执行出错: " +:+ exc_message e);; mret 1%Z).

End Converter.

(* ===================================================================== *)
(** ** A concrete platform                                                 *)
(* ===================================================================== *)

(** A 64-bit CPython whose local time zone is UTC.  [fromtimestamp] raises
    [OverflowError] when the integer does not fit the platform's [time_t]
    and [ValueError] when the year falls outside 1..9999, as the library
    documents.  The parser and the disk are given as tables. *)

Module Utc.

Local Open Scope Z_scope.

(** Decimal digits of a non-negative integer, padded with zeros on the left
    to [width] characters *)
Definition digits (n : Z) : string := NilEmpty.string_of_uint (N.to_uint (Z.to_N n)).

Fixpoint zeros (k : nat) : string :=
  match k with
  | O => EmptyString
  | S k' => String "0" (zeros k')
  end.

Definition padded (width : nat) (n : Z) : string :=
  let s := digits n in zeros (width - String.length s) +:+ s.

(** Year, month and day of the day number [z] counted from 1970-01-01
    (proleptic Gregorian calendar) *)
Definition civil_from_days (z : Z) : Z * Z * Z :=
  let z := z + 719468 in
  let era := z / 146097 in
  let doe := z - era * 146097 in
  let yoe := (doe - doe / 1460 + doe / 36524 - doe / 146096) / 365 in
  let doy := doe - (365 * yoe + yoe / 4 - yoe / 100) in
  let mp := (5 * doy + 2) / 153 in
  let d := doy - (153 * mp + 2) / 5 + 1 in
  let m := if mp <? 10 then mp + 3 else mp - 9 in
  let y := yoe + era * 400 in
  (if m <=? 2 then y + 1 else y, m, d).

Definition time_t_max : Z := 2 ^ 63 - 1.

Definition fromtimestamp (n : Z) : Outcome string :=
  if (n <? - 2 ^ 63) || (time_t_max <? n) then
    Raise (mkException OverflowError "timestamp out of range for platform time_t")
  else
    let '(y, m, d) := civil_from_days (n / 86400) in
    let s := n mod 86400 in
    if (y <? 1) || (9999 <? y) then
      Raise (mkException ValueError ("year " +:+ digits y +:+ " is out of range"))
    else
      Return (padded 4 y +:+ "-" +:+ padded 2 m +:+ "-" +:+ padded 2 d +:+ " " +:+
              padded 2 (s / 3600) +:+ ":" +:+ padded 2 (s mod 3600 / 60) +:+ ":" +:+
              padded 2 (s mod 60)).

(** A parser known on the listed markup texts; anything else is taken to
    be a document without elements. *)
Definition parser_of (table : list (string * Soup.Node)) (html : string)
    : Outcome Soup.Node :=
  match list_find (fun entry => fst entry = html) table with
  | Some (_, (_, soup)) => Return soup
  | None => Return (Soup.document [])
  end.

(** A disk whose files are all valid UTF-8 *)
Definition platform (table : list (string * Soup.Node)) (disk : gmap string string)
    : Platform :=
  {| html_parser := parser_of table;
     fromtimestamp_strftime := fromtimestamp;
     path_exists := fun p => bool_decide (is_Some (disk !! p));
     read_text := fun p _ =>
       match disk !! p with
       | Some content => Return content
       | None => Raise (mkException FileNotFoundError p)
       end;
     now_stamp := "19700101_000000";
     write_failure := fun _ => None |}.

End Utc.

(* ===================================================================== *)
(** ** Sample documents                                                    *)
(* ===================================================================== *)

Module Samples.

(** An anchor with an [href] attribute and a text *)
Definition anchor (href text : string) : Soup.Node :=
  Soup.Tag "a" {[ "href" := href ]} [Soup.NavigableString text].

Definition tag (name : string) (contents : list Soup.Node) : Soup.Node :=
  Soup.Tag name ∅ contents.

(** An anchor with the given attributes and text *)
Definition link (attrs : gmap string string) (text : string) : Soup.Node :=
  Soup.Tag "a" attrs [Soup.NavigableString text].

(** The documents with two links at the top level and one folder, named by
    the heading [name], that holds one link *)
Definition two_links_one_folder (attrs1 : gmap string string) (text1 : string)
    (attrs2 : gmap string string) (text2 : string)
    (name : string) (attrs3 : gmap string string) (text3 : string) : Soup.Node :=
  Soup.document
    [tag "dl"
       [tag "dt" [link attrs1 text1];
        tag "dt" [link attrs2 text2];
        tag "dt" [tag "h3" [Soup.NavigableString name];
                  tag "dl" [tag "dt" [link attrs3 text3]]]]].

(** Two links at the top level and one folder holding one link *)
Definition two_and_folder_html : string :=
  "<dl><dt><a href='http://a.example/'>A</a></dt>" +:+
  "<dt><a href='http://b.example/'>B</a></dt>" +:+
  "<dt><h3>Work</h3><dl><dt><a href='http://c.example/'>C</a></dt></dl></dt></dl>".

Definition two_and_folder_soup : Soup.Node :=
  two_links_one_folder {[ "href" := "http://a.example/" ]} "A"
                       {[ "href" := "http://b.example/" ]} "B"
                       "Work"
                       {[ "href" := "http://c.example/" ]} "C".

(** A folder whose name is a single space, holding one link *)
Definition blank_folder_html : string :=
  "<dl><dt><h3> </h3><dl><dt><a href='http://a.example/'>A</a></dt></dl></dt></dl>".

Definition blank_folder_soup : Soup.Node :=
  Soup.document
    [tag "dl"
       [tag "dt" [tag "h3" [Soup.NavigableString " "];
                  tag "dl" [tag "dt" [anchor "http://a.example/" "A"]]]]].

(** A folder whose name is a single [>], written as a character reference *)
Definition angle_folder_html : string :=
  "<dl><dt><h3>&gt;</h3><dl><dt><a href='http://a.example/'>A</a></dt></dl></dt></dl>".

Definition angle_folder_soup : Soup.Node :=
  Soup.document
    [tag "dl"
       [tag "dt" [tag "h3" [Soup.NavigableString ">"];
                  tag "dl" [tag "dt" [anchor "http://a.example/" "A"]]]]].

(** A folder [A] holding a folder [B] holding one link *)
Definition nested_html : string :=
  "<dl><dt><h3>A</h3><dl><dt><h3>B</h3><dl>" +:+
  "<dt><a href='http://www.example.com/x'>X</a></dt>" +:+
  "</dl></dt></dl></dt></dl>".

Definition nested_soup : Soup.Node :=
  Soup.document
    [tag "dl"
       [tag "dt" [tag "h3" [Soup.NavigableString "A"];
                  tag "dl"
                    [tag "dt" [tag "h3" [Soup.NavigableString "B"];
                               tag "dl" [tag "dt" [anchor "http://www.example.com/x" "X"]]]]]]].

(** The parse trees of the sample documents *)
Definition parse_table : list (string * Soup.Node) :=
  [(two_and_folder_html, two_and_folder_soup);
   (nested_html, nested_soup);
   (blank_folder_html, blank_folder_soup);
   (angle_folder_html, angle_folder_soup)].

(** A platform that knows the samples and has an empty disk *)
Definition platform : Platform := Utc.platform parse_table ∅.

End Samples.

(* ===================================================================== *)
(** ** The specification's wording, for comparison                         *)
(* ===================================================================== *)

Module Spec.

(** The six bookmark types *)
Inductive BookmarkType := website | local | javascript | email | other | unknown.

Definition type_name (t : BookmarkType) : string :=
  match t with
  | website => "website"
  | local => "local"
  | javascript => "javascript"
  | email => "email"
  | other => "other"
  | unknown => "unknown"
  end.

Definition type_names : list string :=
  ["website"; "local"; "javascript"; "email"; "other"; "unknown"].

(** Two characters are the same up to case: they are equal, or one is an
    upper-case ASCII letter and the other the lower-case letter 32 code
    points above it. *)
Definition same_letter (a b : ascii) : bool :=
  Ascii.eqb a b
  || (PyStr.is_upper a && (N_of_ascii b =? N_of_ascii a + 32)%N)
  || (PyStr.is_upper b && (N_of_ascii a =? N_of_ascii b + 32)%N).

(** [p] is a prefix of [s] up to case *)
Fixpoint prefix_ci (p s : string) : bool :=
  match p, s with
  | EmptyString, _ => true
  | String a p', String b s' => same_letter a b && prefix_ci p' s'
  | String _ _, EmptyString => false
  end.

(** Type classification, in the priority order of the specification *)
Definition classify (url : string) : BookmarkType :=
  match url with
  | EmptyString => unknown
  | _ =>
      if prefix_ci "http://" url || prefix_ci "https://" url then website
      else if prefix_ci "file://" url then local
      else if prefix_ci "javascript:" url then javascript
      else if prefix_ci "mailto:" url then email
      else other
  end.

(** The text after the first occurrence of [sep], if there is one *)
Fixpoint after_first (sep s : string) : option string :=
  match s with
  | EmptyString => None
  | String _ s' =>
      if PyStr.startswith sep s
      then Some (String.substring (String.length sep) (String.length s) s)
      else after_first sep s'
  end.

(** The text before the first occurrence of the character [c] *)
Fixpoint up_to (c : ascii) (s : string) : string :=
  match s with
  | EmptyString => EmptyString
  | String a s' => if Ascii.eqb a c then EmptyString else String a (up_to c s')
  end.

(** The authority segment: the text between the first scheme separator and
    the next slash *)
Definition authority (url : string) : option string :=
  up_to "/" <$> after_first "://" url.

(** Only a leading [www.] is removed *)
Definition strip_leading_www (d : string) : string :=
  if PyStr.startswith "www." d then String.substring 4 (String.length d) d else d.

(** Domain extraction as the specification words it *)
Definition extract_domain (url : string) : string :=
  match authority url with
  | None => EmptyString
  | Some a => strip_leading_www a
  end.

End Spec.

(* ===================================================================== *)
(** ** A decoding session                                                  *)
(* ===================================================================== *)

(** One decoder instance decodes the given inputs one after the other; a
    call that raises does not stop the session.  The result lists, for each
    input, how many bookmarks its call returned (none when it raised). *)
Fixpoint session (P : Platform) (inputs : list string) (st : State) : list nat * State :=
  match inputs with
  | [] => ([], st)
  | html :: rest =>
      let '(r, st') := decode P html st in
      let n := match r with Return bookmarks => length bookmarks | Raise _ => 0 end in
      let '(ns, st'') := session P rest st' in
      (n :: ns, st'')
  end.

(* ===================================================================== *)
(** ** Predicates used in the statements                                   *)
(* ===================================================================== *)

(** A relation between the state before and the state after holds for
    every run of [m]. *)
Definition preserves {A} (Q : State -> State -> Prop) (m : M A) : Prop :=
  forall st, Q st (snd (m st)).

(** What the decoder may change is the log and its own counters of
    bookmarks and files: the folder counter, the lines printed and the
    files written stay as they are. *)
Definition decoder_only (st st' : State) : Prop :=
  total_folders (decoder st') = total_folders (decoder st)
  /\ printed st' = printed st
  /\ written st' = written st.

(** What an encoder may change is what is printed and written (and the
    log): the decoder stays as it is. *)
Definition encoder_only (st st' : State) : Prop :=
  decoder st' = decoder st.

(** The computation returned. *)
Definition is_return {A} (o : Outcome A) : Prop :=
  match o with
  | Return _ => True
  | Raise _ => False
  end.

(** Both timestamp attributes of the anchor convert without an exception
    leaving [_convert_timestamp]. *)
Definition timestamps_convert (P : Platform) (a : Soup.Node) : Prop :=
  is_return (_convert_timestamp P (Soup.get_default "add_date" EmptyString a))
  /\ is_return (_convert_timestamp P (Soup.get_default "last_modified" EmptyString a)).

(** The names of the folders above a link, the outermost first, as the loop
    of [_parse_folder] collects them before it joins them *)
Definition folder_path (link : Soup.Element) : list string :=
  folder_loop (Soup.ancestors link) [].

(** Both timestamp attributes of the anchor convert: [timestamps_convert]
    as a test *)
Definition converts (P : Platform) (a : Soup.Node) : bool :=
  match _convert_timestamp P (Soup.get_default "add_date" EmptyString a),
        _convert_timestamp P (Soup.get_default "last_modified" EmptyString a) with
  | Return _, Return _ => true
  | _, _ => false
  end.

(** The heading that names a list: the nearest [h3] among the siblings
    before the list, when its [.string] is not empty *)
Definition heading_of (parent : Soup.Element) : option string :=
  match Soup.find_previous_sibling "h3" parent with
  | Some folder_tag =>
      match Soup.string_of (Soup.node folder_tag) with
      | Some s => if PyStr.truthy s then Some s else None
      | None => None
      end
  | None => None
  end.

(** The lists ([dl]) among the ancestors of an element, the nearest first *)
Fixpoint enclosing_lists (chain : list Soup.Frame) : list Soup.Element :=
  match chain with
  | [] => []
  | f :: up =>
      if Soup.is_tag "dl" (Soup.parent f)
      then Soup.mkElement (Soup.parent f) up :: enclosing_lists up
      else enclosing_lists up
  end.

(** The headings that name the lists above an element, the outermost
    first *)
Definition headings (link : Soup.Element) : list string :=
  omap heading_of (reverse (enclosing_lists (Soup.ancestors link))).

(** The folder counter is what it was. *)
Definition same_folders (st st' : State) : Prop :=
  total_folders (decoder st') = total_folders (decoder st).

(** The three lines the statistics mode prints for a file in which it found
    [n] bookmarks, when the folder counter reads [folders] *)
Definition stats_report (folders : nat) (file : string * nat) : list string :=
  [String "010" "文件: " +:+ fst file;
   "书签数: " +:+ PyStr.of_nat (snd file);
   "文件夹数: " +:+ PyStr.of_nat folders].

(** The records the summary sheet has no row for *)
Definition javascript_or_email (b : Bookmark) : bool :=
  bool_decide (bookmark_type b ∈ ["javascript"; "email"]).

(** The records of one type, and the records of one of several types: the
    two tests [_encode_excel] counts with *)
Definition of_type (type : string) (b : Bookmark) : bool :=
  String.eqb (bookmark_type b) type.

Definition of_types (types : list string) (b : Bookmark) : bool :=
  bool_decide (bookmark_type b ∈ types).

(** The summary sheet with the given numbers in its four rows *)
Definition summary_sheet (total website local other : nat) : Table :=
  mkTable ["统计项"; "数量"]
    [[CStr "总书签数"; CInt total]; [CStr "网页书签"; CInt website];
     [CStr "本地文件"; CInt local]; [CStr "其他类型"; CInt other]].

(** The records that are neither javascript nor email *)
Definition with_a_row (bookmarks : list Bookmark) : list Bookmark :=
  List.filter (fun b => negb (javascript_or_email b)) bookmarks.

(* ===================================================================== *)
(** ** Further definitions used in the statements                          *)
(* ===================================================================== *)

(** The five lines [_encode_stdout] prints for the bookmark numbered [i] *)
Definition stdout_entry (entry : nat * Bookmark) : list string :=
  [pad3 (fst entry) +:+ ". " +:+ title (snd entry);
   "    网址: " +:+ url (snd entry);
   "    路径: " +:+ folder (snd entry);
   "    类型: " +:+ bookmark_type (snd entry);
   dashes].

(** The last line [_encode_stdout] prints *)
Definition stdout_total (bookmarks : list Bookmark) : string :=
  String "010" "总计: " +:+ PyStr.of_nat (length bookmarks) +:+ " 个书签".

(** The state with one more file written *)
Definition with_written (st : State) (path : string) (a : Artifact) : State :=
  mkState (decoder st) (logged st) (printed st) (written st ++ [(path, a)]).

(** The state with more lines printed *)
Definition with_printed (st : State) (lines : list string) : State :=
  mkState (decoder st) (logged st) (printed st ++ lines) (written st).

(** The state with more records logged *)
Definition with_logged (st : State) (records : list (Level * string)) : State :=
  mkState (decoder st) (logged st ++ records) (printed st) (written st).

(** The headers of the first sheet of the workbook *)
Definition excel_headers : list string :=
  ["标题"; "网址"; "域名"; "文件夹路径"; "添加日期"; "最后修改"; "书签类型";
   "是否有图标"; "图标数据"].

Module Cases.

(** A platform like that of the samples on which every write fails *)
Definition disk_full : Exception := mkException OSError "No space left on device".

Definition full_disk : Platform :=
  {| html_parser := html_parser Samples.platform;
     fromtimestamp_strftime := fromtimestamp_strftime Samples.platform;
     path_exists := path_exists Samples.platform;
     read_text := read_text Samples.platform;
     now_stamp := now_stamp Samples.platform;
     write_failure := fun _ => Some disk_full |}.

(** Two records, one with an embedded image as icon and one without a
    folder *)
Definition with_image : Bookmark :=
  mkBookmark "a" "http://a.example/" "a.example" "Work" "未知日期" "未知日期"
             "website" true "data:image/png;base64,AAAA".

Definition without_folder : Bookmark :=
  mkBookmark "b" "http://b.example/" "b.example" EmptyString "未知日期" "未知日期"
             "website" true "http://b.example/favicon.ico".

(** Three records: a website, a script and a mail address *)
Definition script_and_mail : list Bookmark :=
  [mkBookmark "a" "http://a/" "a" "书签栏" "未知日期" "未知日期" "website" false EmptyString;
   mkBookmark "b" "javascript:void(0)" EmptyString "书签栏" "未知日期" "未知日期"
              "javascript" false EmptyString;
   mkBookmark "c" "mailto:c@example.com" EmptyString "书签栏" "未知日期" "未知日期"
              "email" false EmptyString].

(** The same three links with the folder first, and a text node between
    every two tags *)
Definition folder_first_html : string :=
  "<dl> <dt><h3>Work</h3> <dl> <dt><a href='http://c.example/'>C</a></dt> </dl></dt> " +:+
  "<dt><a href='http://a.example/'>A</a></dt> " +:+
  "<dt><a href='http://b.example/'>B</a></dt> </dl>".

Definition folder_first_soup : Soup.Node :=
  Soup.document
    [Samples.tag "dl"
       [Soup.NavigableString " ";
        Samples.tag "dt"
          [Samples.tag "h3" [Soup.NavigableString "Work"];
           Soup.NavigableString " ";
           Samples.tag "dl"
             [Soup.NavigableString " ";
              Samples.tag "dt" [Samples.anchor "http://c.example/" "C"];
              Soup.NavigableString " "]];
        Soup.NavigableString " ";
        Samples.tag "dt" [Samples.anchor "http://a.example/" "A"];
        Soup.NavigableString " ";
        Samples.tag "dt" [Samples.anchor "http://b.example/" "B"];
        Soup.NavigableString " "]].

Definition folder_first : Platform :=
  Utc.platform [(folder_first_html, folder_first_soup)] ∅.

(** A platform whose parser rejects every markup, with one file on disk *)
Definition rejected : Exception := mkException OtherException "markup rejected".

Definition broken_parser : Platform :=
  {| html_parser := fun _ => Raise rejected;
     fromtimestamp_strftime := Utc.fromtimestamp;
     path_exists := fun p => bool_decide (p = "b.html");
     read_text := fun _ _ => Return "<dl>";
     now_stamp := "19700101_000000";
     write_failure := fun _ => None |}.

(** A platform with one file that is not valid UTF-8 but reads as GBK, and
    one file that cannot be opened *)
Definition not_utf8 : Exception :=
  mkException UnicodeDecodeError "'utf-8' codec can't decode byte 0xca".

Definition denied : Exception := mkException OSError "Permission denied".

Definition mixed_disk : Platform :=
  {| html_parser := Utc.parser_of Samples.parse_table;
     fromtimestamp_strftime := Utc.fromtimestamp;
     path_exists := fun p => bool_decide (p ∈ ["gbk.html"; "locked.html"]);
     read_text := fun p enc =>
       if bool_decide (p = "locked.html") then Raise denied
       else if bool_decide (enc = "utf-8") then Raise not_utf8
       else Return Samples.two_and_folder_html;
     now_stamp := "19700101_000000";
     write_failure := fun _ => None |}.

(** A platform on which no file is valid UTF-8: read as GBK, one file
    cannot be opened and the other holds markup that the parser rejects *)
Definition legacy_encoded : Platform :=
  {| html_parser := fun _ => Raise rejected;
     fromtimestamp_strftime := Utc.fromtimestamp;
     path_exists := fun p => bool_decide (p ∈ ["gbk.html"; "locked.html"]);
     read_text := fun p enc =>
       if bool_decide (enc = "utf-8") then Raise not_utf8
       else if bool_decide (p = "locked.html") then Raise denied
       else Return "<dl>";
     now_stamp := "19700101_000000";
     write_failure := fun _ => None |}.

(** A platform with the first sample on disk *)
Definition one_file : Platform :=
  Utc.platform Samples.parse_table {[ "b.html" := Samples.two_and_folder_html ]}.

End Cases.

(** What holds of every record the decoder builds: the title is not empty;
    the URL and the folder carry no white space at either end; the domain
    and the type are those of the URL, the type being one of the six names;
    [has_icon] tells whether the icon is not empty. *)
Definition record_ok (b : Bookmark) : Prop :=
  title b <> EmptyString
  /\ PyStr.strip (url b) = url b
  /\ PyStr.strip (folder b) = folder b
  /\ domain b = _extract_domain (url b)
  /\ bookmark_type b = _get_bookmark_type (url b)
  /\ bookmark_type b ∈ Spec.type_names
  /\ has_icon b = PyStr.truthy (icon b).

(** The counter of files is what it was. *)
Definition same_files (st st' : State) : Prop :=
  processed_files (decoder st') = processed_files (decoder st).

(** The state after the decoder has counted one more file *)
Definition with_file_counted (st : State) : State :=
  mkState (mkDecoder (total_bookmarks (decoder st)) (total_folders (decoder st))
                     (processed_files (decoder st) + 1))
          (logged st) (printed st) (written st).

(** The encodings [decode_html] tries, in order *)
Definition encodings : list string := ["utf-8"; "gbk"; "latin-1"; "iso-8859-1"].

(** The encoding raises [UnicodeDecodeError] on the file. *)
Definition undecodable (P : Platform) (file_path encoding : string) : Prop :=
  exists e, read_text P file_path encoding = Raise e
            /\ issubclass (exc_class e) UnicodeDecodeError = true.

(* ===================================================================== *)
(** ** main                                                                *)
(* ===================================================================== *)

(** The two [os.path] functions [main] calls, for POSIX paths *)
Module OsPath.

(** [os.path.basename(p)]: the text after the last slash *)
Fixpoint basename (p : string) : string :=
  match p with
  | EmptyString => EmptyString
  | String c p' =>
      if Ascii.eqb c "/" || PyStr.contains "/" p' then basename p' else p
  end.

(** The text before the last dot of [s], when [s] has a dot *)
Fixpoint before_last_dot (s : string) : option string :=
  match s with
  | EmptyString => None
  | String c s' =>
      match before_last_dot s' with
      | Some r => Some (String c r)
      | None => if Ascii.eqb c "." then Some EmptyString else None
      end
  end.

Fixpoint only_dots (s : string) : bool :=
  match s with
  | EmptyString => true
  | String c s' => Ascii.eqb c "." && only_dots s'
  end.

(** [os.path.splitext(name)[0]] for a name without slash: the name without
    its last extension; dots at the head of the name do not start an
    extension. *)
Definition splitext_root (name : string) : string :=
  match before_last_dot name with
  | Some r => if only_dots r then name else r
  | None => name
  end.

End OsPath.

(** The command line, once parsed: the fields of [args] that [main] reads
    and that have an effect *)
Record Args := mkArgs {
  input_files : list string;
  format : string;
  output : option string;
  stats_only : bool
}.

Section Main.

Variable P : Platform.
Variable _formats : Formats.

(** The output file [main] passes on for one input file: the given name,
    followed by the base name of the input when there are several inputs *)
Definition output_for (args : Args) (input_file : string) : option string :=
  match output args with
  | Some (String c o) =>
      if 1 <? length (input_files args)
      then Some (String c o +:+ "_" +:+ OsPath.splitext_root (OsPath.basename input_file))
      else Some (String c o)
  | other => other
  end.

(** The [for input_file in args.input_files] loop of [main] *)
Fixpoint main_loop (args : Args) (files : list string) (results : list PyValue)
    : M (list PyValue) :=
  match files with
  | [] => mret results
  | input_file :: rest =>
      if negb (path_exists P input_file)
      then log WARNING ("文件 " +:+ input_file +:+ " 不存在");;
           main_loop args rest results
      else
        let output_file := output_for args input_file in
        if stats_only args then
          bookmarks ← decode_html P input_file;
          print (String "010" "文件: " +:+ input_file);;
          print ("书签数: " +:+ PyStr.of_nat (length bookmarks));;
          self ← get_decoder;
          print ("文件夹数: " +:+ PyStr.of_nat (total_folders self));;
          main_loop args rest results
        else
          result ← convert P _formats input_file (format args) output_file;
          main_loop args rest (results ++ [result])
  end.

(** The [for result in results] loop of the summary *)
Fixpoint print_results (results : list PyValue) : M unit :=
  match results with
  | [] => mret tt
  | PyStr_ (String c s) :: rest =>
      print ("💾 输出文件: " +:+ String c s);; print_results rest
  | _ :: rest => print_results rest
  end.

(** The summary printed after the loop *)
Definition print_summary (results : list PyValue) : M unit :=
  print (String "010" "✅ 转换完成!");;
  print ("📊 处理文件: " +:+ PyStr.of_nat (length results) +:+ " 个");;
  self ← get_decoder;
  print ("📚 总书签数: " +:+ PyStr.of_nat (total_bookmarks self));;
  self ← get_decoder;
  print ("📁 总文件夹数: " +:+ PyStr.of_nat (total_folders self));;
  print_results results.

(** [main]: a fresh converter, the loop, the summary, exit status 0; an
    exception is logged and gives exit status 1. *)
Definition main (args : Args) : M Z :=
  set_decoder BookmarkDecoder_init;;
  try_except
    (results ← main_loop args (input_files args) [];
     (match results with
      | _ :: _ => if stats_only args then mret tt else print_summary results
      | [] => mret tt
      end);;
     mret 0%Z)
    (fun e => log ERROR ("程序执行出错: " +:+ exc_message e);; mret 1%Z).

End Main.

(** The state with a fresh decoder *)
Definition with_fresh_decoder (st : State) : State :=
  mkState BookmarkDecoder_init (logged st) (printed st) (written st).

(** The warning [main] logs for an input file that does not exist *)
Definition missing_file_warning (input_file : string) : Level * string :=
  (WARNING, "文件 " +:+ input_file +:+ " 不存在").

(* ===================================================================== *)
(** ** Documents with nested folders                                       *)
(* ===================================================================== *)

Module Nesting.

(** A list item holding the anchor [a] inside the folders [names], the
    outermost first: each folder is a heading followed by the list of what
    the folder holds. *)
Fixpoint item (names : list string) (a : Soup.Node) : Soup.Node :=
  match names with
  | [] => Samples.tag "dt" [a]
  | name :: inner =>
      Samples.tag "dt"
        [Samples.tag "h3" [Soup.NavigableString name];
         Samples.tag "dl" [item inner a]]
  end.

(** The document whose list holds that item *)
Definition doc (names : list string) (a : Soup.Node) : Soup.Node :=
  Soup.document [Samples.tag "dl" [item names a]].

(** The ancestors of the anchor of [item names a], when the item stands
    first in a list with the ancestors [up] *)
Fixpoint chain (names : list string) (a : Soup.Node) (up : list Soup.Frame)
    : list Soup.Frame :=
  match names with
  | [] => Soup.mkFrame (item [] a) [] :: up
  | name :: inner =>
      chain inner a
        (Soup.mkFrame (Samples.tag "dl" [item inner a]) []
         :: Soup.mkFrame (item (name :: inner) a)
              [Samples.tag "h3" [Soup.NavigableString name]]
         :: up)
  end.

(** The element is an anchor. *)
Definition is_a (d : Soup.Element) : bool := Soup.is_tag "a" (Soup.node d).

End Nesting.

(* ===================================================================== *)
(** ** workspaces/html_to_excel.py                                         *)
(* ===================================================================== *)

Module Legacy.

(** [os.path.splitext(p)[0]] for a POSIX path: the directory part stays,
    the file name loses its last extension. *)
Fixpoint dirpart (p : string) : string :=
  match p with
  | EmptyString => EmptyString
  | String c p' =>
      if Ascii.eqb c "/" || PyStr.contains "/" p' then String c (dirpart p')
      else EmptyString
  end.

Definition splitext_root (p : string) : string :=
  dirpart p +:+ OsPath.splitext_root (OsPath.basename p).

(** One row of the sheet: the dictionary appended for a link *)
Record Row := mkRow {
  row_title : string;
  row_url : string;
  row_folder : string;
  row_add_date : string;
  row_icon : string
}.

Definition row_keys : list string := ["标题"; "网址"; "文件夹"; "添加日期"; "图标"].

Definition row_values (r : Row) : list Cell :=
  [CStr (row_title r); CStr (row_url r); CStr (row_folder r);
   CStr (row_add_date r); CStr (row_icon r)].

(** [pd.DataFrame(bookmarks)] *)
Definition DataFrame (bookmarks : list Row) : Table :=
  match bookmarks with
  | [] => mkTable [] []
  | _ => mkTable row_keys (map row_values bookmarks)
  end.

Section Script.

Variable P : Platform.

(** [int(s)] on a string: the integer, or the exception [int] raises *)
Variable py_int : string -> Outcome Z.

(** The conversion of the [add_date] attribute: an attribute that is not
    empty is replaced by the formatted time; [ValueError] and [OSError]
    leave it as it is, any other exception goes on. *)
Definition convert_add_date (add_date : string) : Outcome string :=
  if PyStr.truthy add_date then
    match (match py_int add_date with
           | Return n => fromtimestamp_strftime P n
           | Raise e => Raise e
           end) with
    | Return s => Return s
    | Raise e =>
        if issubclass (exc_class e) ValueError || issubclass (exc_class e) OSError
        then Return add_date
        else Raise e
    end
  else Return add_date.

(** The body of the [for link in soup.find_all('a')] loop *)
Definition row_of (link : Soup.Element) : Outcome Row :=
  let title :=
    match Soup.string_of (Soup.node link) with
    | Some s => if PyStr.truthy s then s else "无标题"
    | None => "无标题"
    end in
  let url := Soup.get_default "href" EmptyString (Soup.node link) in
  let add_date := Soup.get_default "add_date" EmptyString (Soup.node link) in
  let icon := Soup.get_default "icon" EmptyString (Soup.node link) in
  let folder := folder_of link in
  match convert_add_date add_date with
  | Return add_date => Return (mkRow title url folder add_date icon)
  | Raise e => Raise e
  end.

(** The loop *)
Fixpoint rows_of (links : list Soup.Element) (bookmarks : list Row) : Outcome (list Row) :=
  match links with
  | [] => Return bookmarks
  | link :: rest =>
      match row_of link with
      | Return r => rows_of rest (bookmarks ++ [r])
      | Raise e => Raise e
      end
  end.

(** [html_to_excel] *)
Definition html_to_excel (html_file : string) (excel_file : option string) : M bool :=
  let excel_file :=
    match excel_file with
    | None => splitext_root html_file +:+ "_" +:+ now_stamp P +:+ ".xlsx"
    | Some f => f
    end in
  try_except
    (html_content ← lift (read_text P html_file "utf-8");
     soup ← lift (html_parser P html_content);
     bookmarks ← lift (rows_of (Soup.find_all "a" (Soup.top_element soup)) []);
     write_file P excel_file (Workbook [("Sheet1", DataFrame bookmarks)]);;
     print ("成功转换 " +:+ PyStr.of_nat (length bookmarks) +:+ " 个书签");;
     print ("输出文件: " +:+ excel_file);;
     mret true)
    (fun e => print ("转换过程中出现错误: " +:+ exc_message e);; mret false).

(** [main] of the script *)
Definition main (input : string) (output : option string) : M unit :=
  if negb (path_exists P input)
  then print ("错误: 文件 '" +:+ input +:+ "' 不存在")
  else html_to_excel input output;; mret tt.

End Script.

(** [int(s)] on ASCII strings: white space around, an optional sign, digits
    with single underscores between them *)
Fixpoint digits_ok (after_digit : bool) (s : string) : bool :=
  match s with
  | EmptyString => after_digit
  | String c s' =>
      if PyStr.is_digit c then digits_ok true s'
      else if Ascii.eqb c "_" then after_digit && digits_ok false s'
      else false
  end.

Fixpoint int_digits (acc : Z) (s : string) : Z :=
  match s with
  | EmptyString => acc
  | String c s' =>
      if PyStr.is_digit c
      then int_digits (10 * acc + (Z.of_N (N_of_ascii c) - 48)) s'
      else int_digits acc s'
  end.

Definition int (s : string) : Outcome Z :=
  let t := PyStr.strip s in
  let '(negative, body) :=
    match t with
    | String "-" r => (true, r)
    | String "+" r => (false, r)
    | _ => (false, t)
    end in
  if digits_ok false body
  then Return (if negative then (- int_digits 0 body)%Z else int_digits 0 body)
  else Raise (mkException ValueError ("invalid literal for int() with base 10: " +:+ s)).

(** A document with a link above the list, and one with a link whose
    [add_date] is beyond the range of the platform *)
Definition stray_html : string :=
  "<a href='http://top.example/'>T</a><dl><dt><h3>F</h3><dl>" +:+
  "<dt><a href='http://a.example/' add_date='soon'>A</a></dt></dl></dt></dl>".

Definition stray_soup : Soup.Node :=
  Soup.document
    [Samples.anchor "http://top.example/" "T";
     Samples.tag "dl"
       [Samples.tag "dt"
          [Samples.tag "h3" [Soup.NavigableString "F"];
           Samples.tag "dl"
             [Samples.tag "dt"
                [Soup.Tag "a" {[ "href" := "http://a.example/"; "add_date" := "soon" ]}
                   [Soup.NavigableString "A"]]]]]].

Definition late_html : string :=
  "<dl><dt><a href='http://a.example/'>A</a></dt>" +:+
  "<dt><a href='http://b.example/' add_date='99999999999999999999'>B</a></dt></dl>".

Definition late_soup : Soup.Node :=
  Soup.document
    [Samples.tag "dl"
       [Samples.tag "dt" [Samples.anchor "http://a.example/" "A"];
        Samples.tag "dt"
          [Soup.Tag "a" {[ "href" := "http://b.example/";
                           "add_date" := "99999999999999999999" ]}
             [Soup.NavigableString "B"]]]].

Definition platform : Platform :=
  Utc.platform [(stray_html, stray_soup); (late_html, late_soup)]
               {[ "stray.html" := stray_html; "late.html" := late_html ]}.

End Legacy.

(* ===================================================================== *)
(** * Properties                                                           *)
(* ===================================================================== *)

(** ** Evaluation of the string methods on small inputs *)

Example split_scheme :
  PyStr.split "://" "http://www.example.com/x" = ["http"; "www.example.com/x"].
Proof. reflexivity. Qed.

Example split_trailing : PyStr.split "://" "a://" = ["a"; EmptyString].
Proof. reflexivity. Qed.

Example split_twice : PyStr.split "://" "a://b://c" = ["a"; "b"; "c"].
Proof. reflexivity. Qed.

Example replace_all : PyStr.replace "www." EmptyString "www.a.www.b" = "a.b".
Proof. reflexivity. Qed.

Example strip_both : PyStr.strip "  a b  " = "a b".
Proof. reflexivity. Qed.

(** The ideographic space U+3000 and the no-break space U+00A0 are
    stripped; an ideographic full stop U+3002 is not. *)
Example strip_ideographic_space :
  PyStr.strip (String "227" (String "128" (String "128"
                 ("A" +:+ String "194" (String "160" EmptyString)))))
  = "A"
  /\ PyStr.strip (String "227" (String "128" (String "130" EmptyString)))
     = String "227" (String "128" (String "130" EmptyString)).
Proof. split; reflexivity. Qed.

Example int_leading_zero : PyStr.int "042" = 42%Z.
Proof. reflexivity. Qed.

Example join_path : PyStr.join " > " ["A"; "B"] = "A > B".
Proof. reflexivity. Qed.

Example of_nat_120 : PyStr.of_nat 120 = "120".
Proof. reflexivity. Qed.

(** ** Type classification (C5) *)

Section Classification.

Import PyStr.

Lemma is_upper_bound c : is_upper c = true -> (N_of_ascii c + 32 < 256)%N.
Proof.
  unfold is_upper. intros [_ H]%andb_prop. apply N.leb_le in H. lia.
Qed.

(** Lowering [b] gives the pattern character [a] exactly when the two are
    the same letter up to case. *)
Lemma lower_char_same_letter a b :
  is_upper a = false ->
  Spec.same_letter a b = bool_decide (a = lower_char b).
Proof.
  intros Ha. unfold Spec.same_letter, lower_char. rewrite Ha. simpl.
  destruct (is_upper b) eqn:Hb; simpl.
  - assert (Ascii.eqb a b = false) as ->.
    { apply Ascii.eqb_neq. intros ->. congruence. }
    simpl.
    pose proof (is_upper_bound b Hb) as Hlt.
    destruct (N.eqb_spec (N_of_ascii a) (N_of_ascii b + 32)) as [E|E].
    + symmetry. apply bool_decide_eq_true. rewrite <- E. symmetry. apply ascii_N_embedding.
    + symmetry. apply bool_decide_eq_false. intros ->. apply E.
      by rewrite N_ascii_embedding.
  - rewrite !orb_false_r.
    destruct (Ascii.eqb_spec a b) as [->|E].
    + symmetry. by apply bool_decide_eq_true.
    + symmetry. by apply bool_decide_eq_false.
Qed.

(** Matching a lower-case pattern against the lowered text is matching it
    against the text up to case. *)
Lemma startswith_lower p s :
  no_upper p = true -> startswith p (lower s) = Spec.prefix_ci p s.
Proof.
  unfold startswith. revert s.
  induction p as [|a p IH]; intros [|b s] Hp; simpl in *; try reflexivity.
  apply andb_prop in Hp as [Ha Hp]. apply negb_true_iff in Ha.
  rewrite (lower_char_same_letter a b Ha).
  destruct (ascii_dec a (lower_char b)) as [E|E].
  - rewrite bool_decide_eq_true_2 by done. simpl. by apply IH.
  - by rewrite bool_decide_eq_false_2.
Qed.

End Classification.

(** C5: the type of a URL is the one the priority list of the
    specification gives, the prefixes being matched up to case; it is
    therefore always one of the six type names. *)
Theorem get_bookmark_type_classify (url : string) :
  _get_bookmark_type url = Spec.type_name (Spec.classify url)
  /\ _get_bookmark_type url ∈ Spec.type_names.
Proof.
  assert (_get_bookmark_type url = Spec.type_name (Spec.classify url)) as E.
  { unfold _get_bookmark_type, Spec.classify, PyStr.startswith_any.
    destruct url as [|c url]; [reflexivity|].
    cbn [PyStr.truthy negb existsb].
    rewrite !startswith_lower by reflexivity.
    rewrite orb_false_r.
    repeat match goal with
           | |- context [if ?b then _ else _] => destruct b
           end; reflexivity. }
  split; [exact E|].
  rewrite E. unfold Spec.type_names.
  destruct (Spec.classify url); simpl; set_solver.
Qed.

(** ** Domain extraction (C1) *)

Lemma after_first_contains sep s :
  PyStr.contains sep s = false -> Spec.after_first sep s = None.
Proof.
  induction s as [|c s IH]; [reflexivity|].
  cbn [PyStr.contains Spec.after_first].
  intros [H1 H2]%orb_false_elim. rewrite H1. by apply IH.
Qed.

(** Without a scheme separator the domain is empty, in the code and in the
    wording of the specification alike. *)
Lemma extract_domain_without_scheme (url : string) :
  PyStr.contains "://" url = false ->
  _extract_domain url = EmptyString /\ Spec.extract_domain url = EmptyString.
Proof.
  intros H. split.
  - unfold _extract_domain. rewrite H. by rewrite orb_true_r.
  - unfold Spec.extract_domain, Spec.authority. by rewrite after_first_contains.
Qed.

Example extract_domain_leading_www :
  _extract_domain "http://www.example.com/x" = "example.com".
Proof. reflexivity. Qed.

Example extract_domain_second_separator :
  _extract_domain "a://b://c" = "b" /\ Spec.extract_domain "a://b://c" = "b:".
Proof. split; reflexivity. Qed.

(** C1: on a URL whose authority contains [www.] after its first character
    the code removes that occurrence too, while the authority with only a
    leading [www.] removed keeps it. *)
Theorem extract_domain_inner_www :
  _extract_domain "http://my-www.example.com/x" = "my-example.com"
  /\ Spec.extract_domain "http://my-www.example.com/x" = "my-www.example.com".
Proof. split; reflexivity. Qed.

(** ** Timestamp conversion (C6) *)

Section Timestamps.

Variable P : Platform.

Lemma convert_timestamp_not_numeric (timestamp : string) :
  PyStr.isdigit timestamp = false ->
  _convert_timestamp P timestamp = Return "未知日期".
Proof.
  intros H. unfold _convert_timestamp. rewrite H. by rewrite andb_false_r.
Qed.

Lemma isdigit_truthy (timestamp : string) :
  PyStr.isdigit timestamp = true -> PyStr.truthy timestamp = true.
Proof. by destruct timestamp. Qed.

Lemma convert_timestamp_numeric (timestamp s : string) :
  PyStr.isdigit timestamp = true ->
  fromtimestamp_strftime P (PyStr.int timestamp) = Return s ->
  _convert_timestamp P timestamp = Return s.
Proof.
  intros H E. unfold _convert_timestamp.
  rewrite H, (isdigit_truthy _ H), E. reflexivity.
Qed.

Lemma convert_timestamp_caught (timestamp : string) (e : Exception) :
  PyStr.isdigit timestamp = true ->
  fromtimestamp_strftime P (PyStr.int timestamp) = Raise e ->
  issubclass (exc_class e) ValueError || issubclass (exc_class e) OSError = true ->
  _convert_timestamp P timestamp = Return "未知日期".
Proof.
  intros H E C. unfold _convert_timestamp.
  rewrite H, (isdigit_truthy _ H), E, C. reflexivity.
Qed.

Lemma convert_timestamp_uncaught (timestamp : string) (e : Exception) :
  PyStr.isdigit timestamp = true ->
  fromtimestamp_strftime P (PyStr.int timestamp) = Raise e ->
  issubclass (exc_class e) ValueError || issubclass (exc_class e) OSError = false ->
  _convert_timestamp P timestamp = Raise e.
Proof.
  intros H E C. unfold _convert_timestamp.
  rewrite H, (isdigit_truthy _ H), E, C. reflexivity.
Qed.

End Timestamps.

Example convert_timestamp_epoch :
  _convert_timestamp Samples.platform "0" = Return "1970-01-01 00:00:00".
Proof. reflexivity. Qed.

Example convert_timestamp_2025 :
  _convert_timestamp Samples.platform "1756684800" = Return "2025-09-01 00:00:00".
Proof. vm_compute. reflexivity. Qed.

Example convert_timestamp_year_out_of_range :
  _convert_timestamp Samples.platform "999999999999" = Return "未知日期".
Proof. vm_compute. reflexivity. Qed.

(** C6: a numeric timestamp beyond the range of the platform's [time_t]
    makes [fromtimestamp] raise [OverflowError], which the [except] clause
    does not name: the exception leaves [_convert_timestamp]. *)
Theorem convert_timestamp_overflow :
  _convert_timestamp Samples.platform "99999999999999999999"
  = Raise (mkException OverflowError "timestamp out of range for platform time_t").
Proof. vm_compute. reflexivity. Qed.

(** ** The folder of a record (C2) *)

Section Folder.

Variable P : Platform.

Lemma clean_folder_path_placeholder : _clean_folder_path "书签栏" = "书签栏".
Proof. reflexivity. Qed.

(** The record of a link carries the cleaned folder path. *)
Lemma parse_bookmark_folder a f st b st' :
  _parse_bookmark P a f st = (Return (Some b), st') ->
  folder b = _clean_folder_path f.
Proof.
  unfold _parse_bookmark, try_except, mbind, M_bind, lift, mret, M_ret, log.
  destruct (_convert_timestamp P (Soup.get_default "add_date" _ a)); simpl;
    [|intros [=]].
  destruct (_convert_timestamp P (Soup.get_default "last_modified" _ a)); simpl;
    [|intros [=]].
  intros [= <- _]. reflexivity.
Qed.

(** The recursion along the ancestor chain is the loop of the source: find
    the nearest [dl] above, do a round for it, go on from there. *)
Lemma folder_loop_find_parent (chain : list Soup.Frame) (folder_path : list string) :
  folder_loop chain folder_path
  = match Soup.find_parent_in "dl" chain with
    | None => folder_path
    | Some parent => folder_loop (Soup.ancestors parent) (folder_step parent folder_path)
    end.
Proof.
  induction chain as [|f up IH]; [reflexivity|].
  cbn [folder_loop Soup.find_parent_in].
  destruct (Soup.is_tag "dl" (Soup.parent f)); [reflexivity|exact IH].
Qed.

(** A link without a heading on its ancestor chain gets the placeholder. *)
Lemma folder_of_no_heading (link : Soup.Element) :
  folder_loop (Soup.ancestors link) [] = [] ->
  _clean_folder_path (folder_of link) = "书签栏".
Proof. intros H. unfold folder_of. by rewrite H. Qed.

End Folder.

(** C2: a folder whose heading is a single space yields a record whose
    folder is the empty string: the placeholder is substituted before the
    path is stripped, not after. *)
Theorem decode_blank_folder :
  fst (decode Samples.platform Samples.blank_folder_html initial_state)
  = Return [ {| title := "A"; url := "http://a.example/"; domain := "a.example";
                folder := EmptyString;
                add_date := "未知日期"; last_modified := "未知日期";
                bookmark_type := "website"; has_icon := false;
                icon := EmptyString |} ].
Proof. vm_compute. reflexivity. Qed.

Example decode_nested_folder :
  fst (decode Samples.platform Samples.nested_html initial_state)
  = Return [ {| title := "X"; url := "http://www.example.com/x";
                domain := "example.com"; folder := "A > B";
                add_date := "未知日期"; last_modified := "未知日期";
                bookmark_type := "website"; has_icon := false;
                icon := EmptyString |} ].
Proof. vm_compute. reflexivity. Qed.

Example decode_angle_folder :
  (fun r => match r with Return [b] => folder b | _ => "?" end)
    (fst (decode Samples.platform Samples.angle_folder_html initial_state))
  = EmptyString.
Proof. vm_compute. reflexivity. Qed.

(** ** The format registry (C4) *)

Lemma dict_get_unregistered (k : string) (d : Formats) :
  k ∉ get_available_formats d -> dict_get k d = None.
Proof.
  unfold get_available_formats.
  induction d as [|[k' v'] d IH]; [reflexivity|].
  cbn [map fst fmap dict_get]. intros H.
  apply not_elem_of_cons in H as [Hne Hd].
  destruct (String.eqb_spec k' k) as [->|_]; [done|]. by apply IH.
Qed.

Lemma builtin_format_names (P : Platform) :
  get_available_formats (builtin_formats P) = ["excel"; "csv"; "json"; "stdout"; "flare"].
Proof. reflexivity. Qed.

(** C4, as amended: for a format name that is not registered, [encode]
    raises [ValueError] with a message that names the requested format,
    and leaves the state as it was: no encoder has run. *)
Theorem encode_unregistered (_formats : Formats) (bookmarks : list Bookmark)
    (output_format : string) (output_file : option string) (st : State) :
  output_format ∉ get_available_formats _formats ->
  encode _formats bookmarks output_format output_file st
  = (Raise (mkException ValueError ("不支持的输出格式: " +:+ output_format)), st).
Proof.
  intros H. unfold encode. by rewrite (dict_get_unregistered _ _ H).
Qed.

Lemma encode_unregistered_witness :
  ("xml" ∉ get_available_formats (builtin_formats Samples.platform))
  /\ encode (builtin_formats Samples.platform) [] "xml" None initial_state
     = (Raise (mkException ValueError ("不支持的输出格式: " +:+ "xml")), initial_state).
Proof.
  assert ("xml" ∉ get_available_formats (builtin_formats Samples.platform)) as H.
  { rewrite builtin_format_names. apply (bool_decide_unpack _). reflexivity. }
  split; [exact H|].
  apply (encode_unregistered (builtin_formats Samples.platform) [] "xml" None
           initial_state H).
Defined.

(** C4, as stated, fails: with the five built-in formats registered, the
    message raised for [xml] contains none of the registered names. *)
Lemma encode_message_lists_no_format :
  encode (builtin_formats Samples.platform) [] "xml" None initial_state
  = (Raise (mkException ValueError "不支持的输出格式: xml"), initial_state)
  /\ get_available_formats (builtin_formats Samples.platform)
     = ["excel"; "csv"; "json"; "stdout"; "flare"]
  /\ Forall (fun name => PyStr.contains name "不支持的输出格式: xml" = false)
            ["excel"; "csv"; "json"; "stdout"; "flare"].
Proof.
  split; [reflexivity|]. split; [reflexivity|].
  repeat constructor.
Qed.

(** ** The summary sheet (C10) *)

Section Summary.

Implicit Types (b : Bookmark) (bookmarks : list Bookmark).

Lemma count_if_filter (p q : Bookmark -> bool) bookmarks :
  (forall b, p b = true -> q b = true) ->
  count_if p (List.filter q bookmarks) = count_if p bookmarks.
Proof.
  intros Hpq. unfold count_if.
  induction bookmarks as [|b bs IH]; [reflexivity|].
  simpl. destruct (p b) eqn:Hp.
  - rewrite (Hpq b Hp). simpl. rewrite Hp. simpl. by f_equal.
  - destruct (q b); simpl; rewrite ?Hp; exact IH.
Qed.

(** A bookmark type belongs to at most one of: the website row, the local
    row, the other-or-unknown row, the types without a row. *)
Lemma one_row_at_most (x : string) :
  Nat.b2n (String.eqb x "website") + Nat.b2n (String.eqb x "local")
  + Nat.b2n (bool_decide (x ∈ ["other"; "unknown"]))
  + Nat.b2n (bool_decide (x ∈ ["javascript"; "email"])) <= 1.
Proof.
  destruct (String.eqb_spec x "website") as [->|_]; [vm_compute; lia|].
  destruct (String.eqb_spec x "local") as [->|_]; [vm_compute; lia|].
  destruct (decide (x ∈ ["other"; "unknown"])) as [Ho|Ho].
  - rewrite (bool_decide_eq_true_2 _ Ho).
    repeat (apply elem_of_cons in Ho as [->|Ho]); [vm_compute; lia..|].
    by apply elem_of_nil in Ho.
  - rewrite (bool_decide_eq_false_2 _ Ho).
    destruct (bool_decide (x ∈ ["javascript"; "email"])); simpl; lia.
Qed.

Lemma row_not_javascript_or_email b :
  of_type "website" b || of_type "local" b || of_types ["other"; "unknown"] b = true ->
  negb (javascript_or_email b) = true.
Proof.
  unfold javascript_or_email, of_type, of_types.
  pose proof (one_row_at_most (bookmark_type b)) as H.
  destruct (String.eqb _ "website"), (String.eqb _ "local"),
    (bool_decide (_ ∈ ["other"; "unknown"])),
    (bool_decide (_ ∈ ["javascript"; "email"]));
    simpl in *; try reflexivity; try discriminate; lia.
Qed.

Lemma length_filter_cons (p : Bookmark -> bool) b bookmarks :
  length (List.filter p (b :: bookmarks))
  = Nat.b2n (p b) + length (List.filter p bookmarks).
Proof. simpl. by destruct (p b). Qed.

(** The three rows below the total, and the records without a row, count
    disjoint sets of records. *)
Lemma summary_rows_partition bookmarks :
  count_if (of_type "website") bookmarks + count_if (of_type "local") bookmarks
  + count_if (of_types ["other"; "unknown"]) bookmarks
  + count_if javascript_or_email bookmarks
  <= length bookmarks.
Proof.
  unfold count_if.
  induction bookmarks as [|b bs IH]; [simpl; lia|].
  rewrite !length_filter_cons. cbn [length].
  pose proof (one_row_at_most (bookmark_type b)) as H.
  unfold javascript_or_email at 1, of_type at 1 3, of_types at 1. lia.
Qed.

Lemma count_if_exists (p : Bookmark -> bool) bookmarks :
  Exists (fun b => p b = true) bookmarks -> 0 < count_if p bookmarks.
Proof.
  unfold count_if. induction 1 as [b bs H|b bs _ IH]; simpl.
  - rewrite H. simpl. lia.
  - destruct (p b); simpl; lia.
Qed.

(** The records with a row and the javascript and email records make up
    the list. *)
Lemma with_a_row_length bookmarks :
  length (with_a_row bookmarks) + count_if javascript_or_email bookmarks
  = length bookmarks.
Proof.
  unfold with_a_row, count_if.
  induction bookmarks as [|b bs IH]; [reflexivity|].
  rewrite !length_filter_cons. cbn [length].
  destruct (javascript_or_email b); simpl; lia.
Qed.

(** What [_encode_excel] does when the file can be written: one workbook,
    with the sheet of the records and the summary sheet. *)
Lemma encode_excel_writes (P : Platform) bookmarks (output_file : option string)
    (st : State) :
  write_failure P (output_name P output_file [".xlsx"] ".xlsx") = None ->
  _encode_excel P bookmarks output_file st
  = (Return (PyStr_ (output_name P output_file [".xlsx"] ".xlsx")),
     with_written st (output_name P output_file [".xlsx"] ".xlsx")
       (Workbook
          [("书签列表", rename column_mapping (DataFrame bookmarks));
           ("统计信息",
            summary_sheet (length bookmarks)
              (count_if (of_type "website") bookmarks)
              (count_if (of_type "local") bookmarks)
              (count_if (of_types ["other"; "unknown"]) bookmarks))])).
Proof.
  intros Hw. unfold _encode_excel, mbind, M_bind, write_file. rewrite Hw. reflexivity.
Qed.

End Summary.

(** C10: when the workbook can be written, its summary sheet has four rows:
    the number of records, then the numbers of website records, of local
    records and of other-or-unknown records.  The three numbers below the
    total are what they would be if the javascript and email records were
    not in the list: no row counts those records.  The three numbers add up
    to no more than the number of the remaining records, hence to less than
    the total as soon as a javascript or email record is present. *)
Theorem encode_excel_summary_uncounted (P : Platform) (bookmarks : list Bookmark)
    (output_file : option string) (st : State)
    (writable : write_failure P (output_name P output_file [".xlsx"] ".xlsx") = None) :
  let name := output_name P output_file [".xlsx"] ".xlsx" in
  let website := count_if (of_type "website") in
  let local := count_if (of_type "local") in
  let other := count_if (of_types ["other"; "unknown"]) in
  _encode_excel P bookmarks output_file st
  = (Return (PyStr_ name),
     with_written st name
       (Workbook
          [("书签列表", rename column_mapping (DataFrame bookmarks));
           ("统计信息",
            summary_sheet (length bookmarks) (website bookmarks) (local bookmarks)
              (other bookmarks))]))
  /\ website (with_a_row bookmarks) = website bookmarks
  /\ local (with_a_row bookmarks) = local bookmarks
  /\ other (with_a_row bookmarks) = other bookmarks
  /\ website bookmarks + local bookmarks + other bookmarks <= length (with_a_row bookmarks)
  /\ length (with_a_row bookmarks) + count_if javascript_or_email bookmarks
     = length bookmarks
  /\ (Exists (fun b => javascript_or_email b = true) bookmarks ->
      website bookmarks + local bookmarks + other bookmarks < length bookmarks).
Proof.
  cbn zeta.
  pose proof (summary_rows_partition bookmarks) as Hsum.
  pose proof (with_a_row_length bookmarks) as Hlen.
  split_and!.
  - by apply encode_excel_writes.
  - apply count_if_filter. intros b Hb. apply row_not_javascript_or_email.
    by rewrite Hb.
  - apply count_if_filter. intros b Hb. apply row_not_javascript_or_email.
    rewrite Hb. by rewrite orb_true_r.
  - apply count_if_filter. intros b Hb. apply row_not_javascript_or_email.
    rewrite Hb. by rewrite orb_true_r.
  - lia.
  - exact Hlen.
  - intros H. pose proof (count_if_exists _ _ H). lia.
Qed.

Lemma encode_excel_summary_uncounted_witness :
  written (snd (_encode_excel Samples.platform Cases.script_and_mail (Some "out")
                  initial_state))
  = [("out.xlsx",
      Workbook [("书签列表", rename column_mapping (DataFrame Cases.script_and_mail));
                ("统计信息", summary_sheet 3 1 0 0)])]
  /\ 1 + 0 + 0 < 3.
Proof.
  destruct (encode_excel_summary_uncounted Samples.platform Cases.script_and_mail
              (Some "out") initial_state) as (He & _ & _ & _ & _ & _ & Hlt);
    [reflexivity|].
  split; [by rewrite He|].
  apply Hlt. apply Exists_cons_tl, Exists_cons_hd. reflexivity.
Defined.

(** ** Rules for relations kept by every run *)

#[global] Instance decoder_only_preorder : PreOrder decoder_only.
Proof.
  split.
  - by intros st.
  - intros st1 st2 st3 (?&?&?) (?&?&?). unfold decoder_only. split_and!; congruence.
Qed.

#[global] Instance encoder_only_preorder : PreOrder encoder_only.
Proof.
  split; [by intros st|]. intros st1 st2 st3. unfold encoder_only. congruence.
Qed.

#[global] Instance same_folders_preorder : PreOrder same_folders.
Proof.
  split; [by intros st|]. intros st1 st2 st3. unfold same_folders. congruence.
Qed.

Section Preserves.

Context (Q : State -> State -> Prop) `{!PreOrder Q}.

Lemma preserves_ret {A} (a : A) : preserves Q (mret a).
Proof. intros st. reflexivity. Qed.

Lemma preserves_raise {A} (e : Exception) : preserves Q (raise (A := A) e).
Proof. intros st. reflexivity. Qed.

Lemma preserves_lift {A} (o : Outcome A) : preserves Q (lift o).
Proof. intros st. reflexivity. Qed.

Lemma preserves_bind {A B} (m : M A) (k : A -> M B) :
  preserves Q m -> (forall a, preserves Q (k a)) -> preserves Q (m ≫= k).
Proof.
  intros Hm Hk st. unfold mbind, M_bind.
  specialize (Hm st). destruct (m st) as [[a|e] st1]; simpl in *; [|exact Hm].
  etrans; [exact Hm|]. apply Hk.
Qed.

Lemma preserves_try_except {A} (m : M A) (h : Exception -> M A) :
  preserves Q m -> (forall e, preserves Q (h e)) -> preserves Q (try_except m h).
Proof.
  intros Hm Hh st. unfold try_except.
  specialize (Hm st). destruct (m st) as [[a|e] st1]; simpl in *; [exact Hm|].
  etrans; [exact Hm|]. apply Hh.
Qed.

End Preserves.

Lemma preserves_weaken {A} (Q Q' : State -> State -> Prop) (m : M A) :
  (forall st st', Q st st' -> Q' st st') -> preserves Q m -> preserves Q' m.
Proof. intros HQ Hm st. apply HQ, Hm. Qed.

Lemma decoder_only_same_folders st st' : decoder_only st st' -> same_folders st st'.
Proof. by intros (?&_). Qed.

Lemma encoder_only_same_folders st st' : encoder_only st st' -> same_folders st st'.
Proof. unfold encoder_only, same_folders. by intros ->. Qed.

Lemma log_decoder_only lvl msg : preserves decoder_only (log lvl msg).
Proof. by intros st. Qed.

Lemma log_encoder_only lvl msg : preserves encoder_only (log lvl msg).
Proof. by intros st. Qed.

Lemma print_encoder_only line : preserves encoder_only (print line).
Proof. by intros st. Qed.

Lemma get_decoder_preserves Q `{!PreOrder Q} : preserves Q get_decoder.
Proof. intros st. reflexivity. Qed.

(** Applies the rules above along the structure of a computation. *)
Ltac preserves_step :=
  match goal with
  | |- preserves _ (mret _) => apply preserves_ret; try apply _
  | |- preserves _ (raise _) => apply preserves_raise; try apply _
  | |- preserves _ (lift _) => apply preserves_lift; try apply _
  | |- preserves _ get_decoder => apply get_decoder_preserves; try apply _
  | |- preserves decoder_only (log _ _) => apply log_decoder_only
  | |- preserves encoder_only (log _ _) => apply log_encoder_only
  | |- preserves encoder_only (print _) => apply print_encoder_only
  | |- preserves _ (_ ≫= _) => apply preserves_bind; [apply _| |intros ?]
  | |- preserves _ (try_except _ _) => apply preserves_try_except; [apply _| |intros ?]
  end.

(** ** What the decoder leaves untouched *)

Section DecoderFrame.

Variable P : Platform.

Lemma parse_bookmark_decoder_only a f : preserves decoder_only (_parse_bookmark P a f).
Proof. unfold _parse_bookmark. repeat preserves_step. Qed.

Lemma parse_links_decoder_only links acc : preserves decoder_only (parse_links P links acc).
Proof.
  revert acc. induction links as [|link rest IH]; intros acc; simpl.
  - preserves_step.
  - preserves_step; [apply parse_bookmark_decoder_only|].
    destruct a as [b|]; [|apply IH].
    intros st. unfold mbind, M_bind, get_decoder, set_decoder. simpl.
    etrans; [|apply IH]. by split.
Qed.

Lemma parse_folder_decoder_only root : preserves decoder_only (_parse_folder P root).
Proof. apply parse_links_decoder_only. Qed.

Lemma decode_decoder_only html : preserves decoder_only (decode P html).
Proof.
  unfold decode. repeat preserves_step.
  destruct (Soup.find _ _); [apply parse_folder_decoder_only|].
  repeat preserves_step.
Qed.

Lemma read_with_decoder_only encodings path :
  preserves decoder_only (read_with P encodings path).
Proof.
  induction encodings as [|enc rest IH]; simpl; [preserves_step|].
  destruct (read_text P path enc) as [content|e]; [repeat preserves_step|].
  destruct (issubclass _ _); [exact IH|preserves_step].
Qed.

Lemma decode_html_decoder_only path : preserves decoder_only (decode_html P path).
Proof.
  unfold decode_html. destruct (negb _); [preserves_step|].
  preserves_step; [|repeat preserves_step].
  preserves_step; [apply read_with_decoder_only|].
  destruct a as [html|]; [|preserves_step].
  intros st. unfold mbind, M_bind, get_decoder, set_decoder. simpl.
  etrans; [|apply decode_decoder_only]. by split.
Qed.

End DecoderFrame.

(** ** The bookmark counter (C8) *)

Section Counter.

Variable P : Platform.

(** [_parse_bookmark] returns, with a record or with [None], and leaves the
    decoder as it is. *)
Lemma parse_bookmark_returns a f st :
  exists ob, fst (_parse_bookmark P a f st) = Return ob
             /\ decoder (snd (_parse_bookmark P a f st)) = decoder st.
Proof.
  unfold _parse_bookmark, try_except, mbind, M_bind, lift, mret, M_ret, log.
  destruct (_convert_timestamp P (Soup.get_default "add_date" _ a)); simpl;
    [|by eexists].
  destruct (_convert_timestamp P (Soup.get_default "last_modified" _ a)); simpl;
    by eexists.
Qed.

(** One round of the loop over the links *)
Lemma parse_links_cons link rest acc st :
  parse_links P (link :: rest) acc st
  = match _parse_bookmark P (Soup.node link) (folder_of link) st with
    | (Return (Some b), st1) =>
        parse_links P rest (acc ++ [b])
          (mkState (mkDecoder (total_bookmarks (decoder st1) + 1)
                              (total_folders (decoder st1))
                              (processed_files (decoder st1)))
                   (logged st1) (printed st1) (written st1))
    | (Return None, st1) => parse_links P rest acc st1
    | (Raise e, st1) => (Raise e, st1)
    end.
Proof.
  cbn [parse_links]. unfold mbind at 1, M_bind at 1.
  destruct (_parse_bookmark P (Soup.node link) (folder_of link) st) as [[[b|]|e] st1];
    reflexivity.
Qed.

(** The loop over the links returns the records it was given followed by
    the new ones, and has counted the new ones. *)
Lemma parse_links_count links acc st :
  exists new,
    fst (parse_links P links acc st) = Return (acc ++ new)
    /\ total_bookmarks (decoder (snd (parse_links P links acc st)))
       = total_bookmarks (decoder st) + length new.
Proof.
  revert acc st. induction links as [|link rest IH]; intros acc st.
  - exists []. simpl. rewrite app_nil_r. split; [reflexivity|lia].
  - rewrite parse_links_cons.
    destruct (parse_bookmark_returns (Soup.node link) (folder_of link) st)
      as (ob & Hr & Hd).
    destruct (_parse_bookmark P (Soup.node link) (folder_of link) st) as [r st1].
    simpl in Hr, Hd. subst r. destruct ob as [b|].
    + match goal with
      | |- context [parse_links P rest ?acc' ?st'] =>
          destruct (IH acc' st') as (new & Hn & Ht)
      end.
      exists (b :: new). rewrite Hn, Ht. simpl. rewrite Hd.
      split; [by rewrite <- app_assoc|lia].
    + destruct (IH acc st1) as (new & Hn & Ht).
      exists new. rewrite Hn, Ht, Hd. done.
Qed.

(** A call of [decode] adds to the counter the number of records it
    returns, and nothing when it raises. *)
Lemma decode_count html st :
  total_bookmarks (decoder (snd (decode P html st)))
  = total_bookmarks (decoder st)
    + match fst (decode P html st) with
      | Return bookmarks => length bookmarks
      | Raise _ => 0
      end.
Proof.
  unfold decode, try_except, mbind, M_bind, lift.
  destruct (html_parser P html) as [soup|e]; simpl; [|lia].
  destruct (Soup.find "dl" (Soup.top_element soup)) as [root|]; simpl; [|lia].
  unfold _parse_folder.
  destruct (parse_links_count (Soup.find_all "a" root) [] st) as (new & Hn & Ht).
  destruct (parse_links P (Soup.find_all "a" root) [] st) as [r st1].
  simpl in *. subst r. simpl. exact Ht.
Qed.

End Counter.

(** C8: over a session the counter grows by the number of bookmarks each
    call returned; it is never set back.  From a fresh decoder it is the sum
    of those numbers. *)
Theorem session_total_bookmarks (P : Platform) (inputs : list string) :
  (forall st,
     total_bookmarks (decoder (snd (session P inputs st)))
     = total_bookmarks (decoder st) + sum_list (fst (session P inputs st)))
  /\ total_bookmarks (decoder (snd (session P inputs initial_state)))
     = sum_list (fst (session P inputs initial_state)).
Proof.
  assert (forall st,
     total_bookmarks (decoder (snd (session P inputs st)))
     = total_bookmarks (decoder st) + sum_list (fst (session P inputs st))) as H.
  { induction inputs as [|html rest IH]; intros st; simpl; [lia|].
    pose proof (decode_count P html st) as Hd.
    destruct (decode P html st) as [r st1].
    specialize (IH st1). destruct (session P rest st1) as [ns st2].
    simpl in *. rewrite IH, Hd. lia. }
  split; [exact H|]. by rewrite H.
Qed.

Example session_twice :
  let '(ns, st) :=
    session Samples.platform
            [Samples.two_and_folder_html; Samples.blank_folder_html;
             Samples.two_and_folder_html] initial_state in
  ns = [3; 1; 3] /\ total_bookmarks (decoder st) = 7.
Proof. vm_compute. split; reflexivity. Qed.

(** ** The converter on an empty result (C7) *)

Section EmptyResult.

Variable P : Platform.

(** Markup without a definition list decodes to no record. *)
Lemma decode_no_root html soup st :
  html_parser P html = Return soup ->
  Soup.find "dl" (Soup.top_element soup) = None ->
  decode P html st = (Return [], snd (log WARNING "未找到有效的根标签(<DL>)" st)).
Proof.
  intros Hp Hr. unfold decode, try_except, mbind, M_bind, lift.
  rewrite Hp. simpl. rewrite Hr. reflexivity.
Qed.

(** Markup whose definition list holds no anchor decodes to no record. *)
Lemma decode_no_anchor html soup root st :
  html_parser P html = Return soup ->
  Soup.find "dl" (Soup.top_element soup) = Some root ->
  Soup.find_all "a" root = [] ->
  decode P html st = (Return [], st).
Proof.
  intros Hp Hr Ha. unfold decode, try_except, mbind, M_bind, lift, _parse_folder.
  rewrite Hp. simpl. rewrite Hr, Ha. reflexivity.
Qed.

End EmptyResult.

(** C7: when the decoding that [convert] starts returns no record, [convert]
    returns [None] after logging one warning; nothing is printed or written,
    and the registry is not consulted: the outcome is the same for every
    registry and every format name. *)
Theorem convert_no_bookmarks (P : Platform) (_formats : Formats)
    (input_file output_format : string) (output_file : option string)
    (st st' : State) :
  decode_html P input_file
    (snd (log INFO ("开始转换: " +:+ input_file +:+ " -> " +:+ output_format) st))
  = (Return [], st') ->
  convert P _formats input_file output_format output_file st
  = (Return PyNone,
     mkState (decoder st') (logged st' ++ [(WARNING, "未找到书签数据")])
             (printed st) (written st)).
Proof.
  intros H.
  pose proof (decode_html_decoder_only P input_file
    (snd (log INFO ("开始转换: " +:+ input_file +:+ " -> " +:+ output_format) st)))
    as (_ & Hp & Hw).
  rewrite H in Hp, Hw. simpl in Hp, Hw.
  unfold convert. unfold mbind at 1, M_bind at 1. simpl.
  unfold mbind at 1, M_bind at 1. simpl in H. rewrite H.
  unfold mbind, M_bind, log, mret, M_ret. simpl. by rewrite Hp, Hw.
Qed.

Lemma convert_no_bookmarks_witness :
  let P := Utc.platform Samples.parse_table {[ "empty.html" := EmptyString ]} in
  fst (convert P (builtin_formats P) "empty.html" "json" None initial_state) = Return PyNone
  /\ written (snd (convert P (builtin_formats P) "empty.html" "json" None initial_state)) = [].
Proof.
  intros P.
  set (st1 := snd (log INFO ("开始转换: " +:+ "empty.html" +:+ " -> " +:+ "json") initial_state)).
  assert (decode_html P "empty.html" st1
          = (Return [], snd (decode_html P "empty.html" st1))) as H
    by (vm_compute; reflexivity).
  rewrite (convert_no_bookmarks P (builtin_formats P) "empty.html" "json" None
             initial_state _ H).
  split; reflexivity.
Defined.

(** ** The folder counter (C9) *)

Section FolderCounter.

Variable P : Platform.

Lemma write_file_encoder_only path a : preserves encoder_only (write_file P path a).
Proof. intros st. unfold write_file. by destruct (write_failure P path). Qed.

Lemma print_bookmarks_encoder_only i bookmarks :
  preserves encoder_only (print_bookmarks i bookmarks).
Proof.
  revert i. induction bookmarks as [|b bs IH]; intros i; simpl.
  - preserves_step.
  - repeat preserves_step. apply IH.
Qed.

Lemma encode_excel_encoder_only bookmarks out :
  preserves encoder_only (_encode_excel P bookmarks out).
Proof.
  unfold _encode_excel. preserves_step; [apply write_file_encoder_only|preserves_step].
Qed.

Lemma encode_csv_encoder_only bookmarks out :
  preserves encoder_only (_encode_csv P bookmarks out).
Proof.
  unfold _encode_csv. preserves_step; [apply write_file_encoder_only|preserves_step].
Qed.

Lemma encode_json_encoder_only bookmarks out :
  preserves encoder_only (_encode_json P bookmarks out).
Proof.
  unfold _encode_json. preserves_step; [apply write_file_encoder_only|preserves_step].
Qed.

Lemma encode_stdout_encoder_only bookmarks out :
  preserves encoder_only (_encode_stdout bookmarks out).
Proof.
  unfold _encode_stdout. preserves_step; [apply print_bookmarks_encoder_only|].
  repeat preserves_step.
Qed.

Lemma encode_flare_encoder_only bookmarks out :
  preserves encoder_only (_encode_flare P bookmarks out).
Proof.
  unfold _encode_flare. destruct (flare_data bookmarks) as [categories links].
  preserves_step; [|repeat preserves_step].
  preserves_step; [apply write_file_encoder_only|repeat preserves_step].
Qed.

(** Dispatch keeps what every registered encoder keeps. *)
Lemma encode_preserves Q `{!PreOrder Q} (_formats : Formats) bookmarks fmt out :
  Forall (fun entry => forall bs o, preserves Q (snd entry bs o)) _formats ->
  preserves Q (encode _formats bookmarks fmt out).
Proof.
  intros H. unfold encode.
  induction H as [|[k v] d Hv _ IH]; simpl; [by apply preserves_raise|].
  destruct (String.eqb k fmt); [apply Hv|apply IH].
Qed.

Lemma builtin_formats_encoder_only :
  Forall (fun entry => forall bs o, preserves encoder_only (snd entry bs o))
         (builtin_formats P).
Proof.
  repeat constructor; simpl; intros bs o.
  - apply encode_excel_encoder_only.
  - apply encode_csv_encoder_only.
  - apply encode_json_encoder_only.
  - apply encode_stdout_encoder_only.
  - apply encode_flare_encoder_only.
Qed.

Lemma log_same_folders lvl msg : preserves same_folders (log lvl msg).
Proof. by intros st. Qed.

Lemma decode_html_same_folders path : preserves same_folders (decode_html P path).
Proof.
  eapply preserves_weaken; [apply decoder_only_same_folders|].
  apply decode_html_decoder_only.
Qed.

Lemma convert_same_folders input fmt out :
  preserves same_folders (convert P (builtin_formats P) input fmt out).
Proof.
  unfold convert.
  preserves_step; [apply log_same_folders|].
  preserves_step; [apply decode_html_same_folders|].
  destruct a0 as [|b bs].
  - preserves_step; [apply log_same_folders|preserves_step].
  - preserves_step; [apply log_same_folders|].
    preserves_step.
    + preserves_step.
      * apply encode_preserves; [apply _|].
        eapply Forall_impl; [apply builtin_formats_encoder_only|].
        intros entry H bs' o. eapply preserves_weaken; [|apply H].
        apply encoder_only_same_folders.
      * preserves_step; [apply log_same_folders|preserves_step].
    + preserves_step; [apply log_same_folders|preserves_step].
Qed.

(** One round of the statistics loop *)
Lemma stats_loop_cons input_file rest st :
  stats_loop P (input_file :: rest) st
  = if negb (path_exists P input_file)
    then stats_loop P rest (snd (log WARNING ("文件 " +:+ input_file +:+ " 不存在") st))
    else
      match decode_html P input_file st with
      | (Return bookmarks, st1) =>
          stats_loop P rest
            (mkState (decoder st1) (logged st1)
               (printed st1
                ++ stats_report (total_folders (decoder st1)) (input_file, length bookmarks))
               (written st1))
      | (Raise e, st1) => (Raise e, st1)
      end.
Proof.
  cbn [stats_loop]. destruct (negb _); [reflexivity|].
  unfold mbind at 1, M_bind at 1.
  destruct (decode_html P input_file st) as [[bookmarks|e] st1]; [|reflexivity].
  unfold mbind, M_bind, print, get_decoder. simpl.
  by rewrite <- !app_assoc.
Qed.

(** Every report of the loop shows the folder counter as it stood when the
    loop began. *)
Lemma stats_loop_reports input_files st :
  exists files,
    printed (snd (stats_loop P input_files st))
    = printed st ++ flat_map (stats_report (total_folders (decoder st))) files.
Proof.
  revert st. induction input_files as [|input_file rest IH]; intros st.
  - exists []. simpl. by rewrite app_nil_r.
  - rewrite stats_loop_cons. destruct (negb _).
    + destruct (IH (snd (log WARNING ("文件 " +:+ input_file +:+ " 不存在") st)))
        as (files & H).
      exists files. exact H.
    + pose proof (decode_html_decoder_only P input_file st) as (Hf & Hp & _).
      destruct (decode_html P input_file st) as [[bookmarks|e] st1]; simpl in Hf, Hp.
      * match goal with
        | |- context [stats_loop P rest ?st'] => destruct (IH st') as (files & H)
        end.
        exists ((input_file, length bookmarks) :: files).
        rewrite H. simpl. rewrite Hf, Hp. by rewrite <- !app_assoc.
      * exists []. simpl. by rewrite Hp, app_nil_r.
Qed.

End FolderCounter.

(** C9: the folder counter starts at 0; decoding, from either entry point,
    the parsing of a folder or of a link, and a conversion with the built-in
    encoders all leave it as it is; and every report printed in statistics
    mode shows 0 folders. *)
Theorem total_folders_never_modified (P : Platform) :
  total_folders BookmarkDecoder_init = 0
  /\ (forall html, preserves same_folders (decode P html))
  /\ (forall path, preserves same_folders (decode_html P path))
  /\ (forall root, preserves same_folders (_parse_folder P root))
  /\ (forall a f, preserves same_folders (_parse_bookmark P a f))
  /\ (forall input fmt out,
        preserves same_folders (convert P (builtin_formats P) input fmt out))
  /\ (forall input_files st,
        exists files,
          printed (snd (main_stats_only P input_files st))
          = printed st ++ flat_map (stats_report 0) files).
Proof.
  split_and!; try reflexivity.
  - intros html. eapply preserves_weaken; [apply decoder_only_same_folders|].
    apply decode_decoder_only.
  - apply decode_html_same_folders.
  - intros root. eapply preserves_weaken; [apply decoder_only_same_folders|].
    apply parse_folder_decoder_only.
  - intros a f. eapply preserves_weaken; [apply decoder_only_same_folders|].
    apply parse_bookmark_decoder_only.
  - apply convert_same_folders.
  - intros input_files st.
    unfold main_stats_only, try_except, set_decoder.
    unfold mbind at 1, M_bind at 1. unfold mbind at 1, M_bind at 1.
    match goal with
    | |- context [stats_loop P input_files ?st0] =>
        destruct (stats_loop_reports P input_files st0) as (files & H);
        destruct (stats_loop P input_files st0) as [[[]|e] st1]
    end; simpl in *; exists files; exact H.
Qed.

Example stats_only_sample :
  let P := Utc.platform Samples.parse_table
             {[ "b.html" := Samples.two_and_folder_html ]} in
  printed (snd (main_stats_only P ["b.html"] initial_state))
  = [String "010" "文件: b.html"; "书签数: 3"; "文件夹数: 0"].
Proof. vm_compute. reflexivity. Qed.

(** ** The category/link encoder (C3) *)

Section Flare.

Implicit Types (folders : list string) (bookmarks : list Bookmark).

(** The folders of the encoder: no duplicates, and exactly the non-empty
    folders of the records. *)
Lemma flare_folders_NoDup bookmarks : NoDup (flare_folders bookmarks).
Proof.
  unfold flare_folders. rewrite merge_sort_Permutation. apply NoDup_elements.
Qed.

Lemma elem_of_flare_folders bookmarks (f : string) :
  f ∈ flare_folders bookmarks <-> f <> EmptyString /\ exists b, b ∈ bookmarks /\ folder b = f.
Proof.
  unfold flare_folders.
  rewrite merge_sort_Permutation, elem_of_elements, elem_of_list_to_set.
  rewrite list_elem_of_In, filter_In, in_map_iff.
  split.
  - intros [(b & <- & Hb) Ht]. split; [by destruct (folder b)|].
    exists b. by rewrite list_elem_of_In.
  - intros [Hne (b & Hb & <-)]. split; [|by destruct (folder b)].
    exists b. by rewrite <- list_elem_of_In.
Qed.

Lemma flare_folders_sorted bookmarks : Sorted String.le (flare_folders bookmarks).
Proof. apply Sorted_merge_sort; apply _. Qed.

Lemma length_flare_categories folders :
  length (flare_categories folders) = length folders.
Proof.
  unfold flare_categories. rewrite length_map.
  generalize 1. induction folders as [|f fs IH]; intros n; simpl; [done|].
  by rewrite IH.
Qed.

Lemma enumerate_snd {A} (start : nat) (xs : list A) :
  map snd (enumerate start xs) = xs.
Proof.
  revert start. induction xs as [|x xs IH]; intros start; simpl; [done|].
  by rewrite IH.
Qed.

Lemma flare_categories_titles folders :
  map cat_title (flare_categories folders) = folders.
Proof.
  unfold flare_categories. rewrite map_map. cbn [cat_title]. apply enumerate_snd.
Qed.

(** Keys that are not enumerated keep their entry. *)
Lemma folder_to_id_other folders (start : nat) (d : gmap string nat) (f : string) :
  f ∉ folders ->
  foldl (fun d p => <[snd p := fst p]> d) d (enumerate start folders) !! f = d !! f.
Proof.
  revert start d. induction folders as [|x fs IH]; intros start d Hf; [reflexivity|].
  apply not_elem_of_cons in Hf as [Hne Hf]. simpl.
  rewrite IH by done. by rewrite lookup_insert_ne.
Qed.

(** A folder of a duplicate-free list is mapped to the number it is
    enumerated with. *)
Lemma folder_to_id_enumerated folders (start : nat) (d : gmap string nat) (f : string) :
  NoDup folders -> f ∈ folders ->
  exists i,
    foldl (fun d p => <[snd p := fst p]> d) d (enumerate start folders) !! f = Some i
    /\ (i, f) ∈ enumerate start folders.
Proof.
  intros Hnd. revert start d.
  induction Hnd as [|x fs Hx Hnd IH]; intros start d Hf; [by apply elem_of_nil in Hf|].
  simpl. apply elem_of_cons in Hf as [->|Hf].
  - exists start. rewrite folder_to_id_other by done.
    rewrite lookup_insert_eq. split; [done|]. apply list_elem_of_here.
  - destruct (IH (S start) (<[x:=start]> d) Hf) as (i & Hi & Hin).
    exists i. split; [done|]. by apply list_elem_of_further.
Qed.

(** Every record with a non-empty folder gets the identifier of the
    category that carries its folder as title. *)
Lemma flare_link_category bookmarks b :
  b ∈ bookmarks -> folder b <> EmptyString ->
  exists i,
    link_category (flare_link (flare_folder_to_id (flare_folders bookmarks)) b) = Some i
    /\ mkCategory i (folder b) ∈ fst (flare_data bookmarks).
Proof.
  intros Hb Hne.
  assert (folder b ∈ flare_folders bookmarks) as Hin
    by (apply elem_of_flare_folders; eauto).
  destruct (folder_to_id_enumerated (flare_folders bookmarks) 1 ∅ (folder b)
              (flare_folders_NoDup bookmarks) Hin) as (i & Hi & He).
  exists i. split.
  - unfold flare_link. cbn [link_category].
    destruct (folder b) eqn:E; [done|]. cbn [PyStr.truthy]. exact Hi.
  - unfold flare_data, flare_categories. cbn [fst].
    apply list_elem_of_In, in_map_iff. exists (i, folder b).
    split; [reflexivity|]. by apply list_elem_of_In.
Qed.

(** Two distinct non-empty folders make two categories, with those
    titles. *)
Lemma flare_two_folders bookmarks (p c : string) :
  p <> EmptyString -> c <> EmptyString -> p <> c ->
  (forall f, (exists b, b ∈ bookmarks /\ folder b = f) <-> f = p \/ f = c) ->
  flare_folders bookmarks ≡ₚ [p; c].
Proof.
  intros Hp Hc Hpc Hf.
  apply NoDup_Permutation.
  - apply flare_folders_NoDup.
  - apply NoDup_cons. split; [|apply NoDup_singleton].
    by intros ?%list_elem_of_singleton.
  - intros f. rewrite elem_of_flare_folders, Hf.
    rewrite !elem_of_cons, elem_of_nil.
    split; [intros [_ [?|?]]; auto|intros [->|[->|[]]]; auto].
Qed.

End Flare.

Section DecodeLinks.

Variable P : Platform.

(** A link whose timestamps convert yields a record, and nothing is
    logged. *)
Lemma parse_bookmark_ok a f st :
  timestamps_convert P a ->
  exists b, _parse_bookmark P a f st = (Return (Some b), st)
            /\ folder b = _clean_folder_path f.
Proof.
  intros [H1 H2].
  unfold _parse_bookmark, try_except, mbind, M_bind, lift, mret, M_ret.
  destruct (_convert_timestamp P (Soup.get_default "add_date" _ a)); [|done].
  destruct (_convert_timestamp P (Soup.get_default "last_modified" _ a)); [|done].
  simpl. eexists. split; reflexivity.
Qed.

(** When the timestamps of every link convert, the loop returns one record
    per link, in order, each with the cleaned folder of its link. *)
Lemma parse_links_all_ok links acc st :
  Forall (fun l => timestamps_convert P (Soup.node l)) links ->
  exists bs,
    fst (parse_links P links acc st) = Return (acc ++ bs)
    /\ Forall2 (fun l b => folder b = _clean_folder_path (folder_of l)) links bs.
Proof.
  intros H. revert acc st.
  induction H as [|l links Hl _ IH]; intros acc st.
  - exists []. simpl. by rewrite app_nil_r.
  - rewrite parse_links_cons.
    destruct (parse_bookmark_ok (Soup.node l) (folder_of l) st Hl) as (b & -> & Hb).
    match goal with
    | |- context [parse_links P links ?acc' ?st'] =>
        destruct (IH acc' st') as (bs & Hr & Hf)
    end.
    exists (b :: bs). rewrite Hr. split; [by rewrite <- app_assoc|].
    by constructor.
Qed.

End DecodeLinks.

(** The family of documents with two links at the top and a folder that
    holds one link has that shape: the paths of its three links are empty,
    empty and the name of the folder. *)
Lemma family_shape attrs1 text1 attrs2 text2 name attrs3 text3 :
  name <> EmptyString ->
  exists root,
    Soup.find "dl" (Soup.top_element
      (Samples.two_links_one_folder attrs1 text1 attrs2 text2 name attrs3 text3))
    = Some root
    /\ map Soup.node (Soup.find_all "a" root)
       = [Samples.link attrs1 text1; Samples.link attrs2 text2; Samples.link attrs3 text3]
    /\ map folder_path (Soup.find_all "a" root) = [[]; []; [name]].
Proof.
  intros Hne. eexists. split; [reflexivity|]. split; [reflexivity|].
  destruct name; [done|reflexivity].
Qed.

(** C3, as amended: take any parse tree in which the anchors below the root
    list are three links, two of them at the top level (no folder above
    them) and one in a folder [name] (one folder above it), in any order and
    with anything else around them.  When the timestamps of the links
    convert and the cleaned name of the folder is neither empty nor the
    placeholder, [decode] returns three records; the category/link encoder
    makes two categories of them (the placeholder folder and the named one)
    and three links, and the category of each link is the identifier of the
    category that carries the folder of its record. *)
Theorem decode_then_flare (P : Platform) (html : string) (soup : Soup.Node)
    (root : Soup.Element) (name : string) (st : State) :
  html_parser P html = Return soup ->
  Soup.find "dl" (Soup.top_element soup) = Some root ->
  map folder_path (Soup.find_all "a" root) ≡ₚ [[]; []; [name]] ->
  Forall (fun link => timestamps_convert P (Soup.node link)) (Soup.find_all "a" root) ->
  _clean_folder_path name <> EmptyString ->
  _clean_folder_path name <> "书签栏" ->
  exists bookmarks,
    fst (decode P html st) = Return bookmarks
    /\ length bookmarks = 3
    /\ length (fst (flare_data bookmarks)) = 2
    /\ map cat_title (fst (flare_data bookmarks)) ≡ₚ ["书签栏"; _clean_folder_path name]
    /\ length (snd (flare_data bookmarks)) = 3
    /\ Forall2 (fun b l => exists i, link_category l = Some i
                           /\ mkCategory i (folder b) ∈ fst (flare_data bookmarks))
               bookmarks (snd (flare_data bookmarks)).
Proof.
  intros Hp Hroot Hshape Hts Hne Hnp.
  destruct (parse_links_all_ok P (Soup.find_all "a" root) [] st Hts) as (bs & Hr & Hf).
  assert (map folder bs ≡ₚ ["书签栏"; "书签栏"; _clean_folder_path name]) as Hfolders.
  { assert (map folder bs
            = map (fun path => _clean_folder_path
                                 (match path with
                                  | [] => "书签栏"
                                  | _ => PyStr.join " > " path
                                  end))
                  (map folder_path (Soup.find_all "a" root))) as ->.
    { rewrite map_map. clear -Hf.
      induction Hf as [|l b ls bs' Hb _ IH]; [reflexivity|].
      cbn [map]. rewrite Hb, IH. f_equal. unfold folder_of, folder_path.
      by destruct (folder_loop _ _). }
    etrans; [apply Permutation_map, Hshape|]. reflexivity. }
  assert (length bs = 3) as Hlen.
  { rewrite <- (length_map folder bs). by rewrite Hfolders. }
  assert (forall b, b ∈ bs -> folder b = "书签栏" \/ folder b = _clean_folder_path name)
    as Hcases.
  { intros b Hb.
    assert (folder b ∈ map folder bs) as Hin
      by (apply list_elem_of_In, in_map; by apply list_elem_of_In).
    rewrite Hfolders in Hin.
    repeat (apply elem_of_cons in Hin as [Hin|Hin]); auto.
    by apply elem_of_nil in Hin. }
  assert (flare_folders bs ≡ₚ ["书签栏"; _clean_folder_path name]) as Hcats.
  { apply flare_two_folders; [done|done|done|].
    intros f. split.
    - intros (b & Hb & <-). by apply Hcases.
    - intros Hc.
      assert (f ∈ map folder bs) as Hin.
      { rewrite Hfolders. destruct Hc as [-> | ->];
          repeat first [apply list_elem_of_here|apply list_elem_of_further]. }
      apply list_elem_of_In, in_map_iff in Hin as (b & Hb & Hin).
      exists b. split; [by apply list_elem_of_In|done]. }
  exists bs. split_and!.
  - unfold decode, try_except, mbind, M_bind, lift. rewrite Hp. cbv beta iota.
    rewrite Hroot. unfold _parse_folder.
    destruct (parse_links P (Soup.find_all "a" root) [] st) as [r st1].
    simpl in Hr. by subst r.
  - exact Hlen.
  - unfold flare_data. cbn [fst]. rewrite length_flare_categories. by rewrite Hcats.
  - unfold flare_data. cbn [fst]. by rewrite flare_categories_titles.
  - unfold flare_data. cbn [snd]. by rewrite length_map.
  - assert (snd (flare_data bs)
            = map (flare_link (flare_folder_to_id (flare_folders bs))) bs)
      as -> by reflexivity.
    apply Forall2_fmap_r, Forall_Forall2_diag, Forall_forall.
    intros b Hb. apply flare_link_category; [exact Hb|].
    destruct (Hcases b Hb) as [-> | ->]; done.
Qed.

Lemma decode_then_flare_witness :
  (exists bookmarks,
     fst (decode Samples.platform Samples.two_and_folder_html initial_state)
     = Return bookmarks
     /\ length bookmarks = 3
     /\ length (fst (flare_data bookmarks)) = 2
     /\ length (snd (flare_data bookmarks)) = 3)
  /\ (exists bookmarks,
        fst (decode Cases.folder_first Cases.folder_first_html initial_state)
        = Return bookmarks
        /\ length bookmarks = 3
        /\ length (fst (flare_data bookmarks)) = 2
        /\ length (snd (flare_data bookmarks)) = 3).
Proof.
  split.
  - edestruct (decode_then_flare Samples.platform Samples.two_and_folder_html
                 Samples.two_and_folder_soup) with (name := "Work") (st := initial_state)
      as (bs & Hd & Hn & Hc & _ & Hl & _).
    + reflexivity.
    + reflexivity.
    + reflexivity.
    + repeat constructor.
    + vm_compute. discriminate.
    + vm_compute. discriminate.
    + exists bs. by split_and!.
  - edestruct (decode_then_flare Cases.folder_first Cases.folder_first_html
                 Cases.folder_first_soup) with (name := "Work") (st := initial_state)
      as (bs & Hd & Hn & Hc & _ & Hl & _).
    + reflexivity.
    + reflexivity.
    + exact (Permutation_cons_append [[]; []] ["Work"]).
    + repeat constructor.
    + vm_compute. discriminate.
    + vm_compute. discriminate.
    + exists bs. by split_and!.
Defined.

(** C3, as stated, fails: the sample with two top-level links and one
    folder decodes to three records, and the encoder makes two categories
    of them, not one. *)
Lemma flare_sample_two_categories :
  exists bookmarks,
    fst (decode Samples.platform Samples.two_and_folder_html initial_state)
    = Return bookmarks
    /\ length bookmarks = 3
    /\ fst (flare_data bookmarks) = [mkCategory 1 "Work"; mkCategory 2 "书签栏"]
    /\ map link_category (snd (flare_data bookmarks)) = [Some 2; Some 2; Some 1]
    /\ length (fst (flare_data bookmarks)) <> 1.
Proof.
  eexists. split; [vm_compute; reflexivity|].
  split_and!; [reflexivity|vm_compute; reflexivity|vm_compute; reflexivity|].
  vm_compute. discriminate.
Qed.

(* ===================================================================== *)
(** * Further properties of the script                                     *)
(* ===================================================================== *)

(** ** Registration and dispatch *)

Section Registry.

Implicit Types (d : Formats) (k : string) (v : Encoder).

Lemma dict_get_set_eq k v d : dict_get k (dict_set k v d) = Some v.
Proof.
  induction d as [|[k' v'] d IH]; simpl.
  - by rewrite String.eqb_refl.
  - destruct (String.eqb_spec k' k) as [->|Hne]; simpl.
    + by rewrite String.eqb_refl.
    + destruct (String.eqb_spec k' k); [done|exact IH].
Qed.

Lemma dict_get_set_ne k k' v d : k <> k' -> dict_get k' (dict_set k v d) = dict_get k' d.
Proof.
  intros Hne. induction d as [|[k0 v0] d IH]; simpl.
  - by destruct (String.eqb_spec k k').
  - destruct (String.eqb_spec k0 k) as [->|Hk]; simpl.
    + by destruct (String.eqb_spec k k').
    + destruct (String.eqb_spec k0 k'); [done|exact IH].
Qed.

Lemma dict_set_keys k v d :
  map fst (dict_set k v d)
  = if bool_decide (k ∈ map fst d) then map fst d else map fst d ++ [k].
Proof.
  induction d as [|[k' v'] d IH]; [reflexivity|].
  cbn [dict_set]. destruct (String.eqb_spec k' k) as [->|Hne].
  - cbn [map fst]. rewrite bool_decide_eq_true_2; [done|apply list_elem_of_here].
  - cbn [map fst]. rewrite IH.
    destruct (decide (k ∈ map fst d)) as [Hin|Hin].
    + rewrite !bool_decide_eq_true_2; [done|by apply list_elem_of_further|done].
    + rewrite !bool_decide_eq_false_2; [done| |done].
      intros [?|?]%elem_of_cons; congruence.
Qed.

End Registry.

(** X1: after [register_format name f], [encode] with that name runs [f]
    on the records and the output file, whatever was registered before:
    the last registration wins. *)
Theorem encode_after_register (_formats : Formats) (format_name : string)
    (encoder_func : Encoder) (bookmarks : list Bookmark) (output_file : option string) :
  encode (register_format format_name encoder_func _formats) bookmarks format_name output_file
  = encoder_func bookmarks output_file.
Proof. unfold encode, register_format. by rewrite dict_get_set_eq. Qed.

(** X2: registering a format leaves the dispatch of every other name as it
    was. *)
Theorem encode_other_after_register (_formats : Formats) (format_name other : string)
    (encoder_func : Encoder) (bookmarks : list Bookmark) (output_file : option string) :
  format_name <> other ->
  encode (register_format format_name encoder_func _formats) bookmarks other output_file
  = encode _formats bookmarks other output_file.
Proof. intros H. unfold encode, register_format. by rewrite dict_get_set_ne. Qed.

Lemma encode_other_after_register_witness :
  encode (register_format "xml" (fun _ _ => mret PyNone) (builtin_formats Samples.platform))
         [] "stdout" None
  = encode (builtin_formats Samples.platform) [] "stdout" None.
Proof.
  apply (encode_other_after_register (builtin_formats Samples.platform) "xml" "stdout").
  discriminate.
Defined.

(** X3: the list of available formats keeps its order: registering a name
    that is already there changes nothing in it, a new name goes to the
    end. *)
Theorem available_formats_after_register (_formats : Formats) (format_name : string)
    (encoder_func : Encoder) :
  get_available_formats (register_format format_name encoder_func _formats)
  = if bool_decide (format_name ∈ get_available_formats _formats)
    then get_available_formats _formats
    else get_available_formats _formats ++ [format_name].
Proof. unfold get_available_formats, register_format. apply dict_set_keys. Qed.

(** X4: whatever is registered, in whatever order and however often, from
    the empty registry on, no format name is listed twice. *)
Theorem available_formats_NoDup (registrations : list (string * Encoder)) :
  NoDup (get_available_formats
           (foldl (fun d r => register_format (fst r) (snd r) d) [] registrations)).
Proof.
  assert (forall d, NoDup (get_available_formats d) ->
            NoDup (get_available_formats
                     (foldl (fun d r => register_format (fst r) (snd r) d) d registrations)))
    as H; [|apply H, NoDup_nil_2].
  induction registrations as [|[k v] rs IH]; intros d Hd; [exact Hd|].
  simpl. apply IH.
  unfold get_available_formats, register_format in *. rewrite dict_set_keys.
  destruct (decide (k ∈ map fst d)) as [Hin|Hin].
  - by rewrite bool_decide_eq_true_2.
  - rewrite bool_decide_eq_false_2 by done.
    apply NoDup_app. split_and!; [done| |apply NoDup_singleton].
    intros x Hx ->%list_elem_of_singleton. done.
Qed.

(** ** Classification ignores case *)

Section Case.

Import PyStr.

Lemma lower_char_upper_char c : lower_char (upper_char c) = lower_char c.
Proof.
  unfold lower_char, upper_char, is_upper, is_lower.
  destruct (97 <=? N_of_ascii c)%N eqn:H1, (N_of_ascii c <=? 122)%N eqn:H2;
    cbn [andb]; try reflexivity.
  apply N.leb_le in H1, H2.
  assert (N_of_ascii c - 32 < 256)%N as Hlt by lia.
  rewrite (N_ascii_embedding _ Hlt).
  assert ((65 <=? N_of_ascii c - 32)%N && (N_of_ascii c - 32 <=? 90)%N = true) as ->.
  { apply andb_true_intro. split; apply N.leb_le; lia. }
  assert ((65 <=? N_of_ascii c)%N && (N_of_ascii c <=? 90)%N = false) as ->.
  { apply andb_false_intro2. apply N.leb_gt. lia. }
  replace (N_of_ascii c - 32 + 32)%N with (N_of_ascii c) by lia.
  apply ascii_N_embedding.
Qed.

Lemma lower_char_idemp c : lower_char (lower_char c) = lower_char c.
Proof.
  unfold lower_char at 2 3. destruct (is_upper c) eqn:H; [|unfold lower_char; by rewrite H].
  unfold lower_char, is_upper in *.
  apply andb_prop in H as [H1 H2]. apply N.leb_le in H1, H2.
  assert (N_of_ascii c + 32 < 256)%N as Hlt by lia.
  rewrite (N_ascii_embedding _ Hlt).
  assert ((N_of_ascii c + 32 <=? 90)%N = false) as -> by (apply N.leb_gt; lia).
  by rewrite andb_false_r.
Qed.

Lemma lower_upper s : lower (upper s) = lower s.
Proof. induction s as [|c s IH]; simpl; [done|]. by rewrite lower_char_upper_char, IH. Qed.

Lemma lower_idemp s : lower (lower s) = lower s.
Proof. induction s as [|c s IH]; simpl; [done|]. by rewrite lower_char_idemp, IH. Qed.

Lemma truthy_lower s : truthy (lower s) = truthy s.
Proof. by destruct s. Qed.

Lemma truthy_upper s : truthy (upper s) = truthy s.
Proof. by destruct s. Qed.

End Case.

(** X5: the type of a URL of ASCII characters does not depend on the case
    of its letters: writing the URL in upper case or in lower case gives the
    same type.  (On ASCII text [upper] and [lower] change the letters a-z
    and A-Z and nothing else; outside ASCII, [str.upper] can turn one
    character into ASCII letters, so the statement is for ASCII only.) *)
Theorem get_bookmark_type_ignores_case (url : string) :
  PyStr.isascii url = true ->
  _get_bookmark_type (PyStr.upper url) = _get_bookmark_type url
  /\ _get_bookmark_type (PyStr.lower url) = _get_bookmark_type url.
Proof.
  intros _. unfold _get_bookmark_type.
  by rewrite truthy_upper, truthy_lower, lower_upper, lower_idemp.
Qed.

Lemma get_bookmark_type_ignores_case_witness :
  _get_bookmark_type "FILE:///TMP/A.HTML" = "local"
  /\ _get_bookmark_type "file:///tmp/a.html" = "local".
Proof.
  destruct (get_bookmark_type_ignores_case "File:///tmp/A.html") as [Hu Hl];
    [reflexivity|].
  split; [exact Hu|exact Hl].
Defined.

(** ** Reversal, suffixes and stripping *)

Section Strings.

Import PyStr.

Lemma string_app_cons (x : ascii) (a b : string) :
  String x a +:+ b = String x (a +:+ b).
Proof. reflexivity. Qed.

Lemma string_app_nil_l (a : string) : EmptyString +:+ a = a.
Proof. reflexivity. Qed.

Lemma string_app_assoc (a b c : string) : (a +:+ b) +:+ c = a +:+ (b +:+ c).
Proof.
  induction a as [|x a IH]; [done|]. by rewrite !string_app_cons, IH.
Qed.

Lemma string_app_nil_r (a : string) : a +:+ EmptyString = a.
Proof.
  induction a as [|x a IH]; [done|]. by rewrite string_app_cons, IH.
Qed.

Lemma rev_app_spec (s acc : string) :
  String.rev_app s acc = String.rev s +:+ acc.
Proof.
  unfold String.rev. revert acc. induction s as [|x s IH]; intros acc; [done|].
  cbn [String.rev_app].
  rewrite (IH (String x acc)), (IH (String x EmptyString)).
  by rewrite string_app_assoc.
Qed.

Lemma rev_cons (x : ascii) (s : string) :
  String.rev (String x s) = String.rev s +:+ String x EmptyString.
Proof. unfold String.rev at 1. cbn [String.rev_app]. apply rev_app_spec. Qed.

Lemma rev_app_distr (a b : string) :
  String.rev (a +:+ b) = String.rev b +:+ String.rev a.
Proof.
  induction a as [|x a IH].
  - by rewrite string_app_nil_l, string_app_nil_r.
  - by rewrite string_app_cons, !rev_cons, IH, string_app_assoc.
Qed.

Lemma rev_involutive (s : string) : String.rev (String.rev s) = s.
Proof.
  induction s as [|x s IH]; [done|].
  by rewrite rev_cons, rev_app_distr, IH.
Qed.

Lemma startswith_app (p s : string) : startswith p (p +:+ s) = true.
Proof.
  unfold startswith. induction p as [|x p IH]; [by destruct s|].
  rewrite string_app_cons. cbn [String.prefix].
  by destruct (ascii_dec x x).
Qed.

Lemma endswith_app (s suffix : string) : endswith suffix (s +:+ suffix) = true.
Proof. unfold endswith. rewrite rev_app_distr. apply startswith_app. Qed.

(** What the stripping loop returns begins with no character that the loop
    drops, and is the end of the text it was given. *)
Lemma lstrip_with_stops p1 p2 p3 (s : string) :
  starts_with p1 p2 p3 (lstrip_with p1 p2 p3 s) = false
  /\ exists dropped, s = dropped +:+ lstrip_with p1 p2 p3 s.
Proof.
  remember (String.length s) as n eqn:Hn. revert s Hn.
  induction n as [n IH] using lt_wf_ind. intros s ->.
  destruct s as [|a s1]; [split; [reflexivity|by exists EmptyString]|].
  cbn [lstrip_with]. destruct (p1 a) eqn:H1.
  { destruct (IH (String.length s1)) with (s := s1) as [Hs (d & Hd)];
      [simpl; lia|reflexivity|].
    split; [exact Hs|]. exists (String a d). by rewrite string_app_cons, <- Hd. }
  destruct s1 as [|b s2].
  { split; [cbn [starts_with]; by rewrite H1|by exists EmptyString]. }
  destruct (p2 a b) eqn:H2.
  { destruct (IH (String.length s2)) with (s := s2) as [Hs (d & Hd)];
      [simpl; lia|reflexivity|].
    split; [exact Hs|]. exists (String a (String b d)).
    by rewrite !string_app_cons, <- Hd. }
  destruct s2 as [|c s3].
  { split; [cbn [starts_with]; by rewrite H1, H2|by exists EmptyString]. }
  destruct (p3 a b c) eqn:H3.
  { destruct (IH (String.length s3)) with (s := s3) as [Hs (d & Hd)];
      [simpl; lia|reflexivity|].
    split; [exact Hs|]. exists (String a (String b (String c d))).
    by rewrite !string_app_cons, <- Hd. }
  split; [cbn [starts_with]; by rewrite H1, H2, H3|by exists EmptyString].
Qed.

(** A text that begins with no such character is left as it is. *)
Lemma lstrip_with_stays p1 p2 p3 (s : string) :
  starts_with p1 p2 p3 s = false -> lstrip_with p1 p2 p3 s = s.
Proof.
  destruct s as [|a [|b [|c s3]]]; cbn [starts_with lstrip_with];
    repeat match goal with
           | |- context [p1 ?x] => destruct (p1 x)
           | |- context [p2 ?x ?y] => destruct (p2 x y)
           | |- context [p3 ?x ?y ?z] => destruct (p3 x y z)
           end; cbn [orb]; done.
Qed.

Lemma lstrip_with_idemp p1 p2 p3 (s : string) :
  lstrip_with p1 p2 p3 (lstrip_with p1 p2 p3 s) = lstrip_with p1 p2 p3 s.
Proof. apply lstrip_with_stays, lstrip_with_stops. Qed.

(** A text begins with such a character when one of its beginnings does. *)
Lemma starts_with_app p1 p2 p3 (u v : string) :
  starts_with p1 p2 p3 u = true -> starts_with p1 p2 p3 (u +:+ v) = true.
Proof.
  destruct u as [|a [|b [|c u3]]]; rewrite ?string_app_cons; cbn [starts_with];
    [done|..].
  - rewrite orb_false_r. by intros ->.
  - rewrite orb_false_r. intros [-> | ->]%orb_prop; [done|].
    cbn [orb]. by rewrite orb_true_r.
  - done.
Qed.

(** Stripping at the end leaves a beginning of the text. *)
Lemma rstrip_prefix (s : string) : exists dropped, s = rstrip s +:+ dropped.
Proof.
  unfold rstrip.
  destruct (lstrip_with_stops is_space (fun b a => is_space2 a b)
              (fun c b a => is_space3 a b c) (String.rev s)) as [_ (d & Hd)].
  exists (String.rev d). rewrite <- rev_app_distr, <- Hd. by rewrite rev_involutive.
Qed.

Lemma rstrip_idemp (s : string) : rstrip (rstrip s) = rstrip s.
Proof. unfold rstrip. by rewrite rev_involutive, lstrip_with_idemp. Qed.

(** [strip] twice is [strip] once. *)
Lemma strip_idemp (s : string) : strip (strip s) = strip s.
Proof.
  unfold strip.
  assert (lstrip (rstrip (lstrip s)) = rstrip (lstrip s)) as ->; [|apply rstrip_idemp].
  apply lstrip_with_stays.
  destruct (starts_with is_space is_space2 is_space3 (rstrip (lstrip s))) eqn:E;
    [|reflexivity].
  destruct (rstrip_prefix (lstrip s)) as (d & Hd).
  apply (starts_with_app _ _ _ _ d) in E. rewrite <- Hd in E.
  unfold lstrip in E at 1.
  by rewrite (proj1 (lstrip_with_stops _ _ _ s)) in E.
Qed.

End Strings.

(** ** The built-in encoders *)

Lemma output_name_has_extension_aux (P : Platform) (output_file : option string)
    (extensions : list string) (extension : string) :
  extension ∈ extensions ->
  PyStr.endswith_any extensions (output_name P output_file extensions extension) = true.
Proof.
  intros Hin.
  assert (forall s, PyStr.endswith_any extensions (s +:+ extension) = true) as Happ.
  { intros s. unfold PyStr.endswith_any. apply existsb_exists.
    exists extension. split; [by apply list_elem_of_In|apply endswith_app]. }
  unfold output_name. destruct output_file as [[|c f]|];
    [rewrite <- string_app_assoc; apply Happ| |rewrite <- string_app_assoc; apply Happ].
  destruct (PyStr.endswith_any extensions (String c f)) eqn:E; [exact E|apply Happ].
Qed.

Section EncoderRuns.

Variable P : Platform.

Lemma print_bookmarks_lines (i : nat) (bookmarks : list Bookmark) (st : State) :
  print_bookmarks i bookmarks st
  = (Return tt, with_printed st (flat_map stdout_entry (enumerate i bookmarks))).
Proof.
  revert i st. induction bookmarks as [|b bs IH]; intros i st.
  - simpl. unfold with_printed. rewrite app_nil_r. by destruct st.
  - cbn [print_bookmarks]. unfold mbind, M_bind, print. cbn [enumerate flat_map].
    rewrite IH. unfold with_printed, stdout_entry. simpl.
    by rewrite <- !app_assoc.
Qed.

Lemma write_file_ok (path : string) (a : Artifact) (st : State) :
  write_failure P path = None ->
  write_file P path a st = (Return tt, with_written st path a).
Proof. intros H. unfold write_file. by rewrite H. Qed.

Lemma write_file_fails (path : string) (a : Artifact) (st : State) (e : Exception) :
  write_failure P path = Some e ->
  write_file P path a st = (Raise e, st).
Proof. intros H. unfold write_file. by rewrite H. Qed.

End EncoderRuns.

(** The three cases of the choice of the name *)
Lemma output_name_cases (P : Platform) (output_file : option string)
    (extensions : list string) (extension : string) :
  (forall given, output_file = Some given -> given <> EmptyString ->
     output_name P output_file extensions extension
     = if PyStr.endswith_any extensions given then given else given +:+ extension)
  /\ (output_file = None \/ output_file = Some EmptyString ->
      output_name P output_file extensions extension
      = "bookmarks_" +:+ now_stamp P +:+ extension).
Proof.
  split.
  - intros given -> Hne. by destruct given.
  - by intros [-> | ->].
Qed.

(** X6: each of the four encoders that write a file, on a disk that accepts
    every write, adds one file, and the name of that file always ends with
    one of the extensions of the encoder: a given name that has one is kept
    as it is, a given name that has none gets the extension of the encoder
    appended, and a missing or empty name gives the time-stamped default
    with that extension. *)
Theorem file_encoders_output_name (P : Platform) (encoder : Encoder)
    (extensions : list string) (extension : string) (bookmarks : list Bookmark)
    (output_file : option string) (st : State) :
  (encoder, extensions, extension) ∈ file_encoders P ->
  (forall path, write_failure P path = None) ->
  exists name artifact,
    written (snd (encoder bookmarks output_file st)) = written st ++ [(name, artifact)]
    /\ PyStr.endswith_any extensions name = true
    /\ (forall given, output_file = Some given -> given <> EmptyString ->
          name = if PyStr.endswith_any extensions given then given
                 else given +:+ extension)
    /\ (output_file = None \/ output_file = Some EmptyString ->
        name = "bookmarks_" +:+ now_stamp P +:+ extension).
Proof.
  intros Hin Hw.
  exists (output_name P output_file extensions extension).
  assert (extension ∈ extensions) as Hext.
  { unfold file_encoders in Hin.
    repeat (apply elem_of_cons in Hin as [[= _ -> ->]|Hin]);
      [apply list_elem_of_here..|by apply elem_of_nil in Hin]. }
  destruct (output_name_cases P output_file extensions extension) as [Hgiven Hdefault].
  pose proof (output_name_has_extension_aux P output_file extensions extension Hext) as He.
  unfold file_encoders in Hin.
  repeat (apply elem_of_cons in Hin as [[= -> -> ->]|Hin]);
    [| | | |by apply elem_of_nil in Hin].
  - eexists. split; [|done].
    unfold _encode_excel, mbind, M_bind. by rewrite write_file_ok.
  - eexists. split; [|done].
    unfold _encode_csv, mbind, M_bind. by rewrite write_file_ok.
  - eexists. split; [|done].
    unfold _encode_json, mbind, M_bind. by rewrite write_file_ok.
  - unfold _encode_flare. destruct (flare_data bookmarks) as [categories links].
    eexists. split; [|done].
    unfold try_except, mbind, M_bind. rewrite write_file_ok by done. reflexivity.
Qed.

Lemma file_encoders_output_name_witness :
  map fst (written (snd (_encode_flare Samples.platform [] (Some "links.txt")
                           initial_state))) = ["links.txt.yml"]
  /\ map fst (written (snd (_encode_flare Samples.platform [] (Some "links.yaml")
                              initial_state))) = ["links.yaml"]
  /\ map fst (written (snd (_encode_json Samples.platform [] None initial_state)))
     = ["bookmarks_19700101_000000.json"].
Proof.
  split_and!.
  - destruct (file_encoders_output_name Samples.platform (_encode_flare Samples.platform)
                [".yml"; ".yaml"] ".yml" [] (Some "links.txt") initial_state)
      as (name & artifact & Hw & _ & Hg & _).
    + do 3 apply list_elem_of_further. apply list_elem_of_here.
    + reflexivity.
    + rewrite Hw, (Hg "links.txt"); [reflexivity|reflexivity|discriminate].
  - destruct (file_encoders_output_name Samples.platform (_encode_flare Samples.platform)
                [".yml"; ".yaml"] ".yml" [] (Some "links.yaml") initial_state)
      as (name & artifact & Hw & _ & Hg & _).
    + do 3 apply list_elem_of_further. apply list_elem_of_here.
    + reflexivity.
    + rewrite Hw, (Hg "links.yaml"); [reflexivity|reflexivity|discriminate].
  - destruct (file_encoders_output_name Samples.platform (_encode_json Samples.platform)
                [".json"] ".json" [] None initial_state)
      as (name & artifact & Hw & _ & _ & Hd).
    + do 2 apply list_elem_of_further. apply list_elem_of_here.
    + reflexivity.
    + rewrite Hw, Hd; [reflexivity|by left].
Defined.

(** X7: [_encode_stdout] never raises and returns [None]; it ignores the
    output file, writes and logs nothing, and prints five lines for each
    record, numbered from 1 in the order of the list, then the total. *)
Theorem encode_stdout_prints (bookmarks : list Bookmark) (output_file : option string)
    (st : State) :
  _encode_stdout bookmarks output_file st
  = (Return PyNone,
     with_printed st (flat_map stdout_entry (enumerate 1 bookmarks)
                      ++ [stdout_total bookmarks]))
  /\ length (flat_map stdout_entry (enumerate 1 bookmarks) ++ [stdout_total bookmarks])
     = 5 * length bookmarks + 1.
Proof.
  split.
  - unfold _encode_stdout. unfold mbind, M_bind. rewrite print_bookmarks_lines.
    unfold print, with_printed, stdout_total, mret, M_ret. simpl.
    by rewrite <- app_assoc.
  - rewrite length_app. simpl.
    generalize 1. induction bookmarks as [|b bs IH]; intros i; simpl; [done|].
    specialize (IH (S i)). lia.
Qed.

(** X8: with a disk that accepts every write, each of the three formats
    that produce a table or a document ([excel], [csv], [json]) returns the
    name of the file it wrote; that name ends with the extension of the
    format, exactly one file is added to the disk, and nothing is printed,
    logged or changed in the decoder. *)
Theorem file_encoders_write_one_file (P : Platform) (output_format extension : string)
    (bookmarks : list Bookmark) (output_file : option string) (st : State) :
  (output_format, extension) ∈ [("excel", ".xlsx"); ("csv", ".csv"); ("json", ".json")] ->
  (forall path, write_failure P path = None) ->
  exists name artifact,
    encode (builtin_formats P) bookmarks output_format output_file st
    = (Return (PyStr_ name), with_written st name artifact)
    /\ PyStr.endswith extension name = true.
Proof.
  intros Hin Hw.
  assert (forall ext, PyStr.endswith ext (output_name P output_file [ext] ext) = true) as He.
  { intros ext.
    pose proof (output_name_has_extension_aux P output_file [ext] ext) as H.
    unfold PyStr.endswith_any in H. cbn [existsb] in H.
    rewrite orb_false_r in H. apply H, list_elem_of_here. }
  repeat (apply elem_of_cons in Hin as [[= -> ->]|Hin]);
    [| | |by apply elem_of_nil in Hin].
  - eexists _, _. split; [|apply He].
    change (encode (builtin_formats P) bookmarks "excel" output_file st)
      with (_encode_excel P bookmarks output_file st).
    unfold _encode_excel, mbind, M_bind. by rewrite write_file_ok.
  - eexists _, _. split; [|apply He].
    change (encode (builtin_formats P) bookmarks "csv" output_file st)
      with (_encode_csv P bookmarks output_file st).
    unfold _encode_csv, mbind, M_bind. by rewrite write_file_ok.
  - eexists _, _. split; [|apply He].
    change (encode (builtin_formats P) bookmarks "json" output_file st)
      with (_encode_json P bookmarks output_file st).
    unfold _encode_json, mbind, M_bind. by rewrite write_file_ok.
Qed.

Lemma file_encoders_write_one_file_witness :
  exists name artifact,
    encode (builtin_formats Samples.platform) [] "csv" (Some "out") initial_state
    = (Return (PyStr_ name), with_written initial_state name artifact)
    /\ PyStr.endswith ".csv" name = true.
Proof.
  apply (file_encoders_write_one_file Samples.platform "csv" ".csv" [] (Some "out")
           initial_state).
  - apply list_elem_of_further, list_elem_of_here.
  - reflexivity.
Defined.

Section Tables.

Implicit Types (bookmarks : list Bookmark).

Lemma rename_bookmark_keys :
  map (fun c => from_option id c (column_mapping !! c)) bookmark_keys = excel_headers.
Proof. vm_compute. reflexivity. Qed.

End Tables.

(** X9: on a disk that accepts every write, the table [_encode_csv] writes
    and the first sheet [_encode_excel] writes have one row per record, in
    the order of the records, with the nine values of the record.  Without
    records they have no column at all (no header line is written); with
    records the columns of the [csv] table are the nine keys of a record and
    those of the sheet their nine translations, so that every row has as
    many cells as there are columns. *)
Theorem csv_and_excel_tables (P : Platform) (bookmarks : list Bookmark)
    (output_file : option string) (st : State) :
  (forall path, write_failure P path = None) ->
  let header := fun keys : list string => if bookmarks is [] then [] else keys in
  let csv_name := output_name P output_file [".csv"] ".csv" in
  let xlsx_name := output_name P output_file [".xlsx"] ".xlsx" in
  _encode_csv P bookmarks output_file st
  = (Return (PyStr_ csv_name),
     with_written st csv_name
       (Csv (mkTable (header bookmark_keys) (map bookmark_values bookmarks))))
  /\ (exists summary,
        _encode_excel P bookmarks output_file st
        = (Return (PyStr_ xlsx_name),
           with_written st xlsx_name
             (Workbook
                [("书签列表",
                  mkTable (header excel_headers) (map bookmark_values bookmarks));
                 ("统计信息", summary)])))
  /\ Forall (fun row => length row = length bookmark_keys
                        /\ length row = length excel_headers)
            (map bookmark_values bookmarks).
Proof.
  intros Hw. cbn zeta. split_and!.
  - unfold _encode_csv, mbind, M_bind. rewrite write_file_ok by done.
    by destruct bookmarks.
  - eexists. unfold _encode_excel, mbind, M_bind. rewrite write_file_ok by done.
    destruct bookmarks; [reflexivity|].
    unfold rename, DataFrame. cbn [columns rows]. by rewrite rename_bookmark_keys.
  - apply Forall_forall. intros row Hrow.
    apply list_elem_of_In, in_map_iff in Hrow as (b' & <- & _). by split.
Qed.

Lemma csv_and_excel_tables_witness :
  written (snd (_encode_csv Samples.platform [Cases.with_image] (Some "out") initial_state))
  = [("out.csv", Csv (mkTable bookmark_keys [bookmark_values Cases.with_image]))]
  /\ written (snd (_encode_csv Samples.platform [] (Some "out") initial_state))
     = [("out.csv", Csv (mkTable [] []))].
Proof.
  destruct (csv_and_excel_tables Samples.platform [Cases.with_image] (Some "out")
              initial_state) as (H1 & _); [reflexivity|].
  destruct (csv_and_excel_tables Samples.platform [] (Some "out") initial_state)
    as (H2 & _); [reflexivity|].
  split; [by rewrite H1|by rewrite H2].
Defined.

(** X10: when every write fails with the exception [e], the [excel], [csv]
    and [json] encoders raise [e] and leave the state as it was; the [flare]
    encoder raises [e] too, after printing one line that reports the error;
    the [stdout] encoder is not affected. *)
Theorem encoders_on_write_failure (P : Platform) (e : Exception)
    (bookmarks : list Bookmark) (output_file : option string) (st : State) :
  (forall path, write_failure P path = Some e) ->
  _encode_excel P bookmarks output_file st = (Raise e, st)
  /\ _encode_csv P bookmarks output_file st = (Raise e, st)
  /\ _encode_json P bookmarks output_file st = (Raise e, st)
  /\ _encode_flare P bookmarks output_file st
     = (Raise e, with_printed st ["❌ 保存文件时出错: " +:+ exc_message e])
  /\ fst (_encode_stdout bookmarks output_file st) = Return PyNone.
Proof.
  intros Hw. split_and!.
  - unfold _encode_excel, mbind, M_bind. by rewrite (write_file_fails P _ _ _ e).
  - unfold _encode_csv, mbind, M_bind. by rewrite (write_file_fails P _ _ _ e).
  - unfold _encode_json, mbind, M_bind. by rewrite (write_file_fails P _ _ _ e).
  - unfold _encode_flare. destruct (flare_data bookmarks) as [categories links].
    unfold try_except, mbind, M_bind. by rewrite (write_file_fails P _ _ _ e).
  - unfold _encode_stdout, mbind, M_bind. by rewrite print_bookmarks_lines.
Qed.

Lemma encoders_on_write_failure_witness :
  _encode_json Cases.full_disk [] None initial_state = (Raise Cases.disk_full, initial_state)
  /\ printed (snd (_encode_flare Cases.full_disk [] None initial_state))
     = ["❌ 保存文件时出错: No space left on device"].
Proof.
  destruct (encoders_on_write_failure Cases.full_disk Cases.disk_full [] None initial_state)
    as (_ & _ & Hj & Hf & _); [reflexivity|].
  split; [exact Hj|]. by rewrite Hf.
Defined.

(** ** The category/link encoder on every record list *)

Section FlareData.

Implicit Types (folders : list string) (bookmarks : list Bookmark).

Lemma enumerate_fst {A} (start : nat) (xs : list A) :
  map fst (enumerate start xs) = seq start (length xs).
Proof.
  revert start. induction xs as [|x xs IH]; intros start; simpl; [done|].
  by rewrite IH.
Qed.

(** The pair numbered [i] sits at position [i - start]. *)
Lemma enumerate_position {A B} (g : nat * A -> B) (start i : nat) (x : A) (xs : list A) :
  (i, x) ∈ enumerate start xs ->
  start <= i /\ map g (enumerate start xs) !! (i - start) = Some (g (i, x)).
Proof.
  revert start. induction xs as [|y xs IH]; intros start Hin; simpl in Hin.
  - by apply elem_of_nil in Hin.
  - apply elem_of_cons in Hin as [[= -> ->]|Hin].
    + split; [lia|]. by rewrite Nat.sub_diag.
    + destruct (IH (S start) Hin) as [Hle Hl]. split; [lia|].
      replace (i - start) with (S (i - S start)) by lia. exact Hl.
Qed.

Lemma flare_categories_ids folders :
  map cat_id (flare_categories folders) = seq 1 (length folders).
Proof.
  unfold flare_categories. rewrite map_map. cbn [cat_id]. apply enumerate_fst.
Qed.

(** The entry of a folder in [folder_to_id] is the number of the category
    that has the folder as title. *)
Lemma folder_to_id_category bookmarks (f : string) (i : nat) :
  flare_folder_to_id (flare_folders bookmarks) !! f = Some i ->
  f ∈ flare_folders bookmarks ->
  1 <= i /\ fst (flare_data bookmarks) !! (i - 1) = Some (mkCategory i f).
Proof.
  intros Hi Hin.
  destruct (folder_to_id_enumerated (flare_folders bookmarks) 1 ∅ f
              (flare_folders_NoDup bookmarks) Hin) as (i' & Hi' & He).
  unfold flare_folder_to_id in Hi. rewrite Hi in Hi'. injection Hi' as <-.
  apply (enumerate_position (fun p => mkCategory (fst p) (snd p))) in He.
  exact He.
Qed.

End FlareData.

(** X11: for every record list, the categories are numbered 1, 2, ... in
    the order they are listed; their titles are in ascending order without
    repetition and are exactly the non-empty folders of the records; there
    are never more categories than records. *)
Theorem flare_categories_numbered (bookmarks : list Bookmark) :
  let categories := fst (flare_data bookmarks) in
  map cat_id categories = seq 1 (length categories)
  /\ Sorted String.le (map cat_title categories)
  /\ NoDup (map cat_title categories)
  /\ (forall f, f ∈ map cat_title categories
                <-> f <> EmptyString /\ exists b, b ∈ bookmarks /\ folder b = f)
  /\ length categories <= length bookmarks.
Proof.
  cbn zeta. unfold flare_data. cbn [fst].
  rewrite flare_categories_ids, flare_categories_titles, length_flare_categories.
  split_and!.
  - reflexivity.
  - apply flare_folders_sorted.
  - apply flare_folders_NoDup.
  - apply elem_of_flare_folders.
  - rewrite <- (length_map folder bookmarks).
    apply submseteq_length, NoDup_submseteq; [apply flare_folders_NoDup|].
    intros f (_ & b & Hb & <-)%elem_of_flare_folders.
    apply list_elem_of_In, in_map. by apply list_elem_of_In.
Qed.

(** X12: for every record list there is one link per record, in the order
    of the records, with the title and the URL of its record.  A link has an
    icon only when the icon of the record is not empty and is not an
    embedded image, and then it is that icon.  A link has a category exactly
    when the folder of its record is not empty, and the number it carries is
    the position (from 1) of the category whose title is that folder. *)
Theorem flare_links_follow_records (bookmarks : list Bookmark) :
  let categories := fst (flare_data bookmarks) in
  let links := snd (flare_data bookmarks) in
  map link_name links = map title bookmarks
  /\ map link_link links = map url bookmarks
  /\ Forall2
       (fun b l =>
          match link_icon l with
          | Some i => i = icon b /\ i <> EmptyString
                      /\ PyStr.startswith "data:image/" i = false
          | None => icon b = EmptyString
                    \/ PyStr.startswith "data:image/" (icon b) = true
          end
          /\ match link_category l with
             | Some i => folder b <> EmptyString /\ 1 <= i
                         /\ categories !! (i - 1) = Some (mkCategory i (folder b))
             | None => folder b = EmptyString
             end)
       bookmarks links.
Proof.
  cbn zeta.
  assert (snd (flare_data bookmarks)
          = map (flare_link (flare_folder_to_id (flare_folders bookmarks))) bookmarks)
    as -> by reflexivity.
  split_and!.
  - rewrite map_map. reflexivity.
  - rewrite map_map. reflexivity.
  - apply Forall2_fmap_r, Forall_Forall2_diag, Forall_forall.
    intros b Hb. unfold flare_link. cbn [link_icon link_category]. split.
    + destruct (icon b) as [|c s] eqn:Ei; [by left|]. cbn [PyStr.truthy andb].
      destruct (PyStr.startswith "data:image/" (String c s)) eqn:Es; cbn [negb];
        [by right|done].
    + destruct (folder b) as [|c s] eqn:Ef; [done|]. cbn [PyStr.truthy].
      assert (folder b ∈ flare_folders bookmarks) as Hin.
      { apply elem_of_flare_folders. split; [by rewrite Ef|eauto]. }
      rewrite Ef in Hin.
      destruct (flare_folder_to_id (flare_folders bookmarks) !! String c s) as [i|] eqn:Hi.
      * split; [done|]. by apply folder_to_id_category.
      * destruct (folder_to_id_enumerated (flare_folders bookmarks) 1 ∅ (String c s)
                    (flare_folders_NoDup bookmarks) Hin) as (i' & Hi' & _).
        unfold flare_folder_to_id in Hi. congruence.
Qed.

Example flare_links_sample :
  snd (flare_data [Cases.with_image; Cases.without_folder])
  = [mkLink "a" "http://a.example/" None (Some 1);
     mkLink "b" "http://b.example/" (Some "http://b.example/favicon.ico") None].
Proof. vm_compute. reflexivity. Qed.

(** X13: on a disk that accepts the write, [_encode_flare] writes one file
    whose name ends in [.yml] or [.yaml], holding the categories and the
    links, prints three lines that report the numbers of records, categories
    and links, and returns [None]. *)
Theorem encode_flare_writes (P : Platform) (bookmarks : list Bookmark)
    (output_file : option string) (st : State) :
  (forall path, write_failure P path = None) ->
  exists name,
    PyStr.endswith_any [".yml"; ".yaml"] name = true
    /\ _encode_flare P bookmarks output_file st
       = (Return PyNone,
          with_printed
            (with_written st name
               (Yaml (fst (flare_data bookmarks)) (snd (flare_data bookmarks))))
            ["✅ 成功导出 " +:+ PyStr.of_nat (length bookmarks) +:+ " 个书签到: " +:+ name;
             "📁 分类数量: " +:+ PyStr.of_nat (length (fst (flare_data bookmarks)));
             "🔗 链接数量: " +:+ PyStr.of_nat (length bookmarks)]).
Proof.
  intros Hw. exists (output_name P output_file [".yml"; ".yaml"] ".yml"). split.
  - apply output_name_has_extension_aux, list_elem_of_here.
  - unfold _encode_flare.
    assert (length (snd (flare_data bookmarks)) = length bookmarks) as Hl
      by (unfold flare_data; cbn [snd]; apply length_map).
    destruct (flare_data bookmarks) as [categories links]. cbn [fst snd] in *.
    unfold try_except, mbind, M_bind. rewrite write_file_ok by done.
    unfold print, with_printed, with_written, mret, M_ret. simpl.
    rewrite Hl. by rewrite <- !app_assoc.
Qed.

Lemma encode_flare_writes_witness :
  exists name,
    PyStr.endswith_any [".yml"; ".yaml"] name = true
    /\ fst (_encode_flare Samples.platform [Cases.with_image] (Some "links.yaml")
              initial_state) = Return PyNone
    /\ map fst (written (snd (_encode_flare Samples.platform [Cases.with_image]
                                (Some "links.yaml") initial_state))) = [name].
Proof.
  destruct (encode_flare_writes Samples.platform [Cases.with_image] (Some "links.yaml")
              initial_state) as (name & He & Hr); [reflexivity|].
  exists name. rewrite Hr. split_and!; [exact He|reflexivity|reflexivity].
Defined.

(** ** The records of the decoder *)

Section Records.

Variable P : Platform.

Lemma get_bookmark_type_name (url : string) : _get_bookmark_type url ∈ Spec.type_names.
Proof.
  unfold _get_bookmark_type, Spec.type_names.
  repeat match goal with
         | |- context [if ?b then _ else _] => destruct b
         end;
    repeat first [apply list_elem_of_here|apply list_elem_of_further].
Qed.

Lemma clean_folder_path_stripped (path : string) :
  PyStr.strip (_clean_folder_path path) = _clean_folder_path path.
Proof.
  unfold _clean_folder_path. destruct (negb (PyStr.truthy path)); [reflexivity|].
  apply strip_idemp.
Qed.

Lemma parse_bookmark_record a f st b st' :
  _parse_bookmark P a f st = (Return (Some b), st') -> record_ok b.
Proof.
  unfold _parse_bookmark, try_except, mbind, M_bind, lift, mret, M_ret, log.
  destruct (_convert_timestamp P (Soup.get_default "add_date" _ a)); simpl;
    [|intros [=]].
  destruct (_convert_timestamp P (Soup.get_default "last_modified" _ a)); simpl;
    [|intros [=]].
  intros [= <- _]. unfold record_ok. cbn. split_and!.
  - by destruct (Soup.get_text_strip a).
  - apply strip_idemp.
  - apply clean_folder_path_stripped.
  - reflexivity.
  - reflexivity.
  - apply get_bookmark_type_name.
  - unfold Soup.get_default. by destruct (Soup.get "icon" a).
Qed.

(** What holds of the records the loop was given and of every record a
    link yields holds of the records the loop returns. *)
Lemma parse_links_Forall (Q : Bookmark -> Prop) links acc st bs :
  (forall a f st b st', _parse_bookmark P a f st = (Return (Some b), st') -> Q b) ->
  Forall Q acc ->
  fst (parse_links P links acc st) = Return bs ->
  Forall Q bs.
Proof.
  intros HQ. revert acc st. induction links as [|link rest IH]; intros acc st Hacc.
  - simpl. by intros [= <-].
  - rewrite parse_links_cons.
    destruct (_parse_bookmark P (Soup.node link) (folder_of link) st)
      as [[[b|]|e] st1] eqn:E.
    + apply IH. apply Forall_app. split; [done|]. constructor; [|done]. by eapply HQ.
    + by apply IH.
    + by intros [=].
Qed.

Lemma decode_Forall (Q : Bookmark -> Prop) html st bs :
  (forall a f st b st', _parse_bookmark P a f st = (Return (Some b), st') -> Q b) ->
  fst (decode P html st) = Return bs ->
  Forall Q bs.
Proof.
  intros HQ. unfold decode, try_except, mbind, M_bind, lift.
  destruct (html_parser P html) as [soup|e]; [|by intros [=]].
  cbv beta iota.
  destruct (Soup.find "dl" (Soup.top_element soup)) as [root|].
  - unfold _parse_folder.
    destruct (parse_links P (Soup.find_all "a" root) [] st) as [[bs'|e] st1] eqn:E;
      [|by intros [=]].
    intros [= <-]. eapply (parse_links_Forall Q); [exact HQ|constructor|].
    by rewrite E.
  - simpl. by intros [= <-].
Qed.

(** A link yields its record and changes nothing, or yields nothing and
    logs one warning. *)
Lemma parse_bookmark_cases a f st :
  (exists b, _parse_bookmark P a f st = (Return (Some b), st))
  \/ (exists msg, _parse_bookmark P a f st
                  = (Return None, with_logged st [(WARNING, msg)])).
Proof.
  unfold _parse_bookmark, try_except, mbind, M_bind, lift, mret, M_ret, log.
  destruct (_convert_timestamp P (Soup.get_default "add_date" _ a)); simpl;
    [|right; by eexists].
  destruct (_convert_timestamp P (Soup.get_default "last_modified" _ a)); simpl;
    [left|right]; by eexists.
Qed.

Lemma parse_links_accounts links acc st :
  exists bs warnings,
    fst (parse_links P links acc st) = Return (acc ++ bs)
    /\ logged (snd (parse_links P links acc st)) = logged st ++ warnings
    /\ Forall (fun r => fst r = WARNING) warnings
    /\ length bs + length warnings = length links.
Proof.
  revert acc st. induction links as [|link rest IH]; intros acc st.
  - exists [], []. simpl. by rewrite !app_nil_r.
  - rewrite parse_links_cons.
    destruct (parse_bookmark_cases (Soup.node link) (folder_of link) st)
      as [(b & ->)|(msg & ->)].
    + match goal with
      | |- context [parse_links P rest ?acc' ?st'] =>
          destruct (IH acc' st') as (bs & ws & Hr & Hl & Hw & Hn)
      end.
      exists (b :: bs), ws. rewrite Hr, Hl. split_and!; [|done|done|simpl; lia].
      by rewrite <- app_assoc.
    + destruct (IH acc (with_logged st [(WARNING, msg)])) as (bs & ws & Hr & Hl & Hw & Hn).
      exists bs, ((WARNING, msg) :: ws). rewrite Hr, Hl.
      split_and!; [done| |by constructor|simpl; lia].
      simpl. by rewrite <- app_assoc.
Qed.

End Records.

(** X14: every record [decode] returns has a title that is not empty, a
    URL and a folder without white space at either end, the domain and the
    type computed from its URL, a type among the six names, and [has_icon]
    true exactly when its icon is not empty. *)
Theorem decode_records_ok (P : Platform) (html_content : string) (st : State)
    (bookmarks : list Bookmark) :
  fst (decode P html_content st) = Return bookmarks ->
  Forall record_ok bookmarks.
Proof. apply decode_Forall. apply parse_bookmark_record. Qed.

Lemma decode_records_ok_witness :
  exists bookmarks,
    fst (decode Samples.platform Samples.nested_html initial_state) = Return bookmarks
    /\ length bookmarks = 1
    /\ Forall record_ok bookmarks.
Proof.
  eexists. split; [vm_compute; reflexivity|]. split; [reflexivity|].
  apply (decode_records_ok Samples.platform Samples.nested_html initial_state).
  vm_compute. reflexivity.
Defined.

(** X15: [_parse_folder] never raises, and it accounts for every anchor
    below the root: each one either adds a record to the result or a
    warning to the log, and nothing else is logged. *)
Theorem parse_folder_accounts_for_anchors (P : Platform) (root : Soup.Element)
    (st : State) :
  exists bookmarks warnings,
    fst (_parse_folder P root st) = Return bookmarks
    /\ logged (snd (_parse_folder P root st)) = logged st ++ warnings
    /\ Forall (fun r => fst r = WARNING) warnings
    /\ length bookmarks + length warnings = length (Soup.find_all "a" root).
Proof.
  unfold _parse_folder.
  destruct (parse_links_accounts P (Soup.find_all "a" root) [] st)
    as (bs & ws & Hr & Hl & Hw & Hn).
  by exists bs, ws.
Qed.

(** ** Reading the file *)

#[global] Instance same_files_preorder : PreOrder same_files.
Proof.
  split; [by intros st|]. intros st1 st2 st3. unfold same_files. congruence.
Qed.

Section Reading.

Variable P : Platform.

Lemma log_same_files lvl msg : preserves same_files (log lvl msg).
Proof. by intros st. Qed.

Lemma parse_bookmark_same_files a f : preserves same_files (_parse_bookmark P a f).
Proof.
  unfold _parse_bookmark.
  repeat first [apply log_same_files | preserves_step].
Qed.

Lemma parse_links_same_files links acc : preserves same_files (parse_links P links acc).
Proof.
  revert acc. induction links as [|link rest IH]; intros acc; simpl.
  - preserves_step.
  - preserves_step; [apply parse_bookmark_same_files|].
    destruct a as [b|]; [|apply IH].
    intros st. unfold mbind, M_bind, get_decoder, set_decoder. simpl.
    etrans; [|apply IH]. reflexivity.
Qed.

Lemma decode_same_files html : preserves same_files (decode P html).
Proof.
  unfold decode. preserves_step; [|preserves_step; [apply log_same_files|preserves_step]].
  preserves_step; [preserves_step|].
  destruct (Soup.find _ _); [apply parse_links_same_files|].
  preserves_step; [apply log_same_files|preserves_step].
Qed.

(** The loop over the encodings only logs. *)
Lemma read_with_logs encs path st :
  exists records, snd (read_with P encs path st) = with_logged st records.
Proof.
  induction encs as [|enc rest IH]; simpl.
  - exists []. unfold with_logged. rewrite app_nil_r. by destruct st.
  - destruct (read_text P path enc) as [content|e].
    + by eexists.
    + destruct (issubclass _ _); [exact IH|].
      exists []. unfold with_logged, raise. simpl. rewrite app_nil_r. by destruct st.
Qed.

(** The loop returns the text read with the first encoding that is not
    refused with [UnicodeDecodeError], and logs that encoding. *)
Lemma read_with_first encs path st pre enc post content :
  encs = pre ++ enc :: post ->
  Forall (undecodable P path) pre ->
  read_text P path enc = Return content ->
  read_with P encs path st
  = (Return (Some content), with_logged st [(INFO, "使用编码: " +:+ enc)]).
Proof.
  intros -> Hpre Hr. induction Hpre as [|e0 pre (e & He & Hs) _ IH]; simpl.
  - by rewrite Hr.
  - by rewrite He, Hs.
Qed.

(** An exception other than [UnicodeDecodeError] leaves the loop, with
    nothing logged. *)
Lemma read_with_raises encs path st pre enc post e :
  encs = pre ++ enc :: post ->
  Forall (undecodable P path) pre ->
  read_text P path enc = Raise e ->
  issubclass (exc_class e) UnicodeDecodeError = false ->
  read_with P encs path st = (Raise e, st).
Proof.
  intros -> Hpre Hr Hc. induction Hpre as [|e0 pre (e' & He & Hs) _ IH]; simpl.
  - by rewrite Hr, Hc.
  - by rewrite He, Hs.
Qed.

Lemma decode_html_read path st html st1 :
  path_exists P path = true ->
  read_with P encodings path st = (Return (Some html), st1) ->
  decode_html P path st
  = try_except (decode P html)
      (fun e => log ERROR ("读取文件时出错: " +:+ exc_message e);; raise e)
      (with_file_counted st1).
Proof.
  intros He Hr. unfold decode_html. rewrite He. cbn [negb].
  unfold try_except at 1. unfold mbind at 1, M_bind at 1.
  fold encodings. rewrite Hr. reflexivity.
Qed.

End Reading.

(** X16: a call of [decode_html] adds one to [processed_files] exactly when
    the file exists and could be read with one of the encodings, whether or
    not the markup then decodes; otherwise the counter stays as it is. *)
Theorem decode_html_processed_files (P : Platform) (file_path : string) (st : State) :
  processed_files (decoder (snd (decode_html P file_path st)))
  = processed_files (decoder st)
    + (if path_exists P file_path
       then match fst (read_with P encodings file_path st) with
            | Return (Some _) => 1
            | _ => 0
            end
       else 0).
Proof.
  destruct (path_exists P file_path) eqn:He.
  - destruct (read_with_logs P encodings file_path st) as (records & Hs).
    destruct (read_with P encodings file_path st) as [[[html|]|e] st1] eqn:Hr;
      simpl in Hs; subst st1.
    + rewrite (decode_html_read P _ _ _ _ He Hr). unfold try_except.
      pose proof (decode_same_files P html (with_file_counted (with_logged st records)))
        as Hd. unfold same_files in Hd.
      destruct (decode P html _) as [[bs|e] st2]; simpl in *; rewrite Hd; reflexivity.
    + unfold decode_html. rewrite He. cbn [negb].
      unfold try_except, mbind, M_bind. fold encodings. rewrite Hr. simpl. lia.
    + unfold decode_html. rewrite He. cbn [negb].
      unfold try_except, mbind, M_bind. fold encodings. rewrite Hr. simpl. lia.
  - unfold decode_html. rewrite He. simpl. lia.
Qed.

(** X17: when the encodings tried before [encoding] are refused with
    [UnicodeDecodeError] and [encoding] reads the file, the text read with
    [encoding] is the one decoded: [decode_html] logs that encoding, counts
    the file and goes on as [decode] does on that text (an exception of
    [decode] being logged once more before it is raised again). *)
Theorem decode_html_first_readable (P : Platform) (file_path : string) (st : State)
    (before : list string) (encoding : string) (after : list string)
    (html_content : string) :
  path_exists P file_path = true ->
  encodings = before ++ encoding :: after ->
  Forall (undecodable P file_path) before ->
  read_text P file_path encoding = Return html_content ->
  decode_html P file_path st
  = try_except (decode P html_content)
      (fun e => log ERROR ("读取文件时出错: " +:+ exc_message e);; raise e)
      (with_file_counted (with_logged st [(INFO, "使用编码: " +:+ encoding)])).
Proof.
  intros He Hs Hb Hr. apply decode_html_read; [exact He|].
  by apply (read_with_first P encodings file_path st before encoding after).
Qed.

Lemma decode_html_first_readable_witness :
  exists bookmarks st',
    decode_html Cases.mixed_disk "gbk.html" initial_state = (Return bookmarks, st')
    /\ length bookmarks = 3
    /\ logged st' = [(INFO, "使用编码: gbk")]
    /\ processed_files (decoder st') = 1.
Proof.
  rewrite (decode_html_first_readable Cases.mixed_disk "gbk.html" initial_state
             ["utf-8"] "gbk" ["latin-1"; "iso-8859-1"] Samples.two_and_folder_html).
  - eexists _, _. split; [vm_compute; reflexivity|]. by split_and!.
  - reflexivity.
  - reflexivity.
  - constructor; [|constructor]. exists Cases.not_utf8. by split.
  - reflexivity.
Defined.

(** X18: an exception of a read that is not a [UnicodeDecodeError] (the
    file cannot be opened, say) ends the search at once, whichever encoding
    was being tried after the refused ones: no other encoding is tried, the
    exception is logged once as an error and raised again, and the file is
    not counted. *)
Theorem decode_html_read_error (P : Platform) (file_path : string) (st : State)
    (before : list string) (encoding : string) (after : list string) (e : Exception) :
  path_exists P file_path = true ->
  encodings = before ++ encoding :: after ->
  Forall (undecodable P file_path) before ->
  read_text P file_path encoding = Raise e ->
  issubclass (exc_class e) UnicodeDecodeError = false ->
  decode_html P file_path st
  = (Raise e, with_logged st [(ERROR, "读取文件时出错: " +:+ exc_message e)]).
Proof.
  intros He Hs Hb Hr Hc. unfold decode_html. rewrite He. cbn [negb].
  unfold try_except, mbind, M_bind. fold encodings.
  by rewrite (read_with_raises P encodings file_path st before encoding after e).
Qed.

Lemma decode_html_read_error_witness :
  decode_html Cases.mixed_disk "locked.html" initial_state
  = (Raise Cases.denied,
     with_logged initial_state [(ERROR, "读取文件时出错: Permission denied")])
  /\ decode_html Cases.legacy_encoded "locked.html" initial_state
     = (Raise Cases.denied,
        with_logged initial_state [(ERROR, "读取文件时出错: Permission denied")]).
Proof.
  split.
  - apply (decode_html_read_error Cases.mixed_disk "locked.html" initial_state
             [] "utf-8" ["gbk"; "latin-1"; "iso-8859-1"] Cases.denied);
      first [reflexivity|constructor].
  - apply (decode_html_read_error Cases.legacy_encoded "locked.html" initial_state
             ["utf-8"] "gbk" ["latin-1"; "iso-8859-1"] Cases.denied);
      try reflexivity.
    constructor; [|constructor]. exists Cases.not_utf8. by split.
Defined.

(** X19: when the file is read, with whichever encoding is the first that
    is not refused, but the parser raises, [decode_html] raises the parser's
    exception after logging the encoding and then the exception twice as an
    error (once in [decode], once in [decode_html]); the file has been
    counted, no bookmark has. *)
Theorem decode_html_parser_error (P : Platform) (file_path html_content : string)
    (st : State) (before : list string) (encoding : string) (after : list string)
    (e : Exception) :
  path_exists P file_path = true ->
  encodings = before ++ encoding :: after ->
  Forall (undecodable P file_path) before ->
  read_text P file_path encoding = Return html_content ->
  html_parser P html_content = Raise e ->
  decode_html P file_path st
  = (Raise e,
     with_logged (with_file_counted st)
       [(INFO, "使用编码: " +:+ encoding);
        (ERROR, "解码 HTML 内容时出错: " +:+ exc_message e);
        (ERROR, "读取文件时出错: " +:+ exc_message e)]).
Proof.
  intros He Hs Hb Hr Hp.
  rewrite (decode_html_read P file_path st html_content
             (with_logged st [(INFO, "使用编码: " +:+ encoding)]) He).
  - unfold try_except, decode, mbind, M_bind, lift. rewrite Hp.
    unfold log, raise, with_logged, with_file_counted. simpl.
    by rewrite <- !app_assoc.
  - by apply (read_with_first P encodings file_path st before encoding after).
Qed.

Lemma decode_html_parser_error_witness :
  (logged (snd (decode_html Cases.broken_parser "b.html" initial_state))
   = [(INFO, "使用编码: utf-8");
      (ERROR, "解码 HTML 内容时出错: markup rejected");
      (ERROR, "读取文件时出错: markup rejected")]
   /\ decoder (snd (decode_html Cases.broken_parser "b.html" initial_state))
      = mkDecoder 0 0 1)
  /\ logged (snd (decode_html Cases.legacy_encoded "gbk.html" initial_state))
     = [(INFO, "使用编码: gbk");
        (ERROR, "解码 HTML 内容时出错: markup rejected");
        (ERROR, "读取文件时出错: markup rejected")].
Proof.
  split.
  - rewrite (decode_html_parser_error Cases.broken_parser "b.html" "<dl>" initial_state
               [] "utf-8" ["gbk"; "latin-1"; "iso-8859-1"] Cases.rejected);
      [|first [reflexivity|constructor]..].
    split; reflexivity.
  - rewrite (decode_html_parser_error Cases.legacy_encoded "gbk.html" "<dl>" initial_state
               ["utf-8"] "gbk" ["latin-1"; "iso-8859-1"] Cases.rejected);
      [reflexivity|reflexivity|reflexivity| |reflexivity|reflexivity].
    constructor; [|constructor]. exists Cases.not_utf8. by split.
Defined.

(** ** The converter after a decoding that found records *)

Section ConvertRuns.

Variable P : Platform.
Variable _formats : Formats.

(** [convert] unfolded after a decoding that returned records *)
Lemma convert_after_decode input_file output_format output_file st b bs st1 :
  decode_html P input_file
    (with_logged st [(INFO, "开始转换: " +:+ input_file +:+ " -> " +:+ output_format)])
  = (Return (b :: bs), st1) ->
  convert P _formats input_file output_format output_file st
  = try_except
      (result ← encode _formats (b :: bs) output_format output_file;
       log INFO ("转换完成: " +:+ PyStr.upper output_format +:+ " 格式");;
       mret result)
      (fun e => log ERROR ("编码过程中出错: " +:+ exc_message e);; raise e)
      (with_logged st1
         [(INFO, "解码完成: 找到 " +:+ PyStr.of_nat (length (b :: bs)) +:+ " 个书签")]).
Proof.
  intros H. unfold convert. unfold mbind at 1, M_bind at 1.
  change (log INFO ("开始转换: " +:+ input_file +:+ " -> " +:+ output_format) st)
    with (Return tt,
          with_logged st [(INFO, "开始转换: " +:+ input_file +:+ " -> " +:+ output_format)]).
  cbv beta iota. unfold mbind at 1, M_bind at 1. rewrite H. reflexivity.
Qed.

End ConvertRuns.

(** X20: the format name is looked up only after the file has been
    decoded.  When the decoding returned records and the name is not
    registered, [convert] raises the unsupported-format error after logging
    the number of records found and the error; the counters of the decoder
    have already advanced. *)
Theorem convert_unregistered_after_decode (P : Platform) (_formats : Formats)
    (input_file output_format : string) (output_file : option string)
    (st : State) (b : Bookmark) (bs : list Bookmark) (st1 : State) :
  decode_html P input_file
    (with_logged st [(INFO, "开始转换: " +:+ input_file +:+ " -> " +:+ output_format)])
  = (Return (b :: bs), st1) ->
  output_format ∉ get_available_formats _formats ->
  convert P _formats input_file output_format output_file st
  = (Raise (mkException ValueError ("不支持的输出格式: " +:+ output_format)),
     with_logged st1
       [(INFO, "解码完成: 找到 " +:+ PyStr.of_nat (length (b :: bs)) +:+ " 个书签");
        (ERROR, "编码过程中出错: 不支持的输出格式: " +:+ output_format)]).
Proof.
  intros Hd Hf. rewrite (convert_after_decode P _formats _ _ _ _ _ _ _ Hd).
  unfold try_except, mbind, M_bind, encode.
  rewrite (dict_get_unregistered _ _ Hf).
  unfold raise, log, with_logged. simpl. by rewrite <- !app_assoc.
Qed.

Lemma convert_unregistered_after_decode_witness :
  fst (convert Cases.one_file (builtin_formats Cases.one_file) "b.html" "xml" None
         initial_state)
  = Raise (mkException ValueError "不支持的输出格式: xml")
  /\ decoder (snd (convert Cases.one_file (builtin_formats Cases.one_file) "b.html" "xml"
                     None initial_state))
     = mkDecoder 3 0 1.
Proof.
  set (st0 := with_logged initial_state
                [(INFO, "开始转换: " +:+ "b.html" +:+ " -> " +:+ "xml")]).
  destruct (decode_html Cases.one_file "b.html" st0) as [[[|b bs]|e] st1] eqn:Hd;
    try (vm_compute in Hd; discriminate).
  rewrite (convert_unregistered_after_decode Cases.one_file
             (builtin_formats Cases.one_file) "b.html" "xml" None initial_state
             b bs st1 Hd).
  - split; [reflexivity|].
    vm_compute in Hd. injection Hd as _ _ <-. reflexivity.
  - rewrite builtin_format_names. apply (bool_decide_unpack _). reflexivity.
Defined.

(** X21: when the decoding returned records and the format is registered,
    [convert] hands the records and the output file to the registered
    encoder and passes its outcome on unchanged: a result is returned after
    one more line in the log, an exception is logged as an error and raised
    again. *)
Theorem convert_passes_encoder_outcome (P : Platform) (_formats : Formats)
    (input_file output_format : string) (output_file : option string)
    (st : State) (b : Bookmark) (bs : list Bookmark) (st1 : State)
    (encoder : Encoder) :
  decode_html P input_file
    (with_logged st [(INFO, "开始转换: " +:+ input_file +:+ " -> " +:+ output_format)])
  = (Return (b :: bs), st1) ->
  dict_get output_format _formats = Some encoder ->
  convert P _formats input_file output_format output_file st
  = match encoder (b :: bs) output_file
            (with_logged st1
               [(INFO, "解码完成: 找到 " +:+ PyStr.of_nat (length (b :: bs)) +:+ " 个书签")])
    with
    | (Return result, st2) =>
        (Return result,
         with_logged st2 [(INFO, "转换完成: " +:+ PyStr.upper output_format +:+ " 格式")])
    | (Raise e, st2) =>
        (Raise e, with_logged st2 [(ERROR, "编码过程中出错: " +:+ exc_message e)])
    end.
Proof.
  intros Hd Hf. rewrite (convert_after_decode P _formats _ _ _ _ _ _ _ Hd).
  unfold try_except, mbind, M_bind, encode. rewrite Hf.
  destruct (encoder _ _ _) as [[result|e] st2]; reflexivity.
Qed.

Lemma convert_passes_encoder_outcome_witness :
  fst (convert Cases.one_file (builtin_formats Cases.one_file) "b.html" "json"
         (Some "out") initial_state)
  = Return (PyStr_ "out.json").
Proof.
  set (st0 := with_logged initial_state
                [(INFO, "开始转换: " +:+ "b.html" +:+ " -> " +:+ "json")]).
  destruct (decode_html Cases.one_file "b.html" st0) as [[[|b bs]|e] st1] eqn:Hd;
    try (vm_compute in Hd; discriminate).
  rewrite (convert_passes_encoder_outcome Cases.one_file
             (builtin_formats Cases.one_file) "b.html" "json" (Some "out") initial_state
             b bs st1 (_encode_json Cases.one_file) Hd); reflexivity.
Defined.

(** ** main *)

Section MainRuns.

Variable P : Platform.
Variable _formats : Formats.

(** Input files that do not exist only leave a warning each. *)
Lemma main_loop_missing args files results st :
  Forall (fun f => path_exists P f = false) files ->
  main_loop P _formats args files results st
  = (Return results, with_logged st (map missing_file_warning files)).
Proof.
  intros H. revert st. induction H as [|f files Hf _ IH]; intros st.
  - simpl. unfold with_logged. rewrite app_nil_r. by destruct st.
  - cbn [main_loop]. rewrite Hf. cbn [negb].
    unfold mbind at 1, M_bind at 1.
    change (log WARNING ("文件 " +:+ f +:+ " 不存在") st)
      with (Return tt, with_logged st [missing_file_warning f]).
    cbv beta iota. rewrite IH. unfold with_logged. simpl. by rewrite <- app_assoc.
Qed.

(** A conversion that raises ends the loop. *)
Lemma main_loop_raises args f rest results st e st1 :
  path_exists P f = true ->
  stats_only args = false ->
  convert P _formats f (format args) (output_for args f) st = (Raise e, st1) ->
  main_loop P _formats args (f :: rest) results st = (Raise e, st1).
Proof.
  intros He Hs Hc. cbn [main_loop]. rewrite He, Hs. cbn [negb].
  unfold mbind, M_bind. by rewrite Hc.
Qed.

(** In statistics mode the loop of [main] is [stats_loop]. *)
Lemma main_loop_stats args files results st :
  stats_only args = true ->
  main_loop P _formats args files results st
  = match stats_loop P files st with
    | (Return _, st') => (Return results, st')
    | (Raise e, st') => (Raise e, st')
    end.
Proof.
  intros Hs. revert st. induction files as [|f rest IH]; intros st; [reflexivity|].
  rewrite stats_loop_cons. cbn [main_loop]. rewrite Hs.
  destruct (negb (path_exists P f)).
  - unfold mbind, M_bind. simpl. apply IH.
  - unfold mbind at 1, M_bind at 1.
    destruct (decode_html P f st) as [[bookmarks|e] st1]; [|reflexivity].
    unfold mbind, M_bind, print, get_decoder. simpl. rewrite IH.
    unfold stats_report. simpl. by rewrite <- !app_assoc.
Qed.

Lemma stats_loop_written files st :
  written (snd (stats_loop P files st)) = written st.
Proof.
  revert st. induction files as [|f rest IH]; intros st; [reflexivity|].
  rewrite stats_loop_cons. destruct (negb _).
  - rewrite IH. reflexivity.
  - pose proof (decode_html_decoder_only P f st) as (_ & _ & Hw).
    destruct (decode_html P f st) as [[bookmarks|e] st1]; simpl in Hw; [|exact Hw].
    rewrite IH. exact Hw.
Qed.

End MainRuns.

(** X22: input files that do not exist are passed over: when none of the
    files exists, [main] logs one warning per file, in order, prints and
    writes nothing, and returns exit status 0, in either mode. *)
Theorem main_missing_files (P : Platform) (_formats : Formats) (args : Args)
    (st : State) :
  Forall (fun f => path_exists P f = false) (input_files args) ->
  main P _formats args st
  = (Return 0%Z,
     with_logged (with_fresh_decoder st) (map missing_file_warning (input_files args))).
Proof.
  intros H. unfold main, try_except. unfold mbind at 1, M_bind at 1.
  change (set_decoder BookmarkDecoder_init st) with (Return tt, with_fresh_decoder st).
  cbv beta iota. unfold mbind at 1, M_bind at 1.
  by rewrite (main_loop_missing P _formats args _ [] _ H).
Qed.

Lemma main_missing_files_witness :
  main Samples.platform (builtin_formats Samples.platform)
       (mkArgs ["a.html"; "b.html"] "excel" None false) initial_state
  = (Return 0%Z,
     with_logged initial_state
       [(WARNING, "文件 a.html 不存在"); (WARNING, "文件 b.html 不存在")]).
Proof.
  apply (main_missing_files Samples.platform (builtin_formats Samples.platform)
           (mkArgs ["a.html"; "b.html"] "excel" None false) initial_state).
  repeat constructor.
Defined.

(** X23: a conversion that raises ends the run: when the conversion of the
    first input file raises, [main] logs the exception once more as an error
    and returns exit status 1, and the input files that follow are not
    touched, whatever they are. *)
Theorem main_stops_at_first_failure (P : Platform) (_formats : Formats) (args : Args)
    (st : State) (input_file : string) (rest : list string) (e : Exception)
    (st1 : State) :
  input_files args = input_file :: rest ->
  stats_only args = false ->
  path_exists P input_file = true ->
  convert P _formats input_file (format args) (output_for args input_file)
          (with_fresh_decoder st) = (Raise e, st1) ->
  main P _formats args st
  = (Return 1%Z, with_logged st1 [(ERROR, "程序执行出错: " +:+ exc_message e)]).
Proof.
  intros Hf Hs He Hc. unfold main, try_except. unfold mbind at 1, M_bind at 1.
  change (set_decoder BookmarkDecoder_init st) with (Return tt, with_fresh_decoder st).
  cbv beta iota. unfold mbind at 1, M_bind at 1. rewrite Hf.
  by rewrite (main_loop_raises P _formats args input_file rest [] _ e st1 He Hs Hc).
Qed.

Lemma main_stops_at_first_failure_witness :
  main Cases.mixed_disk (builtin_formats Cases.mixed_disk)
       (mkArgs ["locked.html"; "gbk.html"] "json" None false) initial_state
  = (Return 1%Z,
     with_logged initial_state
       [(INFO, "开始转换: locked.html -> json");
        (ERROR, "读取文件时出错: Permission denied");
        (ERROR, "程序执行出错: Permission denied")]).
Proof.
  rewrite (main_stops_at_first_failure Cases.mixed_disk (builtin_formats Cases.mixed_disk)
             (mkArgs ["locked.html"; "gbk.html"] "json" None false) initial_state
             "locked.html" ["gbk.html"] Cases.denied
             (with_logged initial_state
                [(INFO, "开始转换: locked.html -> json");
                 (ERROR, "读取文件时出错: Permission denied")]));
    reflexivity.
Defined.

(** X24: with [--stats-only], [main] does what [main_stats_only] describes,
    whatever the format and the output name; in particular it writes no
    file. *)
Theorem main_stats_only_writes_nothing (P : Platform) (_formats : Formats) (args : Args)
    (st : State) :
  stats_only args = true ->
  main P _formats args st = main_stats_only P (input_files args) st
  /\ written (snd (main P _formats args st)) = written st.
Proof.
  intros Hs.
  pose proof (stats_loop_written P (input_files args) (with_fresh_decoder st)) as Hw.
  assert (main P _formats args st = main_stats_only P (input_files args) st) as E.
  { unfold main, main_stats_only, try_except, mbind, M_bind, set_decoder.
    fold (with_fresh_decoder st).
    rewrite (main_loop_stats P _formats args _ [] _ Hs).
    destruct (stats_loop P (input_files args) (with_fresh_decoder st)) as [[[]|e] st1];
      reflexivity. }
  split; [exact E|]. rewrite E.
  unfold main_stats_only, try_except, mbind, M_bind, set_decoder.
  fold (with_fresh_decoder st).
  destruct (stats_loop P (input_files args) (with_fresh_decoder st)) as [[[]|e] st1];
    exact Hw.
Qed.

Lemma main_stats_only_writes_nothing_witness :
  written (snd (main Cases.one_file (builtin_formats Cases.one_file)
                     (mkArgs ["b.html"] "json" (Some "out") true) initial_state)) = []
  /\ printed (snd (main Cases.one_file (builtin_formats Cases.one_file)
                       (mkArgs ["b.html"] "json" (Some "out") true) initial_state))
     = [String "010" "文件: b.html"; "书签数: 3"; "文件夹数: 0"].
Proof.
  destruct (main_stats_only_writes_nothing Cases.one_file (builtin_formats Cases.one_file)
              (mkArgs ["b.html"] "json" (Some "out") true) initial_state)
    as [E Hw]; [reflexivity|].
  split; [exact Hw|]. rewrite E. vm_compute. reflexivity.
Defined.

(** ** Nested folders *)

Section NestedFolders.

Variables (attrs : gmap string string) (text : string).

Lemma descendants_one up name ats c :
  Soup.descendants up (Soup.Tag name ats [c])
  = Soup.mkElement c (Soup.mkFrame (Soup.Tag name ats [c]) [] :: up)
    :: Soup.descendants (Soup.mkFrame (Soup.Tag name ats [c]) [] :: up) c.
Proof. cbn [Soup.descendants]. by rewrite app_nil_r. Qed.

Lemma descendants_two up name ats c1 c2 :
  Soup.descendants up (Soup.Tag name ats [c1; c2])
  = Soup.mkElement c1 (Soup.mkFrame (Soup.Tag name ats [c1; c2]) [] :: up)
    :: Soup.descendants (Soup.mkFrame (Soup.Tag name ats [c1; c2]) [] :: up) c1
    ++ Soup.mkElement c2 (Soup.mkFrame (Soup.Tag name ats [c1; c2]) [c1] :: up)
       :: Soup.descendants (Soup.mkFrame (Soup.Tag name ats [c1; c2]) [c1] :: up) c2.
Proof. cbn [Soup.descendants]. by rewrite app_nil_r. Qed.

Lemma item_not_anchor names a up :
  Nesting.is_a (Soup.mkElement (Nesting.item names a) up) = false.
Proof. by destruct names. Qed.

Lemma filter_cons_false {A} (f : A -> bool) (x : A) (l : list A) :
  f x = false -> List.filter f (x :: l) = List.filter f l.
Proof. intros H. cbn [List.filter]. by rewrite H. Qed.

Lemma heading_no_anchor up name :
  List.filter Nesting.is_a
    (Soup.descendants up (Soup.Tag "h3" ∅ [Soup.NavigableString name])) = [].
Proof. reflexivity. Qed.

(** The only anchor below an item is the one it was built around. *)
Lemma item_anchor (names : list string) (up : list Soup.Frame) :
  List.filter Nesting.is_a (Soup.descendants up (Nesting.item names (Samples.link attrs text)))
  = [Soup.mkElement (Samples.link attrs text)
       (Nesting.chain names (Samples.link attrs text) up)].
Proof.
  revert up. induction names as [|name inner IH]; intros up; [reflexivity|].
  cbn [Nesting.item Nesting.chain]. unfold Samples.tag.
  rewrite descendants_two.
  rewrite filter_cons_false by reflexivity.
  rewrite List.filter_app, heading_no_anchor. cbn [app].
  rewrite filter_cons_false by reflexivity.
  rewrite descendants_one.
  rewrite filter_cons_false by apply item_not_anchor.
  rewrite IH. reflexivity.
Qed.

(** The loop over the ancestors of the anchor collects the names, the
    outermost first, when none of them is empty. *)
Lemma folder_loop_chain (names : list string) (a : Soup.Node) (up : list Soup.Frame)
    (acc : list string) :
  Forall (fun name => name <> EmptyString) names ->
  folder_loop (Nesting.chain names a up) acc = folder_loop up (names ++ acc).
Proof.
  intros H. revert up acc. induction H as [|name inner Hn _ IH]; intros up acc.
  - reflexivity.
  - cbn [Nesting.chain]. rewrite IH.
    destruct name as [|c name]; [done|]. reflexivity.
Qed.

End NestedFolders.

Lemma filter_cons_true {A} (f : A -> bool) (x : A) (l : list A) :
  f x = true -> List.filter f (x :: l) = x :: List.filter f l.
Proof. intros H. cbn [List.filter]. by rewrite H. Qed.

(** The root of a nested document and its only link *)
Lemma nested_root (names : list string) (attrs : gmap string string) (text : string) :
  exists root link,
    Soup.find "dl" (Soup.top_element (Nesting.doc names (Samples.link attrs text)))
    = Some root
    /\ Soup.find_all "a" root = [link]
    /\ Soup.node link = Samples.link attrs text
    /\ (Forall (fun name => name <> EmptyString) names ->
        folder_loop (Soup.ancestors link) [] = names).
Proof.
  eexists _, _. split_and!.
  - unfold Soup.find, Soup.find_all, Nesting.doc, Soup.document, Soup.top_element.
    cbn [Soup.node Soup.ancestors]. rewrite descendants_one.
    rewrite filter_cons_true by reflexivity. reflexivity.
  - unfold Soup.find_all. cbn [Soup.node Soup.ancestors]. unfold Samples.tag.
    rewrite descendants_one.
    change (fun d : Soup.Element => Soup.is_tag "a" (Soup.node d)) with Nesting.is_a.
    rewrite filter_cons_false by apply item_not_anchor.
    apply item_anchor.
  - reflexivity.
  - intros H. cbn [Soup.ancestors]. rewrite folder_loop_chain by done.
    rewrite app_nil_r. reflexivity.
Qed.

Section FoldersOfAnchors.

Variable P : Platform.

(** The loop over the ancestors puts the headings of the lists above the
    link, the outermost first, in front of the path. *)
Lemma folder_loop_headings (chain : list Soup.Frame) (folder_path : list string) :
  folder_loop chain folder_path
  = omap heading_of (reverse (enclosing_lists chain)) ++ folder_path.
Proof.
  revert folder_path. induction chain as [|f up IH]; intros acc; [reflexivity|].
  cbn [folder_loop enclosing_lists].
  destruct (Soup.is_tag "dl" (Soup.parent f)); [|apply IH].
  rewrite IH, reverse_cons, omap_app, <- app_assoc. f_equal.
  unfold folder_step, heading_of. cbn [omap list_omap].
  destruct (Soup.find_previous_sibling "h3" _) as [folder_tag|]; [|reflexivity].
  destruct (Soup.string_of (Soup.node folder_tag)) as [s|]; [|reflexivity].
  by destruct (PyStr.truthy s).
Qed.

Lemma folder_path_headings (link : Soup.Element) : folder_path link = headings link.
Proof. unfold folder_path, headings. by rewrite folder_loop_headings, app_nil_r. Qed.

(** A link whose timestamps convert yields its record and changes nothing;
    any other link yields nothing. *)
Lemma parse_bookmark_converts a f st :
  if converts P a
  then exists b, _parse_bookmark P a f st = (Return (Some b), st)
                 /\ folder b = _clean_folder_path f
                 /\ url b = PyStr.strip (Soup.get_default "href" EmptyString a)
                 /\ icon b = Soup.get_default "icon" EmptyString a
  else exists st', _parse_bookmark P a f st = (Return None, st').
Proof.
  unfold converts, _parse_bookmark, try_except, mbind, M_bind, lift, mret, M_ret, log.
  destruct (_convert_timestamp P (Soup.get_default "add_date" _ a)); simpl;
    [|by eexists].
  destruct (_convert_timestamp P (Soup.get_default "last_modified" _ a)); simpl;
    [|by eexists].
  eexists. split; [reflexivity|]. by split_and!.
Qed.

(** The loop returns one record for each link whose timestamps convert, in
    the order of the links. *)
Lemma parse_links_kept links acc st :
  exists bs,
    fst (parse_links P links acc st) = Return (acc ++ bs)
    /\ Forall2 (fun l b =>
                  folder b = _clean_folder_path (folder_of l)
                  /\ url b = PyStr.strip (Soup.get_default "href" EmptyString (Soup.node l))
                  /\ icon b = Soup.get_default "icon" EmptyString (Soup.node l))
               (List.filter (fun l => converts P (Soup.node l)) links) bs.
Proof.
  revert acc st. induction links as [|l links IH]; intros acc st.
  - exists []. simpl. by rewrite app_nil_r.
  - rewrite parse_links_cons. cbn [List.filter].
    pose proof (parse_bookmark_converts (Soup.node l) (folder_of l) st) as Hl.
    destruct (converts P (Soup.node l)).
    + destruct Hl as (b & -> & Hb).
      match goal with
      | |- context [parse_links P links ?acc' ?st'] =>
          destruct (IH acc' st') as (bs & Hr & Hf)
      end.
      exists (b :: bs). rewrite Hr. split; [by rewrite <- app_assoc|].
      by constructor.
    + destruct Hl as (st' & ->). apply IH.
Qed.

End FoldersOfAnchors.

(** In a document of nested folders the headings above the link are the
    names of the folders, the outermost first. *)
Lemma nested_doc_headings (names : list string) (attrs : gmap string string)
    (text : string) :
  Forall (fun name => name <> EmptyString) names ->
  exists root link,
    Soup.find "dl" (Soup.top_element (Nesting.doc names (Samples.link attrs text)))
    = Some root
    /\ Soup.find_all "a" root = [link]
    /\ headings link = names.
Proof.
  intros Hn.
  destruct (nested_root names attrs text) as (root & link & Hroot & Hall & _ & Hloop).
  exists root, link. split_and!; [exact Hroot|exact Hall|].
  rewrite <- folder_path_headings. by apply Hloop.
Qed.

(** X25: for every parse tree with a root list, [decode] returns one record
    for each anchor below the root whose two timestamps convert, in document
    order; the other anchors give no record.  The folder of a record is the
    cleaned path of the headings that name the lists above its anchor, the
    outermost first, joined with [" > "], and the placeholder when no list
    above the anchor has a heading; its URL is the stripped [href] and its
    icon the [icon] attribute of the anchor. *)
Theorem decode_folders_of_anchors (P : Platform) (html_content : string)
    (soup : Soup.Node) (root : Soup.Element) (st : State) :
  html_parser P html_content = Return soup ->
  Soup.find "dl" (Soup.top_element soup) = Some root ->
  exists bookmarks,
    fst (decode P html_content st) = Return bookmarks
    /\ Forall2
         (fun link b =>
            folder b = _clean_folder_path
                         (match headings link with
                          | [] => "书签栏"
                          | name :: names => PyStr.join " > " (name :: names)
                          end)
            /\ url b = PyStr.strip (Soup.get_default "href" EmptyString (Soup.node link))
            /\ icon b = Soup.get_default "icon" EmptyString (Soup.node link))
         (List.filter (fun link => converts P (Soup.node link)) (Soup.find_all "a" root))
         bookmarks.
Proof.
  intros Hp Hroot.
  destruct (parse_links_kept P (Soup.find_all "a" root) [] st) as (bs & Hr & Hf).
  exists bs. split.
  - unfold decode, try_except, mbind, M_bind, lift. rewrite Hp. cbv beta iota.
    rewrite Hroot. unfold _parse_folder.
    destruct (parse_links P (Soup.find_all "a" root) [] st) as [r st1].
    simpl in Hr. by subst r.
  - eapply Forall2_impl; [exact Hf|].
    intros l b (Hfo & Hu & Hi). split_and!; [|exact Hu|exact Hi].
    rewrite Hfo. unfold folder_of. fold (folder_path l).
    by rewrite folder_path_headings.
Qed.

Lemma decode_folders_of_anchors_witness :
  (exists b,
     fst (decode Samples.platform Samples.nested_html initial_state) = Return [b]
     /\ folder b = "A > B")
  /\ (exists b,
        fst (decode Legacy.platform Legacy.late_html initial_state) = Return [b]
        /\ folder b = "书签栏" /\ url b = "http://a.example/").
Proof.
  split.
  - edestruct (decode_folders_of_anchors Samples.platform Samples.nested_html
                 Samples.nested_soup) with (st := initial_state) as (bs & Hd & Hf);
      [reflexivity|reflexivity|].
    apply Forall2_cons_inv_l in Hf as (b & bs' & (Hb & _) & Hf & ->).
    apply Forall2_nil_inv_l in Hf as ->.
    exists b. split; [exact Hd|]. rewrite Hb. reflexivity.
  - edestruct (decode_folders_of_anchors Legacy.platform Legacy.late_html
                 Legacy.late_soup) with (st := initial_state) as (bs & Hd & Hf);
      [reflexivity|reflexivity|].
    apply Forall2_cons_inv_l in Hf as (b & bs' & (Hb & Hu & _) & Hf & ->).
    apply Forall2_nil_inv_l in Hf as ->.
    exists b. split; [exact Hd|]. rewrite Hb, Hu. split; reflexivity.
Defined.

(** ** Domain extraction on ordinary URLs *)

Section OrdinaryUrls.

Import PyStr.

Lemma prefix_nil (s : string) : String.prefix EmptyString s = true.
Proof. by destruct s. Qed.

Lemma startswith_inv (p s : string) :
  startswith p s = true -> exists r, s = p +:+ r.
Proof.
  unfold startswith. revert s. induction p as [|x p IH]; intros s H.
  - by exists s.
  - destruct s as [|y s]; [done|]. cbn [String.prefix] in H.
    destruct (ascii_dec x y) as [->|]; [|done].
    destruct (IH s H) as (r & ->). by exists r.
Qed.

Lemma startswith_app_l (p a b : string) :
  startswith p a = true -> startswith p (a +:+ b) = true.
Proof.
  intros (r & ->)%startswith_inv. rewrite string_app_assoc. apply startswith_app.
Qed.

Lemma endswith_cons (p : string) (c : ascii) (s : string) :
  endswith p s = true -> endswith p (String c s) = true.
Proof. unfold endswith. rewrite rev_cons. apply startswith_app_l. Qed.

Lemma substring_all (m : nat) (r : string) :
  String.length r <= m -> String.substring 0 m r = r.
Proof.
  revert m. induction r as [|c r IH]; intros m H; [by destruct m|].
  destruct m as [|m]; [simpl in H; lia|]. cbn [String.substring].
  rewrite IH; [done|]. simpl in H. lia.
Qed.

Lemma fst_split_go_cons (sep : string) (c : ascii) (s : string) :
  startswith sep (String c s) = false ->
  fst (split_go sep 0 (String c s)) = String c (fst (split_go sep 0 s))
  /\ snd (split_go sep 0 (String c s)) = snd (split_go sep 0 s).
Proof.
  intros H. cbn [split_go]. rewrite H. by destruct (split_go sep 0 s).
Qed.

(** The first piece of a split at slashes is the text before the first
    slash. *)
Lemma first_piece_slash (s : string) : fst (split_go "/" 0 s) = Spec.up_to "/" s.
Proof.
  induction s as [|c s IH]; [reflexivity|].
  cbn [Spec.up_to]. destruct (Ascii.eqb_spec c "/") as [->|Hne].
  - cbn [split_go]. unfold startswith. cbn [String.prefix].
    destruct (ascii_dec "/" "/"); [|done]. by rewrite prefix_nil.
  - assert (startswith "/" (String c s) = false) as Hs.
    { unfold startswith. cbn [String.prefix]. destruct (ascii_dec "/" c); [|done].
      congruence. }
    destruct (fst_split_go_cons "/" c s Hs) as [-> _]. by rewrite IH.
Qed.

(** The second piece of a split at the scheme separator is the first piece
    of the text after the first separator. *)
Lemma second_piece_scheme (url rest : string) :
  Spec.after_first "://" url = Some rest ->
  split "://" url !! 1 = Some (fst (split_go "://" 0 rest)).
Proof.
  revert rest. induction url as [|c url IH]; intros rest H; [done|].
  cbn [Spec.after_first] in H.
  destruct (startswith "://" (String c url)) eqn:Hs.
  - destruct (startswith_inv _ _ Hs) as (r & Hr).
    change ("://" +:+ r) with (String ":" (String "/" (String "/" r))) in Hr.
    injection Hr as -> ->.
    cbn [String.length String.substring] in H.
    rewrite substring_all in H by lia. injection H as <-.
    unfold split. cbn [split_go]. rewrite Hs.
    cbn [String.length Nat.sub]. by destruct (split_go "://" 0 r).
  - unfold split in *. destruct (fst_split_go_cons "://" c url Hs) as [Hf Ht].
    specialize (IH rest H).
    destruct (split_go "://" 0 (String c url)) as [h t],
             (split_go "://" 0 url) as [h' t'].
    simpl in *. by subst t.
Qed.

(** Cutting at the second scheme separator does not change the text before
    the first slash, unless that text ends with a colon. *)
Lemma up_to_first_piece (rest : string) :
  endswith ":" (Spec.up_to "/" rest) = false ->
  Spec.up_to "/" (fst (split_go "://" 0 rest)) = Spec.up_to "/" rest.
Proof.
  induction rest as [|c rest IH]; intros H; [reflexivity|].
  destruct (startswith "://" (String c rest)) eqn:Hs.
  - destruct (startswith_inv _ _ Hs) as (r & Hr). rewrite Hr in H.
    by vm_compute in H.
  - destruct (fst_split_go_cons "://" c rest Hs) as [-> _].
    cbn [Spec.up_to] in *. destruct (Ascii.eqb c "/"); [reflexivity|].
    rewrite IH; [reflexivity|].
    destruct (endswith ":" (Spec.up_to "/" rest)) eqn:E; [|reflexivity].
    by rewrite (endswith_cons _ c _ E) in H.
Qed.

Lemma replace_absent (old new s : string) :
  contains old s = false -> replace old new s = s.
Proof.
  unfold replace. induction s as [|c s IH]; [reflexivity|].
  cbn [contains replace_go]. intros [H1 H2]%orb_false_elim.
  rewrite H1. by rewrite IH.
Qed.

(** Removing every [www.] is removing the leading one when there is none
    after it. *)
Lemma replace_www (a : string) :
  contains "www." (Spec.strip_leading_www a) = false ->
  replace "www." EmptyString a = Spec.strip_leading_www a.
Proof.
  unfold Spec.strip_leading_www. destruct (startswith "www." a) eqn:Hs.
  - destruct (startswith_inv _ _ Hs) as (r & ->).
    change ("www." +:+ r) with (String "w" (String "w" (String "w" (String "." r)))).
    cbn [String.length String.substring]. rewrite substring_all by lia.
    intros H. unfold replace. cbn [replace_go].
    change (String "w" (String "w" (String "w" (String "." r)))) with ("www." +:+ r).
    rewrite startswith_app. cbn [String.length Nat.sub].
    change ("www." +:+ r) with (String "w" (String "w" (String "w" (String "." r)))).
    cbn [replace_go]. rewrite string_app_nil_l. by apply replace_absent.
  - apply replace_absent.
Qed.

Lemma after_first_Some_contains (sep s rest : string) :
  Spec.after_first sep s = Some rest -> contains sep s = true.
Proof.
  intros H. destruct (contains sep s) eqn:E; [reflexivity|].
  by rewrite (after_first_contains sep s E) in H.
Qed.

End OrdinaryUrls.

(** X26: on a URL whose authority segment (the text between the first
    [://] and the next slash) does not end with a colon and contains no
    [www.] other than a leading one, [_extract_domain] returns the
    authority with the leading [www.] removed, as the specification words
    it. *)
Theorem extract_domain_ordinary (url authority : string) :
  Spec.authority url = Some authority ->
  PyStr.endswith ":" authority = false ->
  PyStr.contains "www." (Spec.strip_leading_www authority) = false ->
  _extract_domain url = Spec.strip_leading_www authority
  /\ _extract_domain url = Spec.extract_domain url.
Proof.
  intros Ha He Hw.
  assert (_extract_domain url = Spec.strip_leading_www authority) as E.
  { unfold Spec.authority in Ha.
    destruct (Spec.after_first "://" url) as [rest|] eqn:Hr; [|done].
    injection Ha as <-.
    unfold _extract_domain.
    rewrite (after_first_Some_contains _ _ _ Hr).
    assert (PyStr.truthy url = true) as -> by (by destruct url).
    cbn [negb orb].
    rewrite (second_piece_scheme _ _ Hr).
    unfold PyStr.split at 1.
    destruct (PyStr.split_go "/" 0 (PyStr.split_go "://" 0 rest).1) as [h t] eqn:Hh.
    cbn [lookup list_lookup].
    assert (h = Spec.up_to "/" rest) as ->.
    { change h with (fst (h, t)). rewrite <- Hh.
      rewrite first_piece_slash. by apply up_to_first_piece. }
    by apply replace_www. }
  split; [exact E|]. unfold Spec.extract_domain. by rewrite Ha.
Qed.

Lemma extract_domain_ordinary_witness :
  _extract_domain "https://www.example.com:8080/a?next=http://www.other.org/"
  = "example.com:8080".
Proof.
  apply (extract_domain_ordinary
           "https://www.example.com:8080/a?next=http://www.other.org/"
           "www.example.com:8080"); reflexivity.
Defined.

(** ** The summary sheet on the records of the decoder *)

Lemma one_row_exactly (x : string) :
  x ∈ Spec.type_names ->
  Nat.b2n (String.eqb x "website") + Nat.b2n (String.eqb x "local")
  + Nat.b2n (bool_decide (x ∈ ["other"; "unknown"]))
  + Nat.b2n (bool_decide (x ∈ ["javascript"; "email"])) = 1.
Proof.
  unfold Spec.type_names. intros H.
  repeat (apply elem_of_cons in H as [->|H]); [reflexivity..|].
  by apply elem_of_nil in H.
Qed.

(** When every record has one of the six types, each record is counted in
    one of the three rows or is a javascript or email record. *)
Lemma summary_rows_exact (bookmarks : list Bookmark) :
  Forall (fun b => bookmark_type b ∈ Spec.type_names) bookmarks ->
  count_if (of_type "website") bookmarks + count_if (of_type "local") bookmarks
  + count_if (of_types ["other"; "unknown"]) bookmarks
  + count_if javascript_or_email bookmarks
  = length bookmarks.
Proof.
  intros H. unfold count_if.
  induction H as [|b bs Hb _ IH]; [reflexivity|].
  rewrite !length_filter_cons. cbn [length].
  pose proof (one_row_exactly (bookmark_type b) Hb) as H1.
  unfold javascript_or_email at 1, of_type at 1 3, of_types at 1. lia.
Qed.

(** X27: for the records [decode] returns, the summary sheet that
    [_encode_excel] writes (when the workbook can be written) accounts for
    every record exactly once: the numbers of its three rows below the total
    and the number of javascript and email records add up to the total of
    its first row. *)
Theorem encode_excel_summary_of_decoded (P : Platform) (html_content : string)
    (st : State) (bookmarks : list Bookmark) (output_file : option string)
    (st' : State) :
  fst (decode P html_content st) = Return bookmarks ->
  write_failure P (output_name P output_file [".xlsx"] ".xlsx") = None ->
  let name := output_name P output_file [".xlsx"] ".xlsx" in
  let website := count_if (of_type "website") bookmarks in
  let local := count_if (of_type "local") bookmarks in
  let other := count_if (of_types ["other"; "unknown"]) bookmarks in
  _encode_excel P bookmarks output_file st'
  = (Return (PyStr_ name),
     with_written st' name
       (Workbook
          [("书签列表", rename column_mapping (DataFrame bookmarks));
           ("统计信息", summary_sheet (length bookmarks) website local other)]))
  /\ website + local + other + count_if javascript_or_email bookmarks
     = length bookmarks.
Proof.
  intros Hd Hw. cbn zeta. split; [by apply encode_excel_writes|].
  apply summary_rows_exact.
  eapply Forall_impl; [apply (decode_Forall P record_ok _ _ _ (parse_bookmark_record P) Hd)|].
  by intros b (_ & _ & _ & _ & _ & Ht & _).
Qed.

Lemma encode_excel_summary_of_decoded_witness :
  exists bookmarks,
    fst (decode Samples.platform Samples.two_and_folder_html initial_state)
    = Return bookmarks
    /\ written (snd (_encode_excel Samples.platform bookmarks (Some "out") initial_state))
       = [("out.xlsx",
           Workbook [("书签列表", rename column_mapping (DataFrame bookmarks));
                     ("统计信息", summary_sheet 3 3 0 0)])].
Proof.
  destruct (decode Samples.platform Samples.two_and_folder_html initial_state)
    as [[bookmarks|e] st1] eqn:Hd; [|vm_compute in Hd; discriminate].
  exists bookmarks. split; [reflexivity|].
  destruct (encode_excel_summary_of_decoded Samples.platform Samples.two_and_folder_html
              initial_state bookmarks (Some "out") initial_state) as [He _];
    [by rewrite Hd|reflexivity|].
  rewrite He. vm_compute in Hd. injection Hd as <- _. reflexivity.
Defined.

(** ** The older script, workspaces/html_to_excel.py *)

Section LegacyScript.

Variable P : Platform.
Variable py_int : string -> Outcome Z.

(** A link whose row raises makes the loop raise. *)
Lemma rows_of_raises links acc :
  Exists (fun l => exists e, Legacy.row_of P py_int l = Raise e) links ->
  exists e, Legacy.rows_of P py_int links acc = Raise e.
Proof.
  intros H. revert acc. induction H as [l links (e & He)|l links _ IH]; intros acc; simpl.
  - rewrite He. by exists e.
  - destruct (Legacy.row_of P py_int l) as [r|e]; [apply IH|by exists e].
Qed.

(** When the [add_date] of every link converts or is left as it is, the
    loop returns one row per link. *)
Lemma rows_of_returns links acc :
  Forall (fun l => is_return (Legacy.convert_add_date P py_int
                                (Soup.get_default "add_date" EmptyString (Soup.node l))))
         links ->
  exists rows,
    Legacy.rows_of P py_int links acc = Return (acc ++ rows)
    /\ Forall2 (fun l r => Legacy.row_of P py_int l = Return r) links rows.
Proof.
  intros H. revert acc. induction H as [|l links Hl _ IH]; intros acc.
  - exists []. simpl. by rewrite app_nil_r.
  - assert (exists r, Legacy.row_of P py_int l = Return r) as (r & Hr).
    { unfold Legacy.row_of. destruct (Legacy.convert_add_date P py_int _); [|done].
      by eexists. }
    destruct (IH (acc ++ [r])) as (rows & Hrows & Hf).
    exists (r :: rows). cbn [Legacy.rows_of]. rewrite Hr, Hrows.
    split; [by rewrite <- app_assoc|by constructor].
Qed.

End LegacyScript.

(** X28: [html_to_excel] never raises.  It returns [True] after writing
    one workbook with the single sheet of rows and printing two lines, or
    [False] after printing one line that reports the error and writing
    nothing. *)
Theorem html_to_excel_outcome (P : Platform) (py_int : string -> Outcome Z)
    (html_file : string) (excel_file : option string) (st : State) :
  (exists name rows,
     Legacy.html_to_excel P py_int html_file excel_file st
     = (Return true,
        with_printed
          (with_written st name (Workbook [("Sheet1", Legacy.DataFrame rows)]))
          ["成功转换 " +:+ PyStr.of_nat (length rows) +:+ " 个书签";
           "输出文件: " +:+ name]))
  \/ (exists e,
        Legacy.html_to_excel P py_int html_file excel_file st
        = (Return false, with_printed st ["转换过程中出现错误: " +:+ exc_message e])).
Proof.
  unfold Legacy.html_to_excel, try_except, mbind, M_bind, lift, write_file.
  destruct (read_text P html_file "utf-8") as [html|e]; [|right; by exists e].
  destruct (html_parser P html) as [soup|e]; [|right; by exists e].
  destruct (Legacy.rows_of P py_int _ []) as [rows|e]; [|right; by exists e].
  destruct (write_failure P _) as [e|] eqn:Hw; [right; by exists e|].
  left. eexists _, rows. unfold print, with_printed, with_written, mret, M_ret. simpl.
  by rewrite <- app_assoc.
Qed.

(** X29: when the file reads as UTF-8 and parses, the [add_date] of every
    anchor converts or is left as it is, and the disk accepts the write, the
    older script returns [True] and writes one workbook whose single sheet
    has one row for each anchor of the whole document (not only for those
    below the first list), in document order.  The row of an anchor has the
    [.string] of the anchor as title, or the placeholder when the anchor has
    none; the [href] and [icon] attributes as they are, not stripped; the
    headings of the lists above the anchor, the outermost first, joined with
    [" > "], or the placeholder, as folder, not cleaned; and the converted
    [add_date]. *)
Theorem html_to_excel_rows (P : Platform) (py_int : string -> Outcome Z)
    (html_file html_content : string) (excel_file : option string)
    (soup : Soup.Node) (st : State) :
  read_text P html_file "utf-8" = Return html_content ->
  html_parser P html_content = Return soup ->
  Forall (fun link =>
            is_return (Legacy.convert_add_date P py_int
                         (Soup.get_default "add_date" EmptyString (Soup.node link))))
         (Soup.find_all "a" (Soup.top_element soup)) ->
  (forall path, write_failure P path = None) ->
  let name :=
    default (Legacy.splitext_root html_file +:+ "_" +:+ now_stamp P +:+ ".xlsx")
            excel_file in
  exists rows,
    Legacy.html_to_excel P py_int html_file excel_file st
    = (Return true,
       with_printed
         (with_written st name (Workbook [("Sheet1", Legacy.DataFrame rows)]))
         ["成功转换 " +:+ PyStr.of_nat (length rows) +:+ " 个书签";
          "输出文件: " +:+ name])
    /\ Forall2
         (fun link r =>
            Legacy.row_title r
            = match Soup.string_of (Soup.node link) with
              | Some (String c s) => String c s
              | _ => "无标题"
              end
            /\ Legacy.row_url r = Soup.get_default "href" EmptyString (Soup.node link)
            /\ Legacy.row_folder r
               = match headings link with
                 | [] => "书签栏"
                 | name :: names => PyStr.join " > " (name :: names)
                 end
            /\ Legacy.convert_add_date P py_int
                 (Soup.get_default "add_date" EmptyString (Soup.node link))
               = Return (Legacy.row_add_date r)
            /\ Legacy.row_icon r = Soup.get_default "icon" EmptyString (Soup.node link))
         (Soup.find_all "a" (Soup.top_element soup)) rows.
Proof.
  intros Hr Hp Hc Hw. cbn zeta.
  destruct (rows_of_returns P py_int _ [] Hc) as (rows & Hrows & Hf).
  exists rows. split.
  - unfold Legacy.html_to_excel, try_except, mbind, M_bind, lift.
    rewrite Hr, Hp. cbv beta iota. rewrite Hrows. cbv beta iota.
    rewrite write_file_ok by done.
    unfold print, with_printed, with_written, mret, M_ret. simpl.
    rewrite <- app_assoc. by destruct excel_file.
  - eapply Forall2_impl; [exact Hf|].
    intros l r Hrow. unfold Legacy.row_of in Hrow.
    destruct (Legacy.convert_add_date P py_int _) as [d|e] eqn:Hd; [|done].
    injection Hrow as <-. cbn. split_and!; try reflexivity.
    + by destruct (Soup.string_of (Soup.node l)) as [[|c s]|].
    + unfold folder_of. fold (folder_path l). rewrite folder_path_headings.
      by destruct (headings l).
Qed.

Lemma html_to_excel_rows_witness :
  exists rows,
    written (snd (Legacy.html_to_excel Legacy.platform Legacy.int "stray.html"
                    (Some "out.xlsx") initial_state))
    = [("out.xlsx", Workbook [("Sheet1", Legacy.DataFrame rows)])]
    /\ map Legacy.row_folder rows = ["书签栏"; "F"]
    /\ map Legacy.row_add_date rows = [EmptyString; "soon"].
Proof.
  destruct (html_to_excel_rows Legacy.platform Legacy.int "stray.html" Legacy.stray_html
              (Some "out.xlsx") Legacy.stray_soup initial_state)
    as (rows & He & Hf); [reflexivity|reflexivity|repeat constructor|reflexivity|].
  exists rows. split; [by rewrite He|].
  apply Forall2_cons_inv_l in Hf as (r1 & rows1 & (_ & _ & F1 & D1 & _) & Hf & ->).
  apply Forall2_cons_inv_l in Hf as (r2 & rows2 & (_ & _ & F2 & D2 & _) & Hf & ->).
  apply Forall2_nil_inv_l in Hf as ->.
  cbn [map]. rewrite F1, F2. split; [reflexivity|].
  change (Return EmptyString = Return (Legacy.row_add_date r1)) in D1.
  change (Return "soon" = Return (Legacy.row_add_date r2)) in D2.
  injection D1 as <-. injection D2 as <-. reflexivity.
Defined.

(** X30: one anchor whose [add_date] converts to an integer that makes
    [fromtimestamp] raise an exception other than [ValueError] and [OSError]
    (an [OverflowError], say) makes the whole conversion fail: the older
    script returns [False], prints the error, and writes no workbook, where
    [run.py] would skip that one link. *)
Theorem html_to_excel_fails_on_one_link (P : Platform) (py_int : string -> Outcome Z)
    (html_file html_content : string) (excel_file : option string) (st : State)
    (soup : Soup.Node) (link : Soup.Element) (n : Z) (e : Exception) :
  read_text P html_file "utf-8" = Return html_content ->
  html_parser P html_content = Return soup ->
  link ∈ Soup.find_all "a" (Soup.top_element soup) ->
  Soup.get_default "add_date" EmptyString (Soup.node link) <> EmptyString ->
  py_int (Soup.get_default "add_date" EmptyString (Soup.node link)) = Return n ->
  fromtimestamp_strftime P n = Raise e ->
  issubclass (exc_class e) ValueError || issubclass (exc_class e) OSError = false ->
  exists e',
    Legacy.html_to_excel P py_int html_file excel_file st
    = (Return false, with_printed st ["转换过程中出现错误: " +:+ exc_message e']).
Proof.
  intros Hr Hp Hin Hne Hi Hf Hs.
  assert (exists e', Legacy.rows_of P py_int
                       (Soup.find_all "a" (Soup.top_element soup)) [] = Raise e')
    as (e' & He').
  { apply rows_of_raises. apply Exists_exists. exists link. split; [exact Hin|].
    exists e. unfold Legacy.row_of, Legacy.convert_add_date.
    destruct (Soup.get_default "add_date" EmptyString (Soup.node link)) as [|c s] eqn:Ea;
      [done|].
    cbn [PyStr.truthy]. by rewrite Hi, Hf, Hs. }
  exists e'.
  unfold Legacy.html_to_excel, try_except, mbind, M_bind, lift.
  by rewrite Hr, Hp, He'.
Qed.

Lemma html_to_excel_fails_on_one_link_witness :
  (fst (Legacy.html_to_excel Legacy.platform Legacy.int "late.html" (Some "out.xlsx")
          initial_state) = Return false
   /\ written (snd (Legacy.html_to_excel Legacy.platform Legacy.int "late.html"
                      (Some "out.xlsx") initial_state)) = [])
  /\ exists bookmarks,
       fst (decode_html Legacy.platform "late.html" initial_state) = Return bookmarks
       /\ length bookmarks = 1.
Proof.
  split.
  - destruct (html_to_excel_fails_on_one_link Legacy.platform Legacy.int
                "late.html" Legacy.late_html (Some "out.xlsx") initial_state
                Legacy.late_soup
                (Soup.mkElement
                   (Soup.Tag "a" {[ "href" := "http://b.example/";
                                    "add_date" := "99999999999999999999" ]}
                      [Soup.NavigableString "B"])
                   [Soup.mkFrame
                      (Samples.tag "dt"
                         [Soup.Tag "a" {[ "href" := "http://b.example/";
                                          "add_date" := "99999999999999999999" ]}
                            [Soup.NavigableString "B"]]) [];
                    Soup.mkFrame
                      (Samples.tag "dl"
                         [Samples.tag "dt" [Samples.anchor "http://a.example/" "A"];
                          Samples.tag "dt"
                            [Soup.Tag "a" {[ "href" := "http://b.example/";
                                             "add_date" := "99999999999999999999" ]}
                               [Soup.NavigableString "B"]]])
                      [Samples.tag "dt" [Samples.anchor "http://a.example/" "A"]];
                    Soup.mkFrame Legacy.late_soup []])
                99999999999999999999%Z
                (mkException OverflowError "timestamp out of range for platform time_t"))
      as (e' & He').
    + reflexivity.
    + reflexivity.
    + apply list_elem_of_further, list_elem_of_here.
    + vm_compute. discriminate.
    + vm_compute. reflexivity.
    + vm_compute. reflexivity.
    + reflexivity.
    + rewrite He'. split; reflexivity.
  - eexists. split; [vm_compute; reflexivity|reflexivity].
Defined.
